(** * rct-checker: the statistical anomaly-detection pipeline

    A shallow embedding of [src/statistical_analysis/{utils,statistical_tests,
    pipeline}.py] and of the wide-table projection [to_csv_wide] of
    [src/table_extraction/utils.py]; of the report collector of
    [src/statistical_analysis/report.py] and the loop of [main.py] that feeds
    it; of [validate_json] of [src/table_extraction/validate_output.py]; and
    of the choice of pages in [extract_table_text].

    Numbers.  numpy's float64 is modelled by [float]: the real numbers
    extended with the three special values the code tests for ([np.isnan],
    [np.isinf], pandas' [isna]).  Arithmetic on finite values is exact real
    arithmetic; rounding, overflow, underflow and the sign of zero are outside
    the model.  Python integers are [Z].

    Tables.  A pandas frame built by [to_csv_wide] has, for every group id
    that occurs in some row, one block of columns ["{gid} (mean)"],
    ["{gid} (count)"], ...  [DataFrame] keeps the list of those group ids
    (the column blocks) and the rows; a row that has no entry for a group holds
    NaN in that group's block, and asking for the column of a group without a
    block is a [KeyError].  Python dicts are association lists in insertion
    order, because the order of the keys decides the order of the rows of a
    contingency table and of the pooled z-scores.

    Column selections.  [filter(regex="(mean)")], [filter(regex="(count)")]
    and [filter(regex="(zscore)")] keep every column whose label contains the
    word.  When no group id contains the word (and, for "mean", the frame has
    no [population_mean] column yet) that is the mean, count or z-score
    column of every block, and this is what [retained],
    [process_categorical_variables] and [flatten_zscores] select.  A group id
    that contains the word makes the code select every column of that group,
    the text column ["{gid} (original)"] among them; what pandas makes of
    the sum or the mean of a text column depends on its version and is not
    modelled.  [plain] and [plain_means] say that a frame has no such group
    id.

    Column dtypes.  [_to_numeric] leaves a null as [None].  pandas turns it
    into NaN in a column that also holds a number or lacks the key in some
    record, and keeps a column of nothing but [None] as a column of dtype
    object (pandas 2).  The values are missing either way ([isna]), and they
    are NaN in [Cells]; the frame records which columns are object columns
    ([object_columns]), because arithmetic on an object column gives an
    object column and [np.isnan] raises [TypeError] on an array of dtype
    object.

    Outside the code.  scipy's [chi2.cdf], [fisher_exact] and
    [combine_pvalues], numpy's generator, [re.search], [str.strip] and the
    message of an exception are variables of the sections that use them. *)

From Stdlib Require Import Reals Lra Lia ZArith List String Bool.
From Stdlib Require Import DecimalString Sorted.
From Stdlib Require DecimalNat DecimalFacts.
Import ListNotations.

Local Open Scope string_scope.

(* ------------------------------------------------------------------------- *)
(** * Errors *)

Inductive value_error :=
| TotalSampleSizeZero            (* pipeline.py:64 *)
| NoPValuesCollected             (* pipeline.py:152 *)
| PValuesOutOfRange              (* pipeline.py:156 *)
| TotalSampleSizeNotPositive     (* utils.py:33 *)
| SampleSizeEmpty                (* utils.py:74 *)
| SampleSizesNotPositive         (* utils.py:76 *)
| CannotComputeSD (group : string)   (* utils.py:105 *)
| SemIsZero (group : string)         (* utils.py:119 *)
| SuccessExceedsTotal (group : string) (success total : Z) (* utils.py:158 *)
| NaNToInteger                   (* numpy: storing NaN in an int array *)
| ZscoresEmpty                   (* statistical_tests.py:14 *)
| ZscoresTooFew                  (* statistical_tests.py:16 *)
| ZscoresNaNOrInf                (* statistical_tests.py:18 *)
| Sigma0NotPositive.             (* statistical_tests.py:20 *)

Inductive error :=
| ValueError (why : value_error)
| KeyError (key : string)
| UFuncTypeError (ufunc : string)   (* numpy: no loop for dtype object *)
| LibraryError (msg : string).   (* raised inside scipy *)

Inductive result (A : Type) :=
| Ok (a : A)
| Err (e : error).
Arguments Ok {A} a.
Arguments Err {A} e.

Definition bind {A B} (m : result A) (k : A -> result B) : result B :=
  match m with
  | Ok a => k a
  | Err e => Err e
  end.

Notation "x <- m ;; k" := (bind m (fun x => k))
  (at level 61, m at next level, right associativity).
Notation "' p <- m ;; k" := (bind m (fun p => k))
  (at level 61, p pattern, m at next level, right associativity).

Definition raise {A} (w : value_error) : result A := Err (ValueError w).

Definition is_data_error (e : error) : Prop :=
  exists w, e = ValueError w.

(* ------------------------------------------------------------------------- *)
(** * float64 values *)

Inductive float :=
| NaN
| PInf
| NInf
| Fin (x : R).

Local Open Scope R_scope.

Definition Rltb (x y : R) : bool := if Rlt_dec x y then true else false.
Definition Rleb (x y : R) : bool := if Rle_dec x y then true else false.
Definition Reqb (x y : R) : bool := if Req_dec_T x y then true else false.

Definition isnan (a : float) : bool :=
  match a with NaN => true | _ => false end.

Definition notna (a : float) : bool := negb (isnan a).

Definition isinf (a : float) : bool :=
  match a with PInf | NInf => true | _ => false end.


Definition of_Z (z : Z) : float := Fin (IZR z).

Definition fopp (a : float) : float :=
  match a with
  | NaN => NaN
  | PInf => NInf
  | NInf => PInf
  | Fin x => Fin (- x)
  end.

Definition fadd (a b : float) : float :=
  match a, b with
  | NaN, _ | _, NaN => NaN
  | PInf, NInf | NInf, PInf => NaN
  | PInf, _ | _, PInf => PInf
  | NInf, _ | _, NInf => NInf
  | Fin x, Fin y => Fin (x + y)
  end.

Definition fsub (a b : float) : float := fadd a (fopp b).

(** The sign of an infinite product or quotient: [inf] times zero is NaN. *)
Definition signed_inf (positive : bool) : float :=
  if positive then PInf else NInf.

Definition inf_times (positive : bool) (y : R) : float :=
  if Reqb y 0 then NaN
  else signed_inf (Bool.eqb positive (Rltb 0 y)).

Definition fmul (a b : float) : float :=
  match a, b with
  | NaN, _ | _, NaN => NaN
  | PInf, PInf | NInf, NInf => PInf
  | PInf, NInf | NInf, PInf => NInf
  | PInf, Fin y | Fin y, PInf => inf_times true y
  | NInf, Fin y | Fin y, NInf => inf_times false y
  | Fin x, Fin y => Fin (x * y)
  end.

Definition fdiv (a b : float) : float :=
  match a, b with
  | NaN, _ | _, NaN => NaN
  | (PInf | NInf), (PInf | NInf) => NaN
  | Fin _, (PInf | NInf) => Fin 0
  | PInf, Fin y => signed_inf (Rleb 0 y)
  | NInf, Fin y => signed_inf (negb (Rleb 0 y))
  | Fin x, Fin y =>
      if Reqb y 0 then
        if Reqb x 0 then NaN else signed_inf (Rltb 0 x)
      else Fin (x / y)
  end.

Definition fsqrt (a : float) : float :=
  match a with
  | NaN | NInf => NaN
  | PInf => PInf
  | Fin x => if Rltb x 0 then NaN else Fin (sqrt x)
  end.

(** Comparisons: every comparison with NaN is false. *)
Definition flt (a b : float) : bool :=
  match a, b with
  | NaN, _ | _, NaN => false
  | _, NInf | PInf, _ => false
  | NInf, _ | _, PInf => true
  | Fin x, Fin y => Rltb x y
  end.

Definition feq (a b : float) : bool :=
  match a, b with
  | PInf, PInf | NInf, NInf => true
  | Fin x, Fin y => Reqb x y
  | _, _ => false
  end.

Definition fle (a b : float) : bool := flt a b || feq a b.

(** Python's builtin [min(a, b)]: the first argument unless the second is
    strictly smaller. *)
Definition py_min (a b : float) : float := if flt b a then b else a.

(* ------------------------------------------------------------------------- *)
(** * Python dicts, in insertion order *)

Section Dict.
Context {V : Type}.

Fixpoint dict_get (k : string) (d : list (string * V)) : option V :=
  match d with
  | [] => None
  | (k', v) :: d' => if String.eqb k k' then Some v else dict_get k d'
  end.

(** [d[k] = v]: an existing key keeps its position, a new key goes last. *)
Fixpoint dict_set (k : string) (v : V) (d : list (string * V))
  : list (string * V) :=
  match d with
  | [] => [(k, v)]
  | (k', v') :: d' =>
      if String.eqb k k' then (k, v) :: d' else (k', v') :: dict_set k v d'
  end.

Definition dict_keys (d : list (string * V)) : list string := map fst d.
Definition dict_values (d : list (string * V)) : list V := map snd d.

(** [d[k]], raising [KeyError] when the key is absent. *)
Definition dict_lookup (k : string) (d : list (string * V)) : result V :=
  match dict_get k d with
  | Some v => Ok v
  | None => Err (KeyError k)
  end.

End Dict.

Definition mem (k : string) (l : list string) : bool :=
  existsb (String.eqb k) l.

(* ------------------------------------------------------------------------- *)
(** * The extraction (config/schema.py) *)

Record Group := {
  group_id : string;
  label : string;
  sample_size : Z
}.

Record ValueEntry := {
  v_group_id : string;
  v_original : string;
  v_mean : option float;
  v_median : option float;
  v_count : option Z;
  v_IQR_lower : option float;
  v_IQR_upper : option float;
  v_95CI_lower : option float;
  v_95CI_upper : option float;
  v_sd : option float;
  v_pvalue : option float
}.

Record Row := {
  variable : string;
  variable_type : string;
  level : option string;
  values : list ValueEntry
}.

Record Table1 := {
  groups : list Group;
  rows : list Row
}.

(* ------------------------------------------------------------------------- *)
(** * The wide table *)

(** The block of columns of one group in one row.  A missing value ([isna]:
    NaN in a float64 column, [None] in an object column) is NaN; a count is
    an integer or missing. *)
Record Cells := {
  c_original : option string;
  c_mean : float;
  c_median : float;
  c_count : option Z;
  c_IQR_lower : float;
  c_IQR_upper : float;
  c_95CI_lower : float;
  c_95CI_upper : float;
  c_sd : float;
  c_pvalue : float
}.

Definition nan_cells : Cells :=
  {| c_original := None; c_mean := NaN; c_median := NaN; c_count := None;
     c_IQR_lower := NaN; c_IQR_upper := NaN;
     c_95CI_lower := NaN; c_95CI_upper := NaN;
     c_sd := NaN; c_pvalue := NaN |}.

Definition set_sd (c : Cells) (sd : float) : Cells :=
  {| c_original := c_original c; c_mean := c_mean c; c_median := c_median c;
     c_count := c_count c;
     c_IQR_lower := c_IQR_lower c; c_IQR_upper := c_IQR_upper c;
     c_95CI_lower := c_95CI_lower c; c_95CI_upper := c_95CI_upper c;
     c_sd := sd; c_pvalue := c_pvalue c |}.

(** One row of the frame: its index label ([row.name]), the two text columns,
    the blocks of the groups it has entries for, and the columns the engines
    add. *)
Record WideRow := {
  name : nat;
  col_Variable : string;
  col_Variable_type : string;
  cells : list (string * Cells);
  population_mean : option float;
  population_rate : option float;
  col_sem : list (string * float);
  col_zscore : list (string * float)
}.

(** A frame: the group ids of its column blocks, the labels of its numeric
    columns of dtype object (the other numeric columns have a numeric dtype:
    float64, or int64 for a count column without a missing value), and its
    rows. *)
Record DataFrame := {
  blocks : list string;
  object_columns : list string;
  df_rows : list WideRow
}.

(** The label of a column of a group, [f"{g} ({field})"]. *)
Definition column_label (g field : string) : string :=
  g ++ " (" ++ field ++ ")".

Definition is_object (df : DataFrame) (col : string) : bool :=
  mem col (object_columns df).

Definition empty (df : DataFrame) : bool :=
  match df_rows df with [] => true | _ => false end.

Definition len (df : DataFrame) : Z := Z.of_nat (List.length (df_rows df)).

(** The block of group [g] in row [r]; NaN throughout when the row has no
    entry for [g]. *)
Definition cell (r : WideRow) (g : string) : Cells :=
  match dict_get g (cells r) with
  | Some c => c
  | None => nan_cells
  end.

(** [df["{g} ({field})"]] exists only when the frame has a block for [g]. *)
Definition column (df_blocks : list string) (g field : string) : result unit :=
  if mem g df_blocks then Ok tt
  else Err (KeyError (g ++ " (" ++ field ++ ")")).

Definition with_cells (r : WideRow) (cs : list (string * Cells)) : WideRow :=
  {| name := name r; col_Variable := col_Variable r;
     col_Variable_type := col_Variable_type r; cells := cs;
     population_mean := population_mean r;
     population_rate := population_rate r;
     col_sem := col_sem r; col_zscore := col_zscore r |}.

Definition with_population_mean (r : WideRow) (m : float) : WideRow :=
  {| name := name r; col_Variable := col_Variable r;
     col_Variable_type := col_Variable_type r; cells := cells r;
     population_mean := Some m;
     population_rate := population_rate r;
     col_sem := col_sem r; col_zscore := col_zscore r |}.

Definition with_population_rate (r : WideRow) (q : float) : WideRow :=
  {| name := name r; col_Variable := col_Variable r;
     col_Variable_type := col_Variable_type r; cells := cells r;
     population_mean := population_mean r;
     population_rate := Some q;
     col_sem := col_sem r; col_zscore := col_zscore r |}.

Definition with_zscore_sem (r : WideRow) (g : string) (z s : float) : WideRow :=
  {| name := name r; col_Variable := col_Variable r;
     col_Variable_type := col_Variable_type r; cells := cells r;
     population_mean := population_mean r;
     population_rate := population_rate r;
     col_sem := dict_set g s (col_sem r);
     col_zscore := dict_set g z (col_zscore r) |}.

(* ------------------------------------------------------------------------- *)
(** * table_extraction/utils.py: [to_csv_wide] with [out_path=None] *)

Definition is_some {A} (o : option A) : bool :=
  match o with Some _ => true | None => false end.

(** [_to_numeric] leaves a null as [None], and a frame holds it as a missing
    value: NaN in a float64 column, [None] in a column of dtype object.  Both
    are NaN here; which columns are object columns is [object_columns]. *)
Definition to_numeric (v : option float) : float :=
  match v with
  | Some x => x
  | None => NaN
  end.

(** The columns a record gets from one entry (lines 289-300). *)
Definition entry_cells (v : ValueEntry) : Cells :=
  {| c_original := Some (v_original v);
     c_mean := to_numeric (v_mean v);
     c_median := to_numeric (v_median v);
     c_count := v_count v;
     c_IQR_lower := to_numeric (v_IQR_lower v);
     c_IQR_upper := to_numeric (v_IQR_upper v);
     c_95CI_lower := to_numeric (v_95CI_lower v);
     c_95CI_upper := to_numeric (v_95CI_upper v);
     c_sd := to_numeric (v_sd v);
     c_pvalue := to_numeric (v_pvalue v) |}.

Definition level_text (l : option string) : string :=
  match l with
  | Some s => s
  | None => "None"
  end.

Definition wide_record (i : nat) (row : Row) : WideRow :=
  let level_str :=
    if String.eqb (variable_type row) "Categorical"
    then " (" ++ level_text (level row) ++ ")" else "" in
  {| name := i;
     col_Variable := variable row ++ level_str;
     col_Variable_type := variable_type row;
     cells := fold_left (fun record v =>
                           dict_set (v_group_id v) (entry_cells v) record)
                        (values row) [];
     population_mean := None;
     population_rate := None;
     col_sem := [];
     col_zscore := [] |}.

Fixpoint wide_records (i : nat) (rs : list Row) : list WideRow :=
  match rs with
  | [] => []
  | row :: rs' => wide_record i row :: wide_records (S i) rs'
  end.

(** The columns of [pd.DataFrame(rows)]: the keys of the records, each at
    its first occurrence. *)
Definition add_keys (seen ks : list string) : list string :=
  fold_left (fun acc k => if mem k acc then acc else (acc ++ [k])%list) ks seen.

(** The entry a record holds for each group: [record[f"{gid} (...)"]] is
    assigned once per entry, so the last entry of a group stays. *)
Definition entries (row : Row) : list (string * ValueEntry) :=
  fold_left (fun record v => dict_set (v_group_id v) v record) (values row) [].

(** The numeric columns of a block, with the test that an entry has a value
    for them. *)
Definition numeric_fields : list (string * (ValueEntry -> bool)) :=
  [("mean", fun v => is_some (v_mean v));
   ("median", fun v => is_some (v_median v));
   ("count", fun v => is_some (v_count v));
   ("IQR_lower", fun v => is_some (v_IQR_lower v));
   ("IQR_upper", fun v => is_some (v_IQR_upper v));
   ("95CI_lower", fun v => is_some (v_95CI_lower v));
   ("95CI_upper", fun v => is_some (v_95CI_upper v));
   ("sd", fun v => is_some (v_sd v));
   ("pvalue", fun v => is_some (v_pvalue v))].

(** [pd.DataFrame(rows)] gives a column a numeric dtype when some record
    holds a number in it or lacks its key (a missing key is NaN).  A column
    in which every record holds [None] is left as it is, with dtype
    object. *)
Definition all_none (rs : list Row) (g : string) (present : ValueEntry -> bool)
  : bool :=
  forallb (fun row => match dict_get g (entries row) with
                      | Some v => negb (present v)
                      | None => false
                      end) rs.

Definition object_columns_of (rs : list Row) (gs : list string) : list string :=
  flat_map (fun g =>
              flat_map (fun fp => if all_none rs g (snd fp)
                                  then [column_label g (fst fp)] else [])
                       numeric_fields) gs.

Definition to_csv_wide (json_data : Table1) : DataFrame :=
  let records := wide_records 0 (rows json_data) in
  let columns := fold_left (fun acc r => add_keys acc (dict_keys (cells r)))
                           records [] in
  {| blocks := columns;
     object_columns := object_columns_of (rows json_data) columns;
     df_rows := records |}.

(* ------------------------------------------------------------------------- *)
(** * statistical_analysis/utils.py *)

(** [cat_df[count_cols].sum(axis=1)] over the count columns: missing counts
    are skipped. *)
Definition count_sum (r : WideRow) (count_cols : list string) : Z :=
  fold_left (fun acc g => match c_count (cell r g) with
                          | Some c => (acc + c)%Z
                          | None => acc
                          end) count_cols 0%Z.

Definition is_categorical (r : WideRow) : bool :=
  String.eqb (col_Variable_type r) "Categorical".

Definition is_continuous (r : WideRow) : bool :=
  String.eqb (col_Variable_type r) "Continuous".

Definition counts_complete (count_cols : list string) (r : WideRow) : bool :=
  forallb (fun g => is_some (c_count (cell r g))) count_cols.

(** utils.py:8-45.  [count_cols], the columns whose label contains "count",
    are the count columns of the blocks: the selection on a frame that is
    [plain "count"]. *)
Definition process_categorical_variables (df : option DataFrame)
    (total_sample_size : Z) : result (option DataFrame) :=
  match df with
  | None => Ok None
  | Some d =>
      if empty d then Ok (Some d)
      else if (total_sample_size <=? 0)%Z then raise TotalSampleSizeNotPositive
      else
        let cat_df := filter is_categorical (df_rows d) in
        let count_cols := blocks d in
        let cat_df := filter (counts_complete count_cols) cat_df in
        let cat_df :=
          map (fun r => with_population_rate r
                          (fdiv (of_Z (count_sum r count_cols))
                                (of_Z total_sample_size))) cat_df in
        Ok (Some {| blocks := blocks d; object_columns := object_columns d;
                    df_rows := cat_df |})
  end.

(** [mean_df[mean_cols].mean(axis=1)]: the mean of the values present. *)
Definition row_mean (r : WideRow) (mean_cols : list string) : float :=
  let present := filter notna (map (fun g => c_mean (cell r g)) mean_cols) in
  fdiv (fold_left fadd present (Fin 0))
       (of_Z (Z.of_nat (List.length present))).

Definition any_mean (mean_cols : list string) (r : WideRow) : bool :=
  existsb (fun g => notna (c_mean (cell r g))) mean_cols.

Definition sd_missing (g : string) (r : WideRow) : bool :=
  isnan (c_sd (cell r g)).

Definition ci_missing (g : string) (r : WideRow) : bool :=
  isnan (c_95CI_lower (cell r g)) || isnan (c_95CI_upper (cell r g)).

(** [(ci_width / (2 * 1.96)) * np.sqrt(sample_size[group])] *)
Definition sd_from_ci (ci_lower ci_upper : float) (n : Z) : float :=
  fmul (fdiv (fsub ci_upper ci_lower) (Fin (2 * 1.96))) (fsqrt (of_Z n)).

Definition impute_row (g : string) (n : Z) (r : WideRow) : WideRow :=
  if sd_missing g r then
    with_cells r
      (dict_set g (set_sd (cell r g)
                     (sd_from_ci (c_95CI_lower (cell r g))
                                 (c_95CI_upper (cell r g)) n))
                (cells r))
  else r.

(** utils.py:97-115, the columns of one group: fill the missing sd from the
    confidence interval, or fail. *)
Definition impute_sd (g : string) (n : Z) (mean_df : list WideRow)
  : result (list WideRow) :=
  if existsb (sd_missing g) mean_df then
    if existsb (fun r => sd_missing g r && ci_missing g r) mean_df
    then raise (CannotComputeSD g)
    else Ok (map (impute_row g n) mean_df)
  else Ok mean_df.

Definition sem_of (g : string) (n : Z) (r : WideRow) : float :=
  fdiv (c_sd (cell r g)) (fsqrt (of_Z n)).

Definition zscore_of (g : string) (n : Z) (r : WideRow) : float :=
  fdiv (fsub (c_mean (cell r g)) (to_numeric (population_mean r)))
       (sem_of g n r).

(** utils.py:117-123 *)
Definition add_zscores (g : string) (n : Z) (mean_df : list WideRow)
  : result (list WideRow) :=
  if existsb (fun r => feq (sem_of g n r) (Fin 0)) mean_df
  then raise (SemIsZero g)
  else Ok (map (fun r => with_zscore_sem r g (zscore_of g n r) (sem_of g n r))
               mean_df).

(** The body of the loop over the groups, utils.py:90-123. *)
Definition process_group (df_blocks : list string)
    (sample_size : list (string * Z)) (g : string) (mean_df : list WideRow)
  : result (list WideRow) :=
  _ <- column df_blocks g "sd" ;;
  n <- dict_lookup g sample_size ;;
  mean_df <- impute_sd g n mean_df ;;
  add_zscores g n mean_df.

Fixpoint process_groups (df_blocks : list string)
    (sample_size : list (string * Z)) (group_ids : list string)
    (mean_df : list WideRow) : result (list WideRow) :=
  match group_ids with
  | [] => Ok mean_df
  | g :: rest =>
      mean_df <- process_group df_blocks sample_size g mean_df ;;
      process_groups df_blocks sample_size rest mean_df
  end.

(** The dtype of the columns the engine adds.  Arithmetic with an object
    column gives an object column: [population_mean], the mean over the mean
    columns, is one when some mean column is; the sem of a group when its sd
    column is; its z-score, [(mean - population_mean) / sem], when one of the
    three is. *)
Definition object_population_mean (d : DataFrame) : bool :=
  existsb (fun b => is_object d (column_label b "mean")) (blocks d).

Definition object_sem (d : DataFrame) (g : string) : bool :=
  is_object d (column_label g "sd").

Definition object_zscore (d : DataFrame) (g : string) : bool :=
  is_object d (column_label g "mean") || object_population_mean d
  || object_sem d g.

Definition engine_object_columns (d : DataFrame) (group_ids : list string)
  : list string :=
  (object_columns d
   ++ (if object_population_mean d then ["population_mean"] else [])
   ++ flat_map (fun g =>
                  (if object_zscore d g then [column_label g "zscore"] else [])
                  ++ (if object_sem d g then [column_label g "sem"] else []))
               group_ids)%list.

(** The rows the z-score engine keeps, with their population mean
    (utils.py:79-87).  [mean_cols], the columns whose label contains "mean",
    are the mean columns of the blocks: the selection on a frame that is
    [plain_means]. *)
Definition retained (d : DataFrame) : list WideRow :=
  let mean_df := filter is_continuous (df_rows d) in
  let mean_cols := blocks d in
  let mean_df := filter (any_mean mean_cols) mean_df in
  map (fun r => with_population_mean r (row_mean r mean_cols)) mean_df.

Definition process_continuous_variables_mean (df : option DataFrame)
    (sample_size : list (string * Z)) : result (option DataFrame) :=
  match df with
  | None => Ok None
  | Some d =>
      if empty d then Ok (Some d)
      else match sample_size with
      | [] => raise SampleSizeEmpty
      | _ =>
          if existsb (fun s => (s <=? 0)%Z) (dict_values sample_size)
          then raise SampleSizesNotPositive
          else
            let group_ids := dict_keys sample_size in
            mean_df <- process_groups (blocks d) sample_size group_ids
                                      (retained d) ;;
            Ok (Some {| blocks := blocks d;
                        object_columns := engine_object_columns d group_ids;
                        df_rows := mean_df |})
      end
  end.

Fixpoint table_rows (labels : list string)
    (group_count group_total : list (string * Z)) : result (list (list Z)) :=
  match labels with
  | [] => Ok []
  | g :: rest =>
      success <- dict_lookup g group_count ;;
      total <- dict_lookup g group_total ;;
      if (total <? success)%Z
      then raise (SuccessExceedsTotal g success total)
      else
        table <- table_rows rest group_count group_total ;;
        Ok ([success; (total - success)%Z] :: table)
  end.

Definition contingency_table_binary (group_count group_total : list (string * Z))
  : result (list (list Z)) :=
  let labels := dict_keys group_count in
  table_rows labels group_count group_total.

(* ------------------------------------------------------------------------- *)
(** * statistical_analysis/statistical_tests.py *)

(** numpy's [np.sum] and [np.var(a, ddof)]: the mean, the squared deviations
    from it, and their sum divided by [max(n - ddof, 0)]. *)
Definition np_sum (a : list float) : float := fold_left fadd a (Fin 0).

Definition np_var (a : list float) (ddof : Z) : float :=
  let n := Z.of_nat (List.length a) in
  let arrmean := fdiv (np_sum a) (of_Z n) in
  let dev := map (fun x => fsub x arrmean) a in
  fdiv (np_sum (map (fun d => fmul d d) dev)) (of_Z (Z.max (n - ddof) 0)).

(** The sample variance as the specification writes it, over the reals: the
    squared deviations from the arithmetic mean, summed and divided by
    [n - 1]. *)
Definition Rsum (l : list R) : R := fold_right Rplus 0 l.

Definition arithmetic_mean (l : list R) : R :=
  Rsum l / INR (List.length l).

Definition sample_variance (l : list R) : R :=
  Rsum (map (fun x => (x - arithmetic_mean l) * (x - arithmetic_mean l)) l)
  / (INR (List.length l) - 1).

(** The statistic as the specification writes it,
    [(n - 1) * sample_variance / sigma0^2]; the quotient by the square of an
    infinite [sigma0] is 0. *)
Definition chi2_statistic (zs : list R) (sigma0 : float) : R :=
  match sigma0 with
  | Fin s => (INR (List.length zs) - 1) * sample_variance zs / s ^ 2
  | _ => 0
  end.

(** The bundle returned by the pipeline: one record per test. *)
Inductive test_result :=
| ChiSquaredRecord (p_value test_statistic : float) (zscores : list float)
| FisherRecord (p_value test_statistic : float)
    (contingency_table : list (list Z)) (variable_name : string)
    (test_statistic_is_odds_ratio : bool)
| CombinedRecord (p_value test_statistic : float).

Definition p_value_of (t : test_result) : float :=
  match t with
  | ChiSquaredRecord p _ _ | FisherRecord p _ _ _ _ | CombinedRecord p _ => p
  end.

Definition test_statistic_of (t : test_result) : float :=
  match t with
  | ChiSquaredRecord _ s _ | FisherRecord _ s _ _ _ | CombinedRecord _ s => s
  end.

Definition bundle := list (string * test_result).

Definition string_of_nat (n : nat) : string :=
  NilZero.string_of_uint (Nat.to_uint n).

Section Pipeline.

(** scipy's [chi2.cdf(x, df)] on finite arguments: the distribution function
    of the chi-squared law with [df] degrees of freedom. *)
Variable F : Z -> R -> R.

(** numpy's generator: [np.random.default_rng(seed)] and the state a call of
    [fisher_exact] leaves it in. *)
Variable rng_state : Type.
Variable default_rng : option Z -> rng_state.
Variable rng_after : list (list Z) -> rng_state -> rng_state.

(** scipy's [fisher_exact(table, method=...)], returning
    [(statistic, pvalue)]; [method] is [None] or a [MonteCarloMethod] holding
    a generator. *)
Variable fisher_exact :
  list (list Z) -> option rng_state -> result (float * float).

(** scipy's [combine_pvalues(pvals, method="fisher")], returning
    [(statistic, pvalue)]. *)
Variable combine_pvalues : list float -> result (float * float).

Definition chi2_cdf (x : float) (df : Z) : float :=
  match x with
  | NaN => NaN
  | PInf => Fin 1
  | NInf => Fin 0
  | Fin r => Fin (F df r)
  end.

Definition chi_square_variance_test (zscores : option (list float))
    (sigma0 : float) : result (float * float) :=
  match zscores with
  | None => raise ZscoresEmpty
  | Some zs =>
      let n := Z.of_nat (List.length zs) in
      if (n =? 0)%Z then raise ZscoresEmpty
      else if (n <? 2)%Z then raise ZscoresTooFew
      else if existsb isnan zs || existsb isinf zs then raise ZscoresNaNOrInf
      else if fle sigma0 (Fin 0) then raise Sigma0NotPositive
      else
        let sample_var := np_var zs 1 in
        let chi2_stat :=
          fdiv (fmul (of_Z (n - 1)) sample_var) (fmul sigma0 sigma0) in
        let p_value :=
          fmul (Fin 2)
               (py_min (chi2_cdf chi2_stat (n - 1))
                       (fsub (Fin 1) (chi2_cdf chi2_stat (n - 1)))) in
        Ok (p_value, chi2_stat)
  end.

(** What the two test stages accumulate: the p-values and the bundle. *)
Definition collected := (list float * bundle)%type.

(** [cont_df.filter(regex="(zscore)").values.flatten()]: the values of the
    z-score columns, row after row.  The columns whose label contains
    "zscore" are the z-score columns: the selection on a frame that is
    [plain "zscore"]. *)
Definition flatten_zscores (cont_df : option DataFrame) : list float :=
  match cont_df with
  | Some d => flat_map (fun r => dict_values (col_zscore r)) (df_rows d)
  | None => []
  end.

(** The dtype of that array: object as soon as one of the z-score columns is
    an object column. *)
Definition object_zscores (cont_df : option DataFrame)
    (group_ids : list string) : bool :=
  match cont_df with
  | Some d =>
      existsb (fun g => is_object d (column_label g "zscore")) group_ids
  | None => false
  end.

(** [chi_square_variance_test] on a numpy array.  On an array of dtype
    object the two checks of the length come first; then [np.isnan]
    (statistical_tests.py:17) raises [TypeError], whatever the array
    holds. *)
Definition chi_square_variance_test_array (object_dtype : bool)
    (zscores : list float) (sigma0 : float) : result (float * float) :=
  if object_dtype && (2 <=? Z.of_nat (List.length zscores))%Z
  then Err (UFuncTypeError "isnan")
  else chi_square_variance_test (Some zscores) sigma0.

Definition frame_len (df : option DataFrame) : Z :=
  match df with
  | Some d => len d
  | None => 0%Z
  end.

(** pipeline.py:77-100.  The pooled array has the dtype of the z-score
    columns of [cont_df]. *)
Definition continuous_test (df : DataFrame) (sample_size : list (string * Z))
    (skip_continuous_var : bool) (acc : collected) : result collected :=
  let '(pvals, out) := acc in
  if skip_continuous_var then Ok (pvals, out)
  else
    cont_df <- process_continuous_variables_mean (Some df) sample_size ;;
    let zscores := flatten_zscores cont_df in
    if (0 <? frame_len cont_df)%Z && (0 <? Z.of_nat (List.length zscores))%Z
    then
      ' (p_value, test_stat) <-
        chi_square_variance_test_array
          (object_zscores cont_df (dict_keys sample_size)) zscores (Fin 1) ;;
      Ok ((pvals ++ [p_value])%list,
          dict_set "cont_chi_squared_variance"
                   (ChiSquaredRecord p_value test_stat zscores) out)
    else Ok (pvals, out).

(** pipeline.py:117-125 *)
Definition fisher_method (group_ids : list string) (random_seed : option Z)
  : option rng_state :=
  if (2 <? Z.of_nat (List.length group_ids))%Z
  then Some (default_rng random_seed)
  else None.

(** [{g_id: row[f"{g_id} (count)"] for g_id in group_ids}]; the rows of
    [cat_df] have every count present, so the NaN case is never reached. *)
Fixpoint row_counts (df_blocks : list string) (r : WideRow)
    (group_ids : list string) (d : list (string * Z))
  : result (list (string * Z)) :=
  match group_ids with
  | [] => Ok d
  | g :: rest =>
      _ <- column df_blocks g "count" ;;
      c <- match c_count (cell r g) with
           | Some c => Ok c
           | None => raise NaNToInteger
           end ;;
      row_counts df_blocks r rest (dict_set g c d)
  end.

(** pipeline.py:127-147, the loop over the rows of [cat_df]. *)
Fixpoint fisher_tests (df_blocks : list string)
    (sample_size : list (string * Z)) (group_ids : list string)
    (method : option rng_state) (cat_rows : list WideRow) (acc : collected)
  : result collected :=
  match cat_rows with
  | [] => Ok acc
  | row :: rest =>
      let '(pvals, out) := acc in
      let variable_name := col_Variable row in
      group_counts <- row_counts df_blocks row group_ids [] ;;
      contingency_table <- contingency_table_binary group_counts sample_size ;;
      ' (test_stat, p_value) <- fisher_exact contingency_table method ;;
      let out :=
        dict_set ("fisher_test-" ++ string_of_nat (name row))
                 (FisherRecord p_value test_stat contingency_table
                    variable_name
                    (Z.of_nat (List.length group_ids) =? 2)%Z) out in
      fisher_tests df_blocks sample_size group_ids
                   (option_map (rng_after contingency_table) method)
                   rest ((pvals ++ [p_value])%list, out)
  end.

(** pipeline.py:106-147 *)
Definition categorical_test (df : DataFrame) (sample_size : list (string * Z))
    (total_sample_size : Z) (skip_categorical_var : bool)
    (random_seed : option Z) (acc : collected) : result collected :=
  if skip_categorical_var then Ok acc
  else
    cat_df <- process_categorical_variables (Some df) total_sample_size ;;
    if (frame_len cat_df =? 0)%Z then Ok acc
    else
      let group_ids := dict_keys sample_size in
      fisher_tests (blocks df) sample_size group_ids
                   (fisher_method group_ids random_seed)
                   (match cat_df with Some d => df_rows d | None => [] end)
                   acc.

Definition valid_pvalue (p : float) : bool :=
  fle (Fin 0) p && fle p (Fin 1).

(** pipeline.py:149-169 *)
Definition combine (acc : collected) : result bundle :=
  let '(pvals, out) := acc in
  if (Z.of_nat (List.length pvals) =? 0)%Z then raise NoPValuesCollected
  else if negb (forallb valid_pvalue pvals) then raise PValuesOutOfRange
  else
    ' (test_stat, combined_p) <- combine_pvalues pvals ;;
    Ok (dict_set "fisher_method-combined"
                 (CombinedRecord combined_p test_stat) out).

Definition sample_size_of (json_data : Table1) : list (string * Z) :=
  fold_left (fun d g => dict_set (group_id g) (sample_size g) d)
            (groups json_data) [].

Definition total_of (sample_size : list (string * Z)) : Z :=
  fold_left Z.add (dict_values sample_size) 0%Z.

(** The p-values and records of the enabled tests (pipeline.py:58-147). *)
Definition collect_tests (json_data : Table1)
    (skip_continuous_var skip_categorical_var : bool)
    (random_seed : option Z) : result collected :=
  let df := to_csv_wide json_data in
  let sample_size := sample_size_of json_data in
  let total_sample_size := total_of sample_size in
  if (total_sample_size =? 0)%Z then raise TotalSampleSizeZero
  else
    acc <- continuous_test df sample_size skip_continuous_var ([], []) ;;
    categorical_test df sample_size total_sample_size skip_categorical_var
                     random_seed acc.

Definition run_test_pipeline (json_data : Table1)
    (skip_continuous_var skip_categorical_var : bool)
    (random_seed : option Z) : result bundle :=
  acc <- collect_tests json_data skip_continuous_var skip_categorical_var
                       random_seed ;;
  combine acc.

End Pipeline.

(* ------------------------------------------------------------------------- *)
(** * Notions the statements use *)

(** The value a dict holds for a key ([0] for a key it does not have). *)
Definition value_of (g : string) (d : list (string * Z)) : Z :=
  match dict_get g d with
  | Some v => v
  | None => 0%Z
  end.

(** Group [g]'s success count exceeds its total. *)
Definition exceeds (group_count group_total : list (string * Z)) (g : string)
  : Prop :=
  (value_of g group_total < value_of g group_count)%Z.

(** The count of group [g] in row [r] ([0] when missing). *)
Definition count_of (r : WideRow) (g : string) : Z :=
  match c_count (cell r g) with
  | Some c => c
  | None => 0%Z
  end.

Definition Zsum (l : list Z) : Z := fold_right Z.add 0%Z l.

(** A categorical row with a count for every group that has columns. *)
Definition complete_categorical (count_cols : list string) (r : WideRow)
  : Prop :=
  col_Variable_type r = "Categorical"
  /\ forall g, In g count_cols -> exists c, c_count (cell r g) = Some c.

(** [word in s]: the text [s] contains [word].  The patterns of the engines,
    ["(mean)"], ["(count)"] and ["(zscore)"], are a group around a literal
    word, so [filter(regex=...)] keeps the columns whose label contains the
    word. *)
Fixpoint contains (word s : string) : bool :=
  String.prefix word s
  || match s with
     | EmptyString => false
     | String _ s' => contains word s'
     end.

(** The group ids that occur in the labels of the columns of a frame: its
    blocks, and the groups of the sem and z-score columns of its rows. *)
Definition column_groups (d : DataFrame) : list string :=
  (blocks d
   ++ flat_map (fun r => dict_keys (col_sem r) ++ dict_keys (col_zscore r))
               (df_rows d))%list.

(** No group id of the frame contains [word].  The columns whose label
    contains ["count"] or ["zscore"] are then the count or z-score column of
    every group, and those whose label contains ["mean"] the mean column of
    every group and [population_mean]. *)
Definition plain (word : string) (d : DataFrame) : bool :=
  forallb (fun g => negb (contains word g)) (column_groups d).

(** The fields of a block, in the order of its columns. *)
Definition block_fields : list string :=
  ["original"; "mean"; "median"; "count"; "IQR_lower"; "IQR_upper";
   "95CI_lower"; "95CI_upper"; "sd"; "pvalue"].

(** The columns of the blocks that [filter(regex="(word)")] keeps, each as
    its group and its field: those whose label contains the word. *)
Definition selected (word : string) (d : DataFrame) : list (string * string) :=
  flat_map (fun g =>
              map (pair g)
                  (filter (fun field => contains word (column_label g field))
                          block_fields))
           (blocks d).

(** The frame has no [population_mean] column yet. *)
Definition no_population_mean (d : DataFrame) : bool :=
  forallb (fun r => negb (is_some (population_mean r))) (df_rows d).

(** [filter(regex="(mean)")] selects the mean column of every block of the
    frame and nothing else. *)
Definition plain_means (d : DataFrame) : bool :=
  plain "mean" d && no_population_mean d.

(** No group id of the table contains one of the three words. *)
Definition plain_ids (json_data : Table1) : bool :=
  plain "mean" (to_csv_wide json_data)
  && plain "count" (to_csv_wide json_data)
  && plain "zscore" (to_csv_wide json_data).

(** The input rows the z-score engine retains on a frame that is
    [plain_means]: continuous, with the mean of at least one group
    present. *)
Definition kept_rows (d : DataFrame) : list WideRow :=
  filter (fun r => is_continuous r && any_mean (blocks d) r) (df_rows d).

(** The sd of group [g] in row [r] once a missing one is filled in. *)
Definition effective_sd (g : string) (n : Z) (r : WideRow) : float :=
  if sd_missing g r
  then sd_from_ci (c_95CI_lower (cell r g)) (c_95CI_upper (cell r g)) n
  else c_sd (cell r g).

(** The standard error of the mean: that sd over [sqrt(sample_size[g])]. *)
Definition computed_sem (g : string) (n : Z) (r : WideRow) : float :=
  fdiv (effective_sd g n r) (fsqrt (of_Z n)).

Definition computed_zscore (g : string) (n : Z) (r : WideRow) : float :=
  fdiv (fsub (c_mean (cell r g)) (to_numeric (population_mean r)))
       (computed_sem g n r).

(** One pass of the loop body over a row, when it raises nothing. *)
Definition step_row (g : string) (n : Z) (r : WideRow) : WideRow :=
  let r1 := impute_row g n r in
  with_zscore_sem r1 g (zscore_of g n r1) (sem_of g n r1).

(** The columns the loop does not touch. *)
Definition same_source (r r' : WideRow) : Prop :=
  name r' = name r
  /\ col_Variable r' = col_Variable r
  /\ col_Variable_type r' = col_Variable_type r
  /\ population_mean r' = population_mean r
  /\ population_rate r' = population_rate r.

(** Row [r'] is row [r] after the loop has run over the groups [gs]. *)
Definition processed (sample_size : list (string * Z)) (gs : list string)
    (r r' : WideRow) : Prop :=
  same_source r r'
  /\ (forall g, ~ In g gs ->
        cell r' g = cell r g
        /\ dict_get g (col_zscore r') = dict_get g (col_zscore r)
        /\ dict_get g (col_sem r') = dict_get g (col_sem r))
  /\ (forall g, In g gs ->
        exists n, dict_get g sample_size = Some n
                  /\ cell r' g = set_sd (cell r g) (effective_sd g n r)
                  /\ dict_get g (col_sem r') = Some (computed_sem g n r)
                  /\ dict_get g (col_zscore r') = Some (computed_zscore g n r)).

(** What makes the loop body raise at group [g] on row [r]. *)
Definition unusable (g : string) (n : Z) (r : WideRow) : bool :=
  (sd_missing g r && ci_missing g r) || feq (computed_sem g n r) (Fin 0).

(** What the engine leaves in the sd column of a retained row. *)
Definition sd_filled (sample_size : list (string * Z)) (r r' : WideRow)
  : Prop :=
  name r' = name r
  /\ forall g n, dict_get g sample_size = Some n ->
       (sd_missing g r = true ->
        c_sd (cell r' g)
        = sd_from_ci (c_95CI_lower (cell r g)) (c_95CI_upper (cell r g)) n)
       /\ (sd_missing g r = false -> c_sd (cell r' g) = c_sd (cell r g)).

(** A frame of one categorical row with the counts 12 and 15, and one with a
    count missing: what [to_csv_wide] makes of the rows of the tests. *)
Definition count_entry (gid : string) (c : option Z) : ValueEntry :=
  {| v_group_id := gid; v_original := "n"; v_mean := None; v_median := None;
     v_count := c; v_IQR_lower := None; v_IQR_upper := None;
     v_95CI_lower := None; v_95CI_upper := None; v_sd := None;
     v_pvalue := None |}.

Definition smoker_row (treatment control : option Z) : Row :=
  {| variable := "smoker"; variable_type := "Categorical";
     level := Some "Yes";
     values := [count_entry "treatment" treatment;
                count_entry "control" control] |}.

Definition two_groups : list Group :=
  [ {| group_id := "treatment"; label := "Treatment"; sample_size := 50 |};
    {| group_id := "control"; label := "Control"; sample_size := 50 |} ].

Definition smoker_table : Table1 :=
  {| groups := two_groups; rows := [smoker_row (Some 12%Z) (Some 15%Z)] |}.

Definition no_rows_table : Table1 :=
  {| groups := two_groups; rows := [] |}.

(** A continuous row of two groups, the first reported by a confidence
    interval only. *)
Definition mean_entry (gid : string) (mean : R) (sd ci_lower ci_upper : option R)
  : ValueEntry :=
  {| v_group_id := gid; v_original := "m"; v_mean := Some (Fin mean);
     v_median := None; v_count := None;
     v_IQR_lower := None; v_IQR_upper := None;
     v_95CI_lower := option_map Fin ci_lower;
     v_95CI_upper := option_map Fin ci_upper;
     v_sd := option_map Fin sd; v_pvalue := None |}.

Definition age_row (sd ci_lower ci_upper : option R) : Row :=
  {| variable := "age"; variable_type := "Continuous"; level := None;
     values := [mean_entry "treatment" 60 sd ci_lower ci_upper;
                mean_entry "control" 58 (Some 9) None None] |}.

Definition age_table (sd ci_lower ci_upper : option R) : Table1 :=
  {| groups := two_groups; rows := [age_row sd ci_lower ci_upper] |}.

Definition fifty_each : list (string * Z) :=
  [("treatment", 50%Z); ("control", 50%Z)].

(** A continuous row in which the second group reports an sd but no mean. *)
Definition sd_only_entry (gid : string) (sd : R) : ValueEntry :=
  {| v_group_id := gid; v_original := "m"; v_mean := None;
     v_median := None; v_count := None;
     v_IQR_lower := None; v_IQR_upper := None;
     v_95CI_lower := None; v_95CI_upper := None;
     v_sd := Some (Fin sd); v_pvalue := None |}.

Definition one_mean_row : Row :=
  {| variable := "age"; variable_type := "Continuous"; level := None;
     values := [mean_entry "treatment" 60 (Some 10) None None;
                sd_only_entry "control" 9] |}.

Definition one_mean_table : Table1 :=
  {| groups := two_groups; rows := [one_mean_row] |}.

(** The same row followed by one in which both groups report a mean: the
    mean column of the second group holds a number, and is a float64
    column. *)
Definition mean_missing_once_table : Table1 :=
  {| groups := two_groups;
     rows := [one_mean_row; age_row (Some 10) None None] |}.

(** A categorical row with both counts, in a table whose first group id
    contains the word "count". *)
Definition low_count_row : Row :=
  {| variable := "smoker"; variable_type := "Categorical";
     level := Some "Yes";
     values := [count_entry "low count" (Some 12%Z);
                count_entry "control" (Some 15%Z)] |}.

Definition low_count_table : Table1 :=
  {| groups :=
       [ {| group_id := "low count"; label := "Low count";
            sample_size := 50 |};
         {| group_id := "control"; label := "Control"; sample_size := 50 |} ];
     rows := [low_count_row] |}.

(** The generators a Monte Carlo test can be handed: the seeded one, advanced
    by the tables of the rows tested before. *)
Definition seeded {rng_state : Type} (default_rng : option Z -> rng_state)
    (rng_after : list (list Z) -> rng_state -> rng_state)
    (random_seed : option Z) (rng : rng_state) : Prop :=
  exists tables,
    rng = fold_left (fun s t => rng_after t s) tables (default_rng random_seed).

(** The method of the Fisher tests of one run: Monte Carlo with a seeded
    generator for more than two groups, the exact test otherwise. *)
Definition method_of_run {rng_state : Type}
    (default_rng : option Z -> rng_state)
    (rng_after : list (list Z) -> rng_state -> rng_state)
    (random_seed : option Z) (group_ids : list string)
    (method : option rng_state) : Prop :=
  ((2 < List.length group_ids)%nat ->
     exists rng, method = Some rng /\ seeded default_rng rng_after random_seed rng)
  /\ ((List.length group_ids <= 2)%nat -> method = None).

(** What holds of a Fisher record of the bundle. *)
Definition fisher_record_ok {rng_state : Type}
    (default_rng : option Z -> rng_state)
    (rng_after : list (list Z) -> rng_state -> rng_state)
    (fisher_exact : list (list Z) -> option rng_state -> result (float * float))
    (random_seed : option Z) (group_ids : list string) (t : test_result)
  : Prop :=
  match t with
  | FisherRecord p_value test_stat table _ is_odds_ratio =>
      (is_odds_ratio = true <-> List.length group_ids = 2%nat)
      /\ exists method,
           method_of_run default_rng rng_after random_seed group_ids method
           /\ fisher_exact table method = Ok (test_stat, p_value)
  | _ => True
  end.

(** Stand-ins for scipy in the examples: a test that always answers
    [(1, 1/2)] and a combiner that always answers [(0, 1)]. *)
Definition fixed_fisher_exact (table : list (list Z)) (method : option unit)
  : result (float * float) := Ok (Fin 1, Fin (1 / 2)).

Definition fixed_combine_pvalues (pvals : list float) : result (float * float) :=
  Ok (Fin 0, Fin 1).

Definition unit_rng (seed : option Z) : unit := tt.

Definition unit_rng_after (table : list (list Z)) (s : unit) : unit := s.

Definition three_groups : list Group :=
  [ {| group_id := "treatment_a"; label := "A"; sample_size := 40 |};
    {| group_id := "treatment_b"; label := "B"; sample_size := 40 |};
    {| group_id := "control"; label := "Control"; sample_size := 40 |} ].

Definition three_group_table : Table1 :=
  {| groups := three_groups;
     rows := [ {| variable := "smoker"; variable_type := "Categorical";
                  level := Some "Yes";
                  values := [count_entry "treatment_a" (Some 8%Z);
                             count_entry "treatment_b" (Some 10%Z);
                             count_entry "control" (Some 12%Z)] |} ] |}.

(** A stand-in for [fisher_exact] that tells the two methods apart: the
    statistic is 1 for the exact method and 2 for a Monte Carlo method. *)
Definition telltale_fisher_exact (table : list (list Z)) (method : option unit)
  : result (float * float) :=
  match method with
  | None => Ok (Fin 1, Fin (1 / 2))
  | Some _ => Ok (Fin 2, Fin (1 / 2))
  end.

(** The distribution function of the chi-squared law with two degrees of
    freedom, [1 - exp(-x/2)] on the positive reals: an instance of [F]. *)
Definition chi2_cdf_two_df (df : Z) (x : R) : R :=
  if Rle_dec x 0 then 0 else 1 - exp (- x / 2).


(** The z-score of group [g] in the retained row [r] of frame [d]. *)
Definition row_zscore (d : DataFrame) (sample_size : list (string * Z))
    (r : WideRow) (g : string) : float :=
  fdiv (fsub (c_mean (cell r g)) (row_mean r (blocks d)))
       (fdiv (effective_sd g (value_of g sample_size) r)
             (fsqrt (of_Z (value_of g sample_size)))).


(** The key of the Fisher record of the row with index [i]. *)
Definition fisher_key (i : nat) : string := "fisher_test-" ++ string_of_nat i.

(** The rows the Fisher tests run on, for a frame that is [plain "count"]:
    categorical, with every count. *)
Definition categorical_rows (d : DataFrame) : list WideRow :=
  filter (fun r => is_categorical r && counts_complete (blocks d) r)
         (df_rows d).

(** The table of a row: [[count, sample_size - count]] for each group. *)
Definition expected_table (sample_size : list (string * Z))
    (group_ids : list string) (r : WideRow) : list (list Z) :=
  map (fun g => [count_of r g; (value_of g sample_size - count_of r g)%Z])
      group_ids.

(** The p-values of the records of a bundle, in order. *)
Definition p_values (out : bundle) : list float :=
  map (fun kv => p_value_of (snd kv)) out.

(** The Fisher record of row [r] in a run over [json_data]. *)
Definition fisher_entry (json_data : Table1) (r : WideRow)
    (kv : string * test_result) : Prop :=
  exists p_value test_stat,
    kv = (fisher_key (name r),
          FisherRecord p_value test_stat
            (expected_table (sample_size_of json_data)
                            (dict_keys (sample_size_of json_data)) r)
            (col_Variable r)
            (Z.of_nat (List.length (dict_keys (sample_size_of json_data)))
             =? 2)%Z).

(** A categorical row that reports 60 smokers in a group of 50. *)
Definition impossible_table : Table1 :=
  {| groups := two_groups; rows := [smoker_row (Some 60%Z) (Some 15%Z)] |}.

(* ------------------------------------------------------------------------- *)
(** * statistical_analysis/report.py *)

Module Report.

Record PaperResult := {
  paper_id : string;
  source : string;
  title : option string;
  combined_p_value : option float;
  chi_squared_p_value : option float;
  chi_squared_n_zscores : Z;
  fisher_tests_count : Z;
  fisher_p_values : list float;
  plot_path : option string;
  error : option string
}.

(** Python's truth value of an optional string: [None] and the empty string
    are false. *)
Definition truthy (s : option string) : bool :=
  match s with
  | Some EmptyString => false
  | Some _ => true
  | None => false
  end.

(** ... and of an optional dict: [None] and the empty dict are false. *)
Definition nonempty {A} (d : option (list A)) : bool :=
  match d with
  | Some (_ :: _) => true
  | _ => false
  end.

(** [chi_sq["zscores"]]: only the chi-squared record has the key. *)
Definition zscores_of (t : test_result) : result (list float) :=
  match t with
  | ChiSquaredRecord _ _ zscores => Ok zscores
  | _ => Err (KeyError "zscores")
  end.

(** [[test_output[k]["p_value"] for k in fisher_keys]] *)
Fixpoint p_values_at (test_output : bundle) (fisher_keys : list string)
  : result (list float) :=
  match fisher_keys with
  | [] => Ok []
  | k :: rest =>
      t <- dict_lookup k test_output ;;
      ps <- p_values_at test_output rest ;;
      Ok (p_value_of t :: ps)
  end.

(** [ReportCollector.add_result] (report.py:38-85); the collector's list of
    results is passed in and returned. *)
Definition add_result (results : list PaperResult) (paper_id source : string)
    (title : option string) (test_output : option bundle)
    (plot_path error : option string) : result (list PaperResult) :=
  let fresh :=
    {| paper_id := paper_id; source := source; title := title;
       combined_p_value := None; chi_squared_p_value := None;
       chi_squared_n_zscores := 0; fisher_tests_count := 0;
       fisher_p_values := []; plot_path := None; error := error |} in
  res <-
    (if nonempty test_output && negb (truthy error) then
       let out := match test_output with Some out => out | None => [] end in
       let combined :=
         match dict_get "fisher_method-combined" out with
         | Some t => Some (p_value_of t)
         | None => None
         end in
       ' (chi_p, chi_n) <-
         match dict_get "cont_chi_squared_variance" out with
         | Some chi_sq =>
             zscores <- zscores_of chi_sq ;;
             Ok (Some (p_value_of chi_sq), Z.of_nat (List.length zscores))
         | None => Ok (None, 0%Z)
         end ;;
       let fisher_keys :=
         filter (String.prefix "fisher_test") (dict_keys out) in
       ps <- p_values_at out fisher_keys ;;
       Ok {| paper_id := paper_id; source := source; title := title;
             combined_p_value := combined; chi_squared_p_value := chi_p;
             chi_squared_n_zscores := chi_n;
             fisher_tests_count := Z.of_nat (List.length fisher_keys);
             fisher_p_values := ps; plot_path := plot_path;
             error := error |}
     else Ok fresh) ;;
  Ok (results ++ [res])%list.

Record SummaryStats := {
  total_papers : Z;
  successful_analyses : Z;
  failed_analyses : Z;
  flagged_papers : Z;
  flagged_rate : float
}.

(** [r.error is None] *)
Definition succeeded (r : PaperResult) : bool :=
  match error r with
  | None => true
  | Some _ => false
  end.

(** [r.combined_p_value is not None and r.combined_p_value < 0.05] *)
Definition is_flagged (r : PaperResult) : bool :=
  match combined_p_value r with
  | Some p => flt p (Fin 0.05)
  | None => false
  end.

(** [ReportCollector.get_summary_stats] (report.py:87-107) *)
Definition get_summary_stats (results : list PaperResult) : SummaryStats :=
  let successful := filter succeeded results in
  let flagged := filter is_flagged successful in
  {| total_papers := Z.of_nat (List.length results);
     successful_analyses := Z.of_nat (List.length successful);
     failed_analyses :=
       Z.of_nat (List.length results) - Z.of_nat (List.length successful);
     flagged_papers := Z.of_nat (List.length flagged);
     flagged_rate :=
       match successful with
       | [] => of_Z 0
       | _ :: _ => fdiv (of_Z (Z.of_nat (List.length flagged)))
                        (of_Z (Z.of_nat (List.length successful)))
       end |}.

End Report.

(** The bundle of the run over [smoker_table] in the examples, and the result
    the collector makes of it. *)
Definition smoker_bundle : bundle :=
  [("fisher_test-0",
    FisherRecord (Fin (1 / 2)) (Fin 1) [[12; 38]; [15; 35]]%Z
                 "smoker (Yes)" true);
   ("fisher_method-combined", CombinedRecord (Fin 1) (Fin 0))].

Definition smoker_result : Report.PaperResult :=
  {| Report.paper_id := "1"; Report.source := "smoker.json";
     Report.title := None; Report.combined_p_value := Some (Fin 1);
     Report.chi_squared_p_value := None; Report.chi_squared_n_zscores := 0;
     Report.fisher_tests_count := 1;
     Report.fisher_p_values := [Fin (1 / 2)];
     Report.plot_path := None; Report.error := None |}.

(* ------------------------------------------------------------------------- *)
(** * table_extraction/validate_output.py *)

(** The values [json.load] produces.  An object is the list of its members in
    order, with distinct keys. *)
#[local] Unset Elimination Schemes.
Inductive json :=
| JNull
| JBool (b : bool)
| JInt (n : Z)
| JFloat (x : float)
| JStr (s : string)
| JList (items : list json)
| JDict (members : list (string * json)).
#[local] Set Elimination Schemes.

Module ValidateOutput.

(** The messages of [validate_json], by the line that appends them.  A row is
    named by its index where the message names it by its variable, type and
    level. *)
Inductive row_error :=
| InvalidVariableName              (* 114 *)
| InvalidVariableType              (* 117 *)
| ContinuousWithLevel              (* 121 *)
| InvalidLevel                     (* 125 *)
| ValuesNotNonEmptyArray           (* 128 *)
| AllValuesNull                    (* 151 *)
| MissingMeanOrMedian              (* 166 *)
| MissingSdOrCI                    (* 171 *)
| MissingIQR                       (* 176 *)
| BothIQRAndCI                     (* 186 *)
| IQRWithMean                      (* 193 *)
| CIWithMedian                     (* 199 *)
| ValueNotObject                   (* 206 *)
| ValueInvalidGroupId              (* 222 *)
| UnknownGroupId (gid : string)    (* 225 *)
| DuplicateValueGroupId (gid : string) (* 227 *)
| MissingOriginal                  (* 231 *)
| CategoricalHasMean               (* 236 *)
| CategoricalHasMedian             (* 238 *)
| CategoricalHasIQRLower           (* 240 *)
| CategoricalHasIQRUpper           (* 244 *)
| CategoricalHasCILower            (* 248 *)
| CategoricalHasCIUpper            (* 252 *)
| CategoricalHasSd                 (* 256 *)
| CategoricalMissingCount          (* 258 *)
| CountNotInteger                  (* 260 *)
| CountNegative                    (* 262 *)
| MeanNotNumerical (gid : json)    (* 267 *)
| MedianNotNumerical (gid : json)  (* 271 *)
| IQRLowerNotNumerical (gid : json) (* 277 *)
| IQRUpperNotNumerical (gid : json) (* 281 *)
| CILowerNotNumerical (gid : json) (* 285 *)
| CIUpperNotNumerical (gid : json) (* 289 *)
| SdNotNumerical (gid : json)      (* 293 *)
| SdNegative (gid : json)          (* 297 *)
| IQRLowerAboveUpper (gid : json)  (* 307 *)
| CILowerAboveUpper (gid : json)   (* 319 *)
| MedianOutsideIQR (gid : json)    (* 334 *)
| MeanOutsideCI (gid : json)       (* 349 *)
| PValueNotNumerical (gid : json)  (* 356 *)
| PValueOutOfRange (gid : json)    (* 358 *)
| MissingValuesForGroups.          (* 363 *)

Inductive validation_error :=
| PayloadNotObject                          (* 43 *)
| MissingGroups                             (* 58 *)
| GroupsNotNonEmptyArray                    (* 61 *)
| GroupNotObject (i : nat)                  (* 67 *)
| GroupInvalidId (i : nat)                  (* 75 *)
| GroupDuplicateId (i : nat) (gid : string) (* 77 *)
| GroupInvalidLabel (i : nat)               (* 82 *)
| GroupSampleSizeNotInteger (i : nat)       (* 85 *)
| GroupSampleSizeNegative (i : nat)         (* 87 *)
| MissingRows                               (* 95 *)
| RowsNotNonEmptyArray                      (* 98 *)
| RowNotObject (i : nat)                    (* 103 *)
| RowError (i : nat) (why : row_error).

(** How a call ends: it returns [None], or raises [ValidationError] with the
    messages collected, or raises the [TypeError] of hashing a list or an
    object. *)
Inductive outcome :=
| Returns
| ValidationError (errors : list validation_error)
| TypeError.

(** [d.get(k)] *)
Definition get (d : list (string * json)) (k : string) : json :=
  match dict_get k d with
  | Some v => v
  | None => JNull
  end.

(** Python's truth value. *)
Definition truth (v : json) : bool :=
  match v with
  | JNull => false
  | JBool b => b
  | JInt n => negb (n =? 0)%Z
  | JFloat x => negb (feq x (Fin 0))
  | JStr s => negb (String.eqb s EmptyString)
  | JList l => match l with [] => false | _ => true end
  | JDict m => match m with [] => false | _ => true end
  end.

Definition is_None (v : json) : bool :=
  match v with JNull => true | _ => false end.

Definition is_str (v : json) : bool :=
  match v with JStr _ => true | _ => false end.

(** [isinstance(v, int)]: a bool is an int. *)
Definition is_int (v : json) : bool :=
  match v with JInt _ | JBool _ => true | _ => false end.

(** [isinstance(v, int | float)] *)
Definition is_number (v : json) : bool :=
  match v with JInt _ | JBool _ | JFloat _ => true | _ => false end.

Definition is_dict (v : json) : bool :=
  match v with JDict _ => true | _ => false end.

(** The value of an [int]. *)
Definition int_value (v : json) : Z :=
  match v with
  | JInt n => n
  | JBool b => if b then 1%Z else 0%Z
  | _ => 0%Z
  end.

(** The value of a number in comparisons. *)
Definition number (v : json) : float :=
  match v with
  | JInt n => of_Z n
  | JBool b => of_Z (if b then 1 else 0)
  | JFloat x => x
  | _ => NaN
  end.

(** [v == s] for a string [s]. *)
Definition equals_str (v : json) (s : string) : bool :=
  match v with
  | JStr s' => String.eqb s' s
  | _ => false
  end.

(** Lists and objects cannot be hashed. *)
Definition hashable (v : json) : bool :=
  match v with JList _ | JDict _ => false | _ => true end.

(** [for i, x in enumerate(l)] *)
Definition enumerate {A} (l : list A) : list (nat * A) :=
  List.combine (seq 0 (List.length l)) l.

(** Sets of strings, as lists without repetition. *)
Definition set_add (s : string) (l : list string) : list string :=
  if mem s l then l else (l ++ [s])%list.

Definition set_eq (a b : list string) : bool :=
  forallb (fun x => mem x b) a && forallb (fun x => mem x a) b.

(** The message [e] when [cond] holds. *)
Definition when {E} (cond : bool) (e : E) : list E :=
  if cond then [e] else [].

Section Validate.

(** [not s.strip()]: the string is empty or all whitespace. *)
Variable blank : string -> bool.

(** [not isinstance(v, str) or not v.strip()] *)
Definition not_text (v : json) : bool :=
  match v with
  | JStr s => blank s
  | _ => true
  end.

(** One pass of the loop over the groups (lines 65-87): the messages it
    appends and the group ids seen. *)
Definition validate_group (st : list validation_error * list string)
    (ig : nat * json) : list validation_error * list string :=
  let '(errors, seen_groups) := st in
  let '(i, g) := ig in
  match g with
  | JDict g =>
      let gid := get g "group_id" in
      let label := get g "label" in
      let sample_size := get g "sample_size" in
      let '(e_gid, seen_groups) :=
        match gid with
        | JStr gid =>
            if mem gid seen_groups
            then ([GroupDuplicateId i gid], seen_groups)
            else ([], set_add gid seen_groups)
        | _ => ([GroupInvalidId i], seen_groups)
        end in
      let e_label := when (not_text label) (GroupInvalidLabel i) in
      let e_size :=
        if negb (is_int sample_size) then [GroupSampleSizeNotInteger i]
        else if (int_value sample_size <? 0)%Z
             then [GroupSampleSizeNegative i]
             else [] in
      ((errors ++ e_gid ++ e_label ++ e_size)%list, seen_groups)
  | _ => ((errors ++ [GroupNotObject i])%list, seen_groups)
  end.

(** Lines 136-145. *)
Definition has_numeric (v : list (string * json)) : bool :=
  negb (is_None (get v "mean"))
  || negb (is_None (get v "median"))
  || negb (is_None (get v "count"))
  || negb (is_None (get v "sd"))
  || negb (is_None (get v "IQR_lower"))
  || negb (is_None (get v "IQR_upper"))
  || negb (is_None (get v "95CI_lower"))
  || negb (is_None (get v "95CI_upper")).

(** Lines 133-148. *)
Definition all_values_null (values : list json) : bool :=
  negb (existsb (fun v => match v with
                          | JDict v => has_numeric v
                          | _ => false
                          end) values).

(** The checks on the first entry of a continuous row (lines 161-201). *)
Definition first_value_errors (first : json) : list row_error :=
  let first_val := match first with JDict v => v | _ => [] end in
  let first_mean := get first_val "mean" in
  let first_median := get first_val "median" in
  let has_iqr :=
    negb (is_None (get first_val "IQR_lower"))
    || negb (is_None (get first_val "IQR_upper")) in
  let has_ci :=
    negb (is_None (get first_val "95CI_lower"))
    || negb (is_None (get first_val "95CI_upper")) in
  ((if is_None first_mean && is_None first_median then [MissingMeanOrMedian]
    else if negb (is_None first_mean) then
      when (is_None (get first_val "sd")
            && (is_None (get first_val "95CI_lower")
                || is_None (get first_val "95CI_upper")))
           MissingSdOrCI
    else if negb (is_None first_median) then
      when (is_None (get first_val "IQR_lower")
            || is_None (get first_val "IQR_upper"))
           MissingIQR
    else [])
   ++ when (has_iqr && has_ci) BothIQRAndCI
   ++ when (has_iqr && negb (is_None first_mean)) IQRWithMean
   ++ when (has_ci && negb (is_None first_median)) CIWithMedian)%list.

(** The type-specific rules of a categorical entry (lines 234-262). *)
Definition categorical_errors (v : list (string * json)) : list row_error :=
  let count := get v "count" in
  (when (negb (is_None (get v "mean"))) CategoricalHasMean
   ++ when (negb (is_None (get v "median"))) CategoricalHasMedian
   ++ when (negb (is_None (get v "IQR_lower"))) CategoricalHasIQRLower
   ++ when (negb (is_None (get v "IQR_upper"))) CategoricalHasIQRUpper
   ++ when (negb (is_None (get v "95CI_lower"))) CategoricalHasCILower
   ++ when (negb (is_None (get v "95CI_upper"))) CategoricalHasCIUpper
   ++ when (negb (is_None (get v "sd"))) CategoricalHasSd
   ++ (if is_None count then [CategoricalMissingCount]
       else if negb (is_int count) then [CountNotInteger]
       else if (int_value count <? 0)%Z then [CountNegative]
       else []))%list.

(** [x is not None and not isinstance(x, int | float)] *)
Definition not_numerical (x : json) : bool :=
  negb (is_None x) && negb (is_number x).

(** [lo is not None and hi is not None and isinstance(lo, int | float) and
    isinstance(hi, int | float)] *)
Definition both_numbers (lo hi : json) : bool :=
  negb (is_None lo) && negb (is_None hi) && is_number lo && is_number hi.

(** The type-specific rules of a continuous entry (lines 264-351). *)
Definition continuous_errors (v : list (string * json)) : list row_error :=
  let gid := get v "group_id" in
  let mean := get v "mean" in
  let median := get v "median" in
  let iqr_lower := get v "IQR_lower" in
  let iqr_upper := get v "IQR_upper" in
  let ci_lower := get v "95CI_lower" in
  let ci_upper := get v "95CI_upper" in
  let sd := get v "sd" in
  (when (not_numerical mean) (MeanNotNumerical gid)
   ++ when (not_numerical median) (MedianNotNumerical gid)
   ++ when (not_numerical iqr_lower) (IQRLowerNotNumerical gid)
   ++ when (not_numerical iqr_upper) (IQRUpperNotNumerical gid)
   ++ when (not_numerical ci_lower) (CILowerNotNumerical gid)
   ++ when (not_numerical ci_upper) (CIUpperNotNumerical gid)
   ++ when (not_numerical sd) (SdNotNumerical gid)
   ++ when (negb (is_None sd) && is_number sd && flt (number sd) (Fin 0))
           (SdNegative gid)
   ++ when (both_numbers iqr_lower iqr_upper
            && flt (number iqr_upper) (number iqr_lower))
           (IQRLowerAboveUpper gid)
   ++ when (both_numbers ci_lower ci_upper
            && flt (number ci_upper) (number ci_lower))
           (CILowerAboveUpper gid)
   ++ when (negb (is_None median) && both_numbers iqr_lower iqr_upper
            && is_number median
            && fle (number iqr_lower) (number iqr_upper)
            && (flt (number median) (number iqr_lower)
                || flt (number iqr_upper) (number median)))
           (MedianOutsideIQR gid)
   ++ when (negb (is_None mean) && both_numbers ci_lower ci_upper
            && is_number mean
            && fle (number ci_lower) (number ci_upper)
            && (flt (number mean) (number ci_lower)
                || flt (number ci_upper) (number mean)))
           (MeanOutsideCI gid))%list.

(** Lines 354-360. *)
Definition pvalue_errors (v : list (string * json)) : list row_error :=
  let gid := get v "group_id" in
  let pvalue := get v "pvalue" in
  if is_None pvalue then []
  else if negb (is_number pvalue) then [PValueNotNumerical gid]
  else when (flt (number pvalue) (Fin 0) || flt (Fin 1) (number pvalue))
            (PValueOutOfRange gid).

(** One pass of the loop over the entries of a row (lines 204-360): the
    messages it appends and the group ids seen in the row. *)
Definition validate_value (groups : list string) (var_type : json)
    (st : list row_error * list string) (v : json)
  : list row_error * list string :=
  let '(errors, seen) := st in
  match v with
  | JDict v =>
      let '(e_gid, seen) :=
        match get v "group_id" with
        | JStr gid =>
            ((when (negb (mem gid groups)) (UnknownGroupId gid)
              ++ when (mem gid seen) (DuplicateValueGroupId gid))%list,
             set_add gid seen)
        | _ => ([ValueInvalidGroupId], seen)
        end in
      let e_original := when (not_text (get v "original")) MissingOriginal in
      let e_categorical :=
        if equals_str var_type "Categorical" then categorical_errors v
        else [] in
      let e_continuous :=
        if equals_str var_type "Continuous" then continuous_errors v
        else [] in
      ((errors ++ e_gid ++ e_original ++ e_categorical ++ e_continuous
        ++ pvalue_errors v)%list, seen)
  | _ => ((errors ++ [ValueNotObject])%list, seen)
  end.

(** The body of the loop over the rows (lines 102-363) on an object: the
    messages it appends, or [None] when it raises [TypeError]. *)
Definition row_errors (groups : list string) (row : list (string * json))
  : option (list row_error) :=
  let variable := get row "variable" in
  let var_type := get row "variable_type" in
  let level := get row "level" in
  let values := get row "values" in
  let e_variable := when (not_text variable) InvalidVariableName in
  if negb (hashable var_type) then None
  else
    let e_type :=
      when (negb (equals_str var_type "Continuous"
                  || equals_str var_type "Categorical"))
           InvalidVariableType in
    let e_level :=
      if negb (is_None level) then
        (when (equals_str var_type "Continuous") ContinuousWithLevel
         ++ when (equals_str var_type "Categorical" && not_text level)
                 InvalidLevel)%list
      else [] in
    let head := (e_variable ++ e_type ++ e_level)%list in
    match values with
    | JList (first :: rest) =>
        if all_values_null (first :: rest)
        then Some (head ++ [AllValuesNull])%list
        else
          let e_first :=
            if equals_str var_type "Continuous" then first_value_errors first
            else [] in
          let '(e_values, seen) :=
            fold_left (validate_value groups var_type) (first :: rest)
                      ([], []) in
          let e_groups :=
            when (match groups with [] => false | _ => true end
                  && negb (set_eq seen groups))
                 MissingValuesForGroups in
          Some (head ++ e_first ++ e_values ++ e_groups)%list
    | _ => Some (head ++ [ValuesNotNonEmptyArray])%list
    end.

(** One pass of the loop over the rows. *)
Definition validate_row (groups : list string)
    (st : option (list validation_error)) (ir : nat * json)
  : option (list validation_error) :=
  let '(i, row) := ir in
  match st with
  | None => None
  | Some errors =>
      match row with
      | JDict row =>
          match row_errors groups row with
          | Some es => Some (errors ++ map (RowError i) es)%list
          | None => None
          end
      | _ => Some (errors ++ [RowNotObject i])%list
      end
  end.

(** Lines 365-366: raise if any message was collected. *)
Definition finish (st : option (list validation_error)) : outcome :=
  match st with
  | None => TypeError
  | Some [] => Returns
  | Some errors => ValidationError errors
  end.

(** validate_output.py:10-366 *)
Definition validate_json (json_data : json) : outcome :=
  match json_data with
  | JDict json_data =>
      let table1_exists := get json_data "table1_exists" in
      let groups_raw := get json_data "groups" in
      let rows := get json_data "rows" in
      if negb (truth table1_exists) then Returns
      else
        let '(errors, groups_raw) :=
          match groups_raw with
          | JNull => ([MissingGroups], [])
          | JList (g :: gs) => ([], g :: gs)
          | _ => ([GroupsNotNonEmptyArray], [])
          end in
        let '(errors, groups) :=
          fold_left validate_group (enumerate groups_raw) (errors, []) in
        let '(errors, rows) :=
          match rows with
          | JNull => ((errors ++ [MissingRows])%list, [])
          | JList (r :: rs) => (errors, r :: rs)
          | _ => ((errors ++ [RowsNotNonEmptyArray])%list, [])
          end in
        finish (fold_left (validate_row groups) (enumerate rows) (Some errors))
  | _ => ValidationError [PayloadNotObject]
  end.

End Validate.

(** The JSON of an extraction that follows config/schema.py. *)
Definition json_of_float (x : option float) : json :=
  match x with
  | Some x => JFloat x
  | None => JNull
  end.

Definition json_of_int (n : option Z) : json :=
  match n with
  | Some n => JInt n
  | None => JNull
  end.

Definition json_of_str (s : option string) : json :=
  match s with
  | Some s => JStr s
  | None => JNull
  end.

Definition value_members (v : ValueEntry) : list (string * json) :=
  [("group_id", JStr (v_group_id v));
   ("original", JStr (v_original v));
   ("mean", json_of_float (v_mean v));
   ("median", json_of_float (v_median v));
   ("count", json_of_int (v_count v));
   ("IQR_lower", json_of_float (v_IQR_lower v));
   ("IQR_upper", json_of_float (v_IQR_upper v));
   ("95CI_lower", json_of_float (v_95CI_lower v));
   ("95CI_upper", json_of_float (v_95CI_upper v));
   ("sd", json_of_float (v_sd v));
   ("pvalue", json_of_float (v_pvalue v))].

Definition json_of_value (v : ValueEntry) : json := JDict (value_members v).

Definition row_members (r : Row) : list (string * json) :=
  [("variable", JStr (variable r));
   ("variable_type", JStr (variable_type r));
   ("level", json_of_str (level r));
   ("values", JList (map json_of_value (values r)))].

Definition json_of_row (r : Row) : json := JDict (row_members r).

Definition json_of_group (g : Group) : json :=
  JDict [("group_id", JStr (group_id g));
         ("label", JStr (label g));
         ("sample_size", JInt (sample_size g))].

Definition json_of_table (t : Table1) : json :=
  JDict [("table1_exists", JBool true);
         ("groups", JList (map json_of_group (groups t)));
         ("rows", JList (map json_of_row (rows t)))].

End ValidateOutput.

(** What [validate_json] checks of an extraction that follows the schema. *)
Definition valid_group (blank : string -> bool) (g : Group) : Prop :=
  blank (label g) = false /\ (0 <= sample_size g)%Z.

Definition valid_entry (blank : string -> bool) (group_ids : list string)
    (row : Row) (v : ValueEntry) : Prop :=
  In (v_group_id v) group_ids
  /\ blank (v_original v) = false
  /\ (variable_type row = "Categorical" ->
      (exists c, v_count v = Some c /\ (0 <= c)%Z)
      /\ v_mean v = None /\ v_median v = None /\ v_sd v = None
      /\ v_IQR_lower v = None /\ v_IQR_upper v = None
      /\ v_95CI_lower v = None /\ v_95CI_upper v = None)
  /\ (variable_type row = "Continuous" ->
      (forall sd, v_sd v = Some sd -> flt sd (Fin 0) = false)
      /\ (forall lo hi, v_95CI_lower v = Some lo -> v_95CI_upper v = Some hi ->
                        flt hi lo = false))
  /\ (forall p, v_pvalue v = Some p ->
                flt p (Fin 0) = false /\ flt (Fin 1) p = false).

Definition valid_row (blank : string -> bool) (group_ids : list string)
    (row : Row) : Prop :=
  blank (variable row) = false
  /\ (variable_type row = "Continuous" \/ variable_type row = "Categorical")
  /\ (variable_type row = "Continuous" -> level row = None)
  /\ (forall l, level row = Some l -> blank l = false)
  /\ values row <> []
  /\ (variable_type row = "Continuous" ->
      forall first, hd_error (values row) = Some first ->
        (v_mean first <> None \/ v_median first <> None)
        /\ (v_mean first <> None ->
            v_sd first <> None
            \/ (v_95CI_lower first <> None /\ v_95CI_upper first <> None)))
  /\ NoDup (map v_group_id (values row))
  /\ (forall g, In g group_ids -> In g (map v_group_id (values row)))
  /\ Forall (valid_entry blank group_ids row) (values row).

Definition valid_table (blank : string -> bool) (t : Table1) : Prop :=
  groups t <> []
  /\ NoDup (map group_id (groups t))
  /\ Forall (valid_group blank) (groups t)
  /\ rows t <> []
  /\ Forall (valid_row blank (map group_id (groups t))) (rows t).

(** The entry [v] of a row of type [vt] passes every check of the loop over
    the entries. *)
Definition entry_passes (blank : string -> bool) (group_ids : list string)
    (vt : string) (v : ValueEntry) : Prop :=
  In (v_group_id v) group_ids
  /\ blank (v_original v) = false
  /\ (vt = "Categorical" ->
      ValidateOutput.categorical_errors (ValidateOutput.value_members v) = [])
  /\ (vt = "Continuous" ->
      ValidateOutput.continuous_errors (ValidateOutput.value_members v) = [])
  /\ ValidateOutput.pvalue_errors (ValidateOutput.value_members v) = [].

(** An instance of [blank] for the examples: only ASCII whitespace. *)
Definition is_space (c : Ascii.ascii) : bool :=
  let n := Ascii.nat_of_ascii c in
  (Nat.leb 9 n && Nat.leb n 13) || (Nat.leb 28 n && Nat.leb n 32).

Fixpoint ascii_blank (s : string) : bool :=
  match s with
  | EmptyString => true
  | String c s' => is_space c && ascii_blank s'
  end.

(** A table that [validate_json] accepts, with an arm of size 0. *)
Definition empty_arm_table : Table1 :=
  {| groups :=
       [ {| group_id := "treatment"; label := "Treatment"; sample_size := 50 |};
         {| group_id := "control"; label := "Control"; sample_size := 0 |} ];
     rows := [smoker_row (Some 12%Z) (Some 0%Z)] |}.

(* ------------------------------------------------------------------------- *)
(** * table_extraction/utils.py: the pages [extract_table_text] selects *)

Module TableText.

Definition TABLE_PATTERNS : list string :=
  ["\bTable\s*1\b";
   "\bTABLE\s*1\b";
   "\bBaseline\s+[Cc]haracteristics\b";
   "\bDemographic\s+[Cc]haracteristics\b";
   "\bPatient\s+[Cc]haracteristics\b"].

(** [range(lo, hi)] *)
Definition range (lo hi : Z) : list Z :=
  map (fun k => (lo + Z.of_nat k)%Z) (seq 0 (Z.to_nat (hi - lo))).

(** A set of integers, as the list of its elements in the order they were
    added. *)
Definition add (x : Z) (s : list Z) : list Z :=
  if existsb (Z.eqb x) s then s else (s ++ [x])%list.

(** [sorted(s)] *)
Fixpoint insert (x : Z) (l : list Z) : list Z :=
  match l with
  | [] => [x]
  | y :: l' => if (x <=? y)%Z then x :: l else y :: insert x l'
  end.

Definition sorted (s : list Z) : list Z := fold_right insert [] s.

(** [sep.join(parts)] *)
Fixpoint join (sep : string) (parts : list string) : string :=
  match parts with
  | [] => EmptyString
  | [part] => part
  | part :: rest => part ++ sep ++ join sep rest
  end.

(** [l[i]]: a negative index counts from the end; [None] is [IndexError]. *)
Definition item {A} (l : list A) (i : Z) : option A :=
  let n := Z.of_nat (List.length l) in
  if (i <? 0)%Z
  then if (i + n <? 0)%Z then None else nth_error l (Z.to_nat (i + n))
  else nth_error l (Z.to_nat i).

(** [[l[p] for p in indices]] *)
Fixpoint items {A} (l : list A) (indices : list Z) : option (list A) :=
  match indices with
  | [] => Some []
  | p :: rest =>
      match item l p, items l rest with
      | Some x, Some xs => Some (x :: xs)
      | _, _ => None
      end
  end.

Section Pages.

(** [re.search(pattern, text, re.IGNORECASE)] finds a match. *)
Variable search : string -> string -> bool.

(** Lines 230-235: the pages on which some pattern matches, in page order. *)
Definition table_pages (pages_text : list string) : list Z :=
  map (fun page => Z.of_nat (fst page))
      (filter (fun page => existsb (fun pattern => search pattern (snd page))
                                   TABLE_PATTERNS)
              (List.combine (seq 0 (List.length pages_text)) pages_text)).

(** Lines 242-247: page 0 and the pages within [expand_pages] of a table
    page.  The loop runs over a set; the set it builds does not depend on the
    order, which is taken to be that of the pages. *)
Definition selected_pages (pages_text : list string) (expand_pages : Z)
    (table_pages : list Z) : list Z :=
  fold_left
    (fun selected p =>
       fold_left
         (fun selected offset =>
            let idx := (p + offset)%Z in
            if (0 <=? idx)%Z && (idx <? Z.of_nat (List.length pages_text))%Z
            then add idx selected
            else selected)
         (range (- expand_pages) (expand_pages + 1)) selected)
    table_pages [0%Z].

(** [extract_table_text] from the list of the texts of the pages on
    (lines 229-251); [None] is [IndexError]. *)
Definition extract_table_text (pages_text : list string) (expand_pages : Z)
  : option string :=
  let newline := Ascii.ascii_of_nat 10 in
  let sep := String newline (String newline EmptyString) in
  match table_pages pages_text with
  | [] => Some (join sep pages_text)
  | p :: ps =>
      let selected :=
        sorted (selected_pages pages_text expand_pages (p :: ps)) in
      match items pages_text selected with
      | Some texts => Some (join sep texts)
      | None => None
      end
  end.

End Pages.

End TableText.

(* ------------------------------------------------------------------------- *)
(** * main.py: the loop of [cmd_analyze] over the items, with a report *)

Section Analyze.

Variable F : Z -> R -> R.
Variable rng_state : Type.
Variable default_rng : option Z -> rng_state.
Variable rng_after : list (list Z) -> rng_state -> rng_state.
Variable fisher_exact :
  list (list Z) -> option rng_state -> result (float * float).
Variable combine_pvalues : list float -> result (float * float).

(** [str(e)], the message of an exception. *)
Variable str : error -> string.

(** [str(figures_dir / f"paper_{paper_id}_plots.png")] *)
Variable plot_file : string -> string.

(** [args.skip_cont], [args.skip_cat] and [args.report and
    args.report_plots]. *)
Variable skip_cont skip_cat report_plots_enabled : bool.

(** One pass of the loop (main.py:201-238), the collector's results passed in
    and returned.  [plot_test_output] draws or writes a file and its
    exceptions are caught: it changes nothing the loop uses. *)
Definition analyze_item (results : list Report.PaperResult)
    (item : string * string * option string * Table1)
  : result (list Report.PaperResult) :=
  let '(paper_id, source, title, data) := item in
  let '(output, error_msg) :=
    match run_test_pipeline F rng_state default_rng rng_after fisher_exact
            combine_pvalues data skip_cont skip_cat None with
    | Ok output => (Some output, None)
    | Err e => (None, Some (str e))
    end in
  let plot_path :=
    if Report.nonempty output && negb (Report.truthy error_msg)
    then if report_plots_enabled then Some (plot_file paper_id) else None
    else None in
  Report.add_result results paper_id source title output plot_path error_msg.

Fixpoint cmd_analyze_loop (results : list Report.PaperResult)
    (items : list (string * string * option string * Table1))
  : result (list Report.PaperResult) :=
  match items with
  | [] => Ok results
  | item :: rest =>
      results <- analyze_item results item ;;
      cmd_analyze_loop results rest
  end.

(** What the loop records for one item. *)
Definition recorded (item : string * string * option string * Table1)
    (r : Report.PaperResult) : Prop :=
  let '(paper_id, source, title, data) := item in
  Report.paper_id r = paper_id
  /\ Report.source r = source
  /\ Report.title r = title
  /\ match run_test_pipeline F rng_state default_rng rng_after fisher_exact
             combine_pvalues data skip_cont skip_cat None with
     | Ok output =>
         Report.error r = None
         /\ Report.combined_p_value r
            = option_map p_value_of (dict_get "fisher_method-combined" output)
         /\ Report.plot_path r
            = (if report_plots_enabled then Some (plot_file paper_id)
               else None)
     | Err e =>
         Report.error r = Some (str e)
         /\ Report.combined_p_value r = None
         /\ Report.chi_squared_p_value r = None
         /\ Report.fisher_tests_count r = 0%Z
         /\ Report.plot_path r = None
     end.

End Analyze.

(** Whether a call returned. *)
Definition returned {A} (m : result A) : bool :=
  match m with
  | Ok _ => true
  | Err _ => false
  end.

(** A stand-in for [str] in the examples. *)
Definition any_message (e : error) : string := "error".

(* ------------------------------------------------------------------------- *)
(** * Float arithmetic on finite values *)

Lemma Reqb_true x y : Reqb x y = true <-> x = y.
Proof. unfold Reqb. destruct (Req_dec_T x y); split; congruence. Qed.

Lemma Reqb_false x y : Reqb x y = false <-> x <> y.
Proof. unfold Reqb. destruct (Req_dec_T x y); split; congruence. Qed.

Lemma Rltb_true x y : Rltb x y = true <-> x < y.
Proof. unfold Rltb. destruct (Rlt_dec x y); split; congruence. Qed.

Lemma Rltb_false x y : Rltb x y = false <-> y <= x.
Proof.
  unfold Rltb. destruct (Rlt_dec x y); split; try congruence; lra.
Qed.

Lemma Rleb_true x y : Rleb x y = true <-> x <= y.
Proof. unfold Rleb. destruct (Rle_dec x y); split; congruence. Qed.

Lemma fdiv_fin x y : y <> 0 -> fdiv (Fin x) (Fin y) = Fin (x / y).
Proof.
  intros Hy. unfold fdiv.
  now rewrite (proj2 (Reqb_false y 0) Hy).
Qed.

Lemma fsub_fin x y : fsub (Fin x) (Fin y) = Fin (x - y).
Proof. reflexivity. Qed.

Lemma fsqrt_fin x : 0 <= x -> fsqrt (Fin x) = Fin (sqrt x).
Proof.
  intros Hx. unfold fsqrt.
  now rewrite (proj2 (Rltb_false x 0) Hx).
Qed.

Lemma py_min_fin a b : py_min (Fin a) (Fin b) = Fin (Rmin a b).
Proof.
  unfold py_min, flt, Rltb, Rmin.
  destruct (Rlt_dec b a), (Rle_dec a b); try reflexivity; f_equal; lra.
Qed.

Lemma fle_fin x y : fle (Fin x) (Fin y) = true <-> x <= y.
Proof.
  unfold fle, flt, feq, Rltb, Reqb.
  destruct (Rlt_dec x y), (Req_dec_T x y); simpl; split; try congruence; lra.
Qed.


Lemma no_nan_in_finite l : existsb isnan (map Fin l) = false.
Proof. induction l; simpl; auto. Qed.

Lemma no_inf_in_finite l : existsb isinf (map Fin l) = false.
Proof. induction l; simpl; auto. Qed.

(* ------------------------------------------------------------------------- *)
(** * numpy's variance on finite values is the sample variance *)

Lemma fold_fadd_fin l a :
  fold_left fadd (map Fin l) (Fin a) = Fin (a + Rsum l).
Proof.
  revert a. induction l as [|x l IH]; intros a; simpl.
  - f_equal. lra.
  - rewrite IH. f_equal. lra.
Qed.

Lemma np_sum_fin l : np_sum (map Fin l) = Fin (Rsum l).
Proof. unfold np_sum. rewrite fold_fadd_fin. f_equal. lra. Qed.


Lemma length_IZR {A} (l : list A) :
  IZR (Z.of_nat (List.length l)) = INR (List.length l).
Proof. now rewrite INR_IZR_INZ. Qed.

Lemma squared_deviations_fin l m :
  map (fun d => fmul d d) (map (fun x => fsub x (Fin m)) (map Fin l))
  = map Fin (map (fun x => (x - m) * (x - m)) l).
Proof.
  induction l as [|x l IH]; simpl; [reflexivity|].
  now rewrite IH.
Qed.

Lemma np_var_fin l :
  (2 <= List.length l)%nat ->
  np_var (map Fin l) 1 = Fin (sample_variance l).
Proof.
  intros Hlen. unfold np_var, sample_variance, arithmetic_mean.
  rewrite length_map, np_sum_fin.
  assert (Hn : 2 <= INR (List.length l)) by (apply (le_INR 2); exact Hlen).
  unfold of_Z at 1. rewrite length_IZR, fdiv_fin by lra.
  rewrite squared_deviations_fin, np_sum_fin.
  rewrite Z.max_l by lia.
  unfold of_Z. rewrite minus_IZR, length_IZR, fdiv_fin by lra.
  reflexivity.
Qed.


(* ------------------------------------------------------------------------- *)
(** * The chi-squared variance test *)

Lemma chi_square_guards (zs : list R) :
  (2 <= List.length zs)%nat ->
  (Z.of_nat (List.length (map Fin zs)) =? 0)%Z = false
  /\ (Z.of_nat (List.length (map Fin zs)) <? 2)%Z = false.
Proof.
  intros Hlen. rewrite length_map. split.
  - apply Z.eqb_neq. lia.
  - apply Z.ltb_ge. lia.
Qed.

Lemma two_tailed_range f : 0 <= f <= 1 -> 0 <= 2 * Rmin f (1 - f) <= 1.
Proof.
  intros Hf. unfold Rmin. destruct (Rle_dec f (1 - f)); lra.
Qed.

Lemma chi_square_value (F : Z -> R -> R) (zs : list R) (sigma0 : float) :
  (2 <= List.length zs)%nat ->
  flt (Fin 0) sigma0 = true ->
  let df := (Z.of_nat (List.length zs) - 1)%Z in
  let chi2_stat := chi2_statistic zs sigma0 in
  chi_square_variance_test F (Some (map Fin zs)) sigma0
  = Ok (Fin (2 * Rmin (F df chi2_stat) (1 - F df chi2_stat)), Fin chi2_stat).
Proof.
  intros Hlen Hsigma df chi2_stat.
  destruct (chi_square_guards zs Hlen) as [H0 H2].
  unfold chi_square_variance_test.
  rewrite H0, H2, no_nan_in_finite, no_inf_in_finite, np_var_fin by exact Hlen.
  rewrite length_map. fold df. cbn [orb].
  destruct sigma0 as [| | |s]; try discriminate.
  - (* sigma0 = +inf *)
    unfold chi2_stat. simpl. now rewrite py_min_fin.
  - apply Rltb_true in Hsigma.
    assert (Hs : fle (Fin s) (Fin 0) = false).
    { apply not_true_is_false. rewrite fle_fin. lra. }
    rewrite Hs.
    assert (Hstat : fdiv (fmul (of_Z df) (Fin (sample_variance zs)))
                         (fmul (Fin s) (Fin s)) = Fin chi2_stat).
    { unfold of_Z, df. simpl fmul.
      rewrite fdiv_fin by nra.
      rewrite minus_IZR, length_IZR.
      unfold chi2_stat, chi2_statistic. f_equal. f_equal. ring. }
    rewrite Hstat. simpl chi2_cdf.
    rewrite fsub_fin, py_min_fin. reflexivity.
Qed.




Lemma chi2_cdf_two_df_range df x : 0 <= chi2_cdf_two_df df x <= 1.
Proof.
  unfold chi2_cdf_two_df. destruct (Rle_dec x 0) as [Hx|Hx]; [lra|].
  pose proof (exp_pos (- x / 2)) as Hpos.
  assert (Hlt : exp (- x / 2) < exp 0) by (apply exp_increasing; lra).
  rewrite exp_0 in Hlt. lra.
Qed.



(** On the array the pipeline pools, the test returns only when the array is
    a float64 array or too short to reach [np.isnan], and then what
    [chi_square_variance_test] returns. *)
Lemma chi_square_array_ok F object_dtype zs sigma0 x :
  chi_square_variance_test_array F object_dtype zs sigma0 = Ok x ->
  chi_square_variance_test F (Some zs) sigma0 = Ok x.
Proof.
  unfold chi_square_variance_test_array.
  destruct (object_dtype && _); [discriminate|auto].
Qed.

Lemma chi_square_array_error F object_dtype zs sigma0 e :
  chi_square_variance_test_array F object_dtype zs sigma0 = Err e ->
  e = UFuncTypeError "isnan"
  \/ chi_square_variance_test F (Some zs) sigma0 = Err e.
Proof.
  unfold chi_square_variance_test_array.
  destruct (object_dtype && _); [intros [= <-]; now left | now right].
Qed.

(* ------------------------------------------------------------------------- *)
(** * Dicts *)

Lemma dict_get_set_same {V} k (v : V) d : dict_get k (dict_set k v d) = Some v.
Proof.
  induction d as [|[k' v'] d IH]; simpl.
  - now rewrite String.eqb_refl.
  - destruct (String.eqb k k') eqn:E; simpl; rewrite ?E; auto.
    now rewrite String.eqb_refl.
Qed.

Lemma dict_get_set_other {V} k k' (v : V) d :
  k <> k' -> dict_get k' (dict_set k v d) = dict_get k' d.
Proof.
  intros Hne. induction d as [|[k0 v0] d IH]; simpl.
  - apply String.eqb_neq in Hne. rewrite String.eqb_sym in Hne. now rewrite Hne.
  - destruct (String.eqb k k0) eqn:E; simpl.
    + apply String.eqb_eq in E. subst k0.
      apply String.eqb_neq in Hne. rewrite String.eqb_sym in Hne.
      now rewrite Hne.
    + now rewrite IH.
Qed.

Lemma dict_get_key {V} k (d : list (string * V)) :
  In k (dict_keys d) -> exists v, dict_get k d = Some v.
Proof.
  induction d as [|[k' v'] d IH]; simpl; [tauto|].
  intros [->|Hin].
  - rewrite String.eqb_refl. eauto.
  - destruct (String.eqb k k'); eauto.
Qed.

Lemma mem_In k l : mem k l = true <-> In k l.
Proof.
  unfold mem. rewrite existsb_exists. split.
  - intros [x [Hin Hx]]. apply String.eqb_eq in Hx. now subst.
  - intros Hin. exists k. split; [assumption | apply String.eqb_refl].
Qed.

(* ------------------------------------------------------------------------- *)
(** * The contingency table *)

Lemma table_rows_spec labels group_count group_total :
  (forall g, In g labels ->
     dict_get g group_count <> None /\ dict_get g group_total <> None) ->
  (forall table, table_rows labels group_count group_total = Ok table ->
     (forall g, In g labels -> ~ exceeds group_count group_total g)
     /\ table = map (fun g => [value_of g group_count;
                               (value_of g group_total
                                - value_of g group_count)%Z]) labels)
  /\ (forall e, table_rows labels group_count group_total = Err e ->
        exists g, In g labels /\ exceeds group_count group_total g
                  /\ e = ValueError (SuccessExceedsTotal g
                                       (value_of g group_count)
                                       (value_of g group_total))).
Proof.
  induction labels as [|g rest IH]; intros Hdef.
  - split; [|discriminate].
    intros table [= <-]. split; [intros g []|reflexivity].
  - destruct (Hdef g (or_introl eq_refl)) as [Hc Ht].
    destruct (IH (fun g' H => Hdef g' (or_intror H))) as [IHok IHerr].
    simpl table_rows. unfold dict_lookup, exceeds, value_of in *.
    destruct (dict_get g group_count) as [success|] eqn:Es; [|congruence].
    destruct (dict_get g group_total) as [total|] eqn:Et; [|congruence].
    simpl bind.
    destruct (total <? success)%Z eqn:Ecmp.
    + apply Z.ltb_lt in Ecmp. split; [discriminate|].
      intros e [= <-]. exists g. rewrite Es, Et. auto with datatypes.
    + apply Z.ltb_ge in Ecmp.
      destruct (table_rows rest group_count group_total) as [table'|e'] eqn:Er;
        simpl bind.
      * split; [|discriminate]. intros table [= <-].
        destruct (IHok table' eq_refl) as [Hno ->]. split.
        -- intros g' [<-|Hin]; [rewrite Es, Et; lia | now apply Hno].
        -- simpl. now rewrite Es, Et.
      * split; [discriminate|]. intros e [= <-].
        destruct (IHerr e' eq_refl) as [g' [Hin [Hex ->]]].
        exists g'. auto with datatypes.
Qed.

(** C5. Given success counts and a total for each of their groups,
    [contingency_table_binary] returns the table whose rows, in key order, are
    [[count_g, total_g - count_g]], and it raises an error exactly when some
    group's count exceeds its total. *)
Theorem contingency_table_binary_spec
    (group_count group_total : list (string * Z)) :
  (forall g, In g (dict_keys group_count) -> dict_get g group_total <> None) ->
  ((exists e, contingency_table_binary group_count group_total = Err e)
   <-> (exists g, In g (dict_keys group_count)
                  /\ exceeds group_count group_total g))
  /\ ((forall g, In g (dict_keys group_count)
                 -> ~ exceeds group_count group_total g)
      -> contingency_table_binary group_count group_total
         = Ok (map (fun g => [value_of g group_count;
                              (value_of g group_total
                               - value_of g group_count)%Z])
                   (dict_keys group_count))).
Proof.
  intros Htotals. unfold contingency_table_binary.
  assert (Hdef : forall g, In g (dict_keys group_count) ->
            dict_get g group_count <> None /\ dict_get g group_total <> None).
  { intros g Hin. split; [|now apply Htotals].
    destruct (dict_get_key g group_count Hin) as [v ->]. discriminate. }
  destruct (table_rows_spec _ _ _ Hdef) as [Hok Herr].
  destruct (table_rows (dict_keys group_count) group_count group_total)
    as [table|e] eqn:E.
  - destruct (Hok table eq_refl) as [Hno ->]. split; [|reflexivity].
    split; [intros [e [=]]|].
    intros [g [Hin Hex]]. now destruct (Hno g Hin).
  - destruct (Herr e eq_refl) as [g [Hin [Hex _]]]. split.
    + split; eauto.
    + intros Hno. now destruct (Hno g Hin).
Qed.

Lemma contingency_table_binary_spec_witness :
  ((exists e, contingency_table_binary [("A", 30%Z)] [("A", 50%Z)] = Err e)
   <-> (exists g, In g (dict_keys [("A", 30%Z)])
                  /\ exceeds [("A", 30%Z)] [("A", 50%Z)] g))
  /\ ((forall g, In g (dict_keys [("A", 30%Z)])
                 -> ~ exceeds [("A", 30%Z)] [("A", 50%Z)] g)
      -> contingency_table_binary [("A", 30%Z)] [("A", 50%Z)]
         = Ok (map (fun g => [value_of g [("A", 30%Z)];
                              (value_of g [("A", 50%Z)]
                               - value_of g [("A", 30%Z)])%Z])
                   (dict_keys [("A", 30%Z)]))).
Proof.
  apply (contingency_table_binary_spec [("A", 30%Z)] [("A", 50%Z)]).
  intros g [<-|[]]. simpl. discriminate.
Defined.

Example contingency_table_A : 
  contingency_table_binary [("A", 30%Z)] [("A", 50%Z)] = Ok [[30%Z; 20%Z]].
Proof. reflexivity. Qed.

Example contingency_table_three_groups :
  contingency_table_binary [("A", 10); ("B", 15); ("C", 20)]%Z
                           [("A", 30); ("B", 40); ("C", 50)]%Z
  = Ok [[10; 20]; [15; 25]; [20; 30]]%Z.
Proof. reflexivity. Qed.

Example contingency_table_exceeding :
  contingency_table_binary [("A", 10); ("B", 41)]%Z [("A", 30); ("B", 40)]%Z
  = raise (SuccessExceedsTotal "B" 41 40).
Proof. reflexivity. Qed.

(* ------------------------------------------------------------------------- *)
(** * The categorical rate engine *)

Lemma counts_complete_spec count_cols r :
  is_categorical r && counts_complete count_cols r = true
  <-> complete_categorical count_cols r.
Proof.
  unfold complete_categorical, is_categorical, counts_complete.
  rewrite andb_true_iff, String.eqb_eq, forallb_forall.
  split; intros [Ht Hc]; (split; [exact Ht|]); intros g Hin.
  - specialize (Hc g Hin). destruct (c_count (cell r g)); [eauto|discriminate].
  - destruct (Hc g Hin) as [c ->]. reflexivity.
Qed.

Lemma count_sum_acc r cols acc :
  fold_left (fun acc g => match c_count (cell r g) with
                          | Some c => (acc + c)%Z
                          | None => acc
                          end) cols acc
  = (acc + Zsum (map (count_of r) cols))%Z.
Proof.
  revert acc. induction cols as [|g cols IH]; intros acc; simpl.
  - lia.
  - rewrite IH. unfold count_of. destruct (c_count (cell r g)); lia.
Qed.

Lemma count_sum_Zsum r cols : count_sum r cols = Zsum (map (count_of r) cols).
Proof. unfold count_sum. now rewrite count_sum_acc. Qed.

Lemma filter_filter {A} (p q : A -> bool) l :
  filter q (filter p l) = filter (fun x => p x && q x) l.
Proof.
  induction l as [|x l IH]; simpl; [reflexivity|].
  destruct (p x); simpl; [destruct (q x)|]; now rewrite IH.
Qed.

(** X28. On a frame in which no group id contains "count", so that the
    columns the engine selects are the count columns, and with a positive
    total, the categorical rate engine never fails; its output keeps the
    columns of the input and exactly the rows, in order, that are categorical
    and have a count for every group, each with
    [population_rate = sum(counts) / total_sample_size]. *)
Theorem process_categorical_variables_subset
    (d : DataFrame) (total_sample_size : Z) :
  plain "count" d = true ->
  (0 < total_sample_size)%Z ->
  exists (out : DataFrame) (kept : WideRow -> bool),
    process_categorical_variables (Some d) total_sample_size = Ok (Some out)
    /\ blocks out = blocks d
    /\ (forall r, kept r = true <-> complete_categorical (blocks d) r)
    /\ df_rows out
       = map (fun r => with_population_rate r
                         (Fin (IZR (Zsum (map (count_of r) (blocks d)))
                               / IZR total_sample_size)))
             (filter kept (df_rows d)).
Proof.
  intros _ Hpos.
  assert (Hrate : forall r,
             fdiv (of_Z (count_sum r (blocks d))) (of_Z total_sample_size)
             = Fin (IZR (Zsum (map (count_of r) (blocks d)))
                    / IZR total_sample_size)).
  { intros r. unfold of_Z. rewrite count_sum_Zsum. apply fdiv_fin.
    apply not_0_IZR. lia. }
  unfold process_categorical_variables.
  destruct (empty d) eqn:Hempty.
  - exists d, (fun r => is_categorical r && counts_complete (blocks d) r).
    split; [reflexivity|]. split; [reflexivity|].
    split; [intros r; apply counts_complete_spec|].
    unfold empty in Hempty. destruct (df_rows d); [reflexivity|discriminate].
  - assert (Hle : (total_sample_size <=? 0)%Z = false) by (apply Z.leb_gt; lia).
    rewrite Hle.
    eexists _, (fun r => is_categorical r && counts_complete (blocks d) r).
    split; [reflexivity|]. cbn [blocks df_rows].
    split; [reflexivity|].
    split; [intros r; apply counts_complete_spec|].
    rewrite filter_filter. apply map_ext. intros r. now rewrite Hrate.
Qed.

Lemma process_categorical_variables_subset_witness :
  exists (out : DataFrame) (kept : WideRow -> bool),
    process_categorical_variables (Some (to_csv_wide smoker_table)) 100
    = Ok (Some out)
    /\ blocks out = blocks (to_csv_wide smoker_table)
    /\ (forall r, kept r = true
                  <-> complete_categorical (blocks (to_csv_wide smoker_table)) r)
    /\ df_rows out
       = map (fun r => with_population_rate r
                         (Fin (IZR (Zsum (map (count_of r)
                                            (blocks (to_csv_wide smoker_table))))
                               / IZR 100)))
             (filter kept (df_rows (to_csv_wide smoker_table))).
Proof.
  apply (process_categorical_variables_subset (to_csv_wide smoker_table) 100).
  - reflexivity.
  - lia.
Defined.

(** A row with a missing count is dropped without an error. *)
Example missing_count_is_dropped :
  process_categorical_variables
    (Some (to_csv_wide
             {| groups := two_groups;
                rows := [smoker_row None (Some 20%Z);
                         smoker_row (Some 12%Z) (Some 15%Z)] |})) 100
  = Ok (Some {| blocks := ["treatment"; "control"];
                object_columns :=
                  object_columns_of [smoker_row None (Some 20%Z);
                                     smoker_row (Some 12%Z) (Some 15%Z)]
                                    ["treatment"; "control"];
                df_rows :=
                  [with_population_rate
                     (wide_record 1 (smoker_row (Some 12%Z) (Some 15%Z)))
                     (fdiv (of_Z 27) (of_Z 100))] |}).
Proof. reflexivity. Qed.

(** C9 as stated fails: on an empty frame the engine returns the frame before
    it looks at [total_sample_size]. *)
Lemma process_categorical_variables_empty_frame_counterexample :
  ~ (forall (df : option DataFrame) (total_sample_size : Z),
       (total_sample_size <= 0)%Z ->
       exists e, process_categorical_variables df total_sample_size = Err e).
Proof.
  intros H.
  destruct (H (Some (to_csv_wide no_rows_table)) 0%Z) as [e He]; [lia|].
  discriminate He.
Qed.

Example empty_frame_is_returned :
  process_categorical_variables (Some (to_csv_wide no_rows_table)) 0
  = Ok (Some (to_csv_wide no_rows_table)).
Proof. reflexivity. Qed.

(** C9, amended. A frame that is [None] or empty is returned as it is,
    whatever [total_sample_size] is; on a frame that is not empty, the
    categorical rate engine fails with a data error whenever
    [total_sample_size <= 0]. *)
Theorem process_categorical_variables_total_not_positive
    (total_sample_size : Z) :
  process_categorical_variables None total_sample_size = Ok None
  /\ (forall d, empty d = true ->
        process_categorical_variables (Some d) total_sample_size
        = Ok (Some d))
  /\ (forall d, empty d = false -> (total_sample_size <= 0)%Z ->
        process_categorical_variables (Some d) total_sample_size
        = raise TotalSampleSizeNotPositive).
Proof.
  split; [reflexivity|]. split.
  - intros d He. unfold process_categorical_variables. now rewrite He.
  - intros d Hne Hle. unfold process_categorical_variables.
    rewrite Hne. apply Z.leb_le in Hle. now rewrite Hle.
Qed.

(** No frame and the frame without rows come back with the total -3; the
    frame of the smoker row fails with the total 0. *)
Lemma process_categorical_variables_total_not_positive_witness :
  process_categorical_variables None (-3) = Ok None
  /\ process_categorical_variables (Some (to_csv_wide no_rows_table)) (-3)
     = Ok (Some (to_csv_wide no_rows_table))
  /\ process_categorical_variables (Some (to_csv_wide smoker_table)) 0
     = raise TotalSampleSizeNotPositive.
Proof.
  destruct (process_categorical_variables_total_not_positive (-3))
    as (Hnone & Hempty & _).
  destruct (process_categorical_variables_total_not_positive 0)
    as (_ & _ & Hraise).
  split; [exact Hnone|]. split.
  - apply Hempty. reflexivity.
  - apply Hraise; [reflexivity|lia].
Defined.

(* ------------------------------------------------------------------------- *)
(** * The continuous z-score engine: one group *)

Lemma existsb_map_compose {A B} (f : B -> bool) (h : A -> B) l :
  existsb f (map h l) = existsb (fun x => f (h x)) l.
Proof. induction l; simpl; congruence. Qed.

Lemma existsb_pointwise {A} (f g : A -> bool) l :
  (forall x, f x = g x) -> existsb f l = existsb g l.
Proof. intros H. induction l; simpl; congruence. Qed.

Lemma existsb_false_forall {A} (f : A -> bool) l :
  existsb f l = false <-> forall x, In x l -> f x = false.
Proof.
  induction l as [|a l IH]; simpl.
  - split; [intros _ x []|reflexivity].
  - rewrite orb_false_iff, IH. split.
    + intros [Ha Hl] x [<-|Hin]; auto.
    + intros H. split; auto.
Qed.

Lemma set_sd_same c : set_sd c (c_sd c) = c.
Proof. now destruct c. Qed.

Lemma cell_with_zscore_sem r g z s g' :
  cell (with_zscore_sem r g z s) g' = cell r g'.
Proof. reflexivity. Qed.

Lemma cell_impute_row_other g n r g' :
  g <> g' -> cell (impute_row g n r) g' = cell r g'.
Proof.
  intros Hne. unfold impute_row. destruct (sd_missing g r); [|reflexivity].
  unfold cell. simpl. now rewrite dict_get_set_other.
Qed.

Lemma cell_impute_row_same g n r :
  cell (impute_row g n r) g = set_sd (cell r g) (effective_sd g n r).
Proof.
  unfold impute_row, effective_sd. destruct (sd_missing g r).
  - unfold cell at 1. simpl. now rewrite dict_get_set_same.
  - now rewrite set_sd_same.
Qed.

Lemma impute_row_present g n r : sd_missing g r = false -> impute_row g n r = r.
Proof. intros H. unfold impute_row. now rewrite H. Qed.

Lemma impute_sd_cases g n mean_df :
  impute_sd g n mean_df
  = if existsb (fun r => sd_missing g r && ci_missing g r) mean_df
    then raise (CannotComputeSD g)
    else Ok (map (impute_row g n) mean_df).
Proof.
  unfold impute_sd. destruct (existsb (sd_missing g) mean_df) eqn:E.
  - reflexivity.
  - rewrite existsb_false_forall in E.
    assert (H : existsb (fun r => sd_missing g r && ci_missing g r) mean_df
                = false).
    { apply existsb_false_forall. intros r Hin. now rewrite (E r Hin). }
    rewrite H. f_equal. symmetry.
    rewrite <- (map_id mean_df) at 2. apply map_ext_in.
    intros r Hin. apply impute_row_present. now apply E.
Qed.

Lemma sem_of_impute_row g n r :
  sem_of g n (impute_row g n r) = computed_sem g n r.
Proof.
  unfold sem_of, computed_sem. rewrite cell_impute_row_same.
  now destruct (cell r g).
Qed.

Lemma mean_of_impute_row g n r g' :
  c_mean (cell (impute_row g n r) g') = c_mean (cell r g').
Proof.
  destruct (string_dec g g') as [<-|Hne].
  - rewrite cell_impute_row_same. now destruct (cell r g).
  - now rewrite cell_impute_row_other.
Qed.

Lemma source_of_impute_row g n r : same_source r (impute_row g n r).
Proof.
  unfold impute_row, same_source. destruct (sd_missing g r); simpl; tauto.
Qed.

Lemma zscore_of_impute_row g n r :
  zscore_of g n (impute_row g n r) = computed_zscore g n r.
Proof.
  unfold zscore_of, computed_zscore.
  rewrite sem_of_impute_row, mean_of_impute_row.
  destruct (source_of_impute_row g n r) as (_ & _ & _ & -> & _).
  reflexivity.
Qed.

Lemma process_group_cases df_blocks sample_size g n mean_df :
  mem g df_blocks = true ->
  dict_get g sample_size = Some n ->
  process_group df_blocks sample_size g mean_df
  = if existsb (fun r => sd_missing g r && ci_missing g r) mean_df
    then raise (CannotComputeSD g)
    else if existsb (fun r => feq (computed_sem g n r) (Fin 0)) mean_df
         then raise (SemIsZero g)
         else Ok (map (step_row g n) mean_df).
Proof.
  intros Hcol Hn. unfold process_group, column, dict_lookup.
  rewrite Hcol, Hn. simpl bind. rewrite impute_sd_cases.
  destruct (existsb _ mean_df); [reflexivity|]. simpl bind.
  unfold add_zscores. rewrite existsb_map_compose.
  rewrite (existsb_pointwise _ (fun r => feq (computed_sem g n r) (Fin 0)))
    by (intros r; now rewrite sem_of_impute_row).
  destruct (existsb _ mean_df); [reflexivity|].
  now rewrite map_map.
Qed.

Lemma process_group_ok_inv df_blocks sample_size g mean_df mean_df' :
  process_group df_blocks sample_size g mean_df = Ok mean_df' ->
  exists n,
    mem g df_blocks = true
    /\ dict_get g sample_size = Some n
    /\ (forall r, In r mean_df -> unusable g n r = false)
    /\ mean_df' = map (step_row g n) mean_df.
Proof.
  intros H.
  destruct (mem g df_blocks) eqn:Hcol;
    [|unfold process_group, column in H; rewrite Hcol in H; discriminate].
  destruct (dict_get g sample_size) as [n|] eqn:Hn;
    [|unfold process_group, column, dict_lookup in H;
      rewrite Hcol, Hn in H; discriminate].
  rewrite (process_group_cases _ _ _ n _ Hcol Hn) in H.
  destruct (existsb (fun r => sd_missing g r && ci_missing g r) mean_df) eqn:E1;
    [discriminate|].
  destruct (existsb (fun r => feq (computed_sem g n r) (Fin 0)) mean_df) eqn:E2;
    [discriminate|].
  injection H as <-. exists n. repeat split; auto.
  intros r Hin. unfold unusable.
  rewrite existsb_false_forall in E1, E2.
  now rewrite (E1 r Hin), (E2 r Hin).
Qed.

(* ------------------------------------------------------------------------- *)
(** * The continuous z-score engine: the loop over the groups *)

Lemma effective_sd_ext g n r1 r2 :
  cell r1 g = cell r2 g -> effective_sd g n r1 = effective_sd g n r2.
Proof. intros H. unfold effective_sd, sd_missing. now rewrite H. Qed.

Lemma computed_sem_ext g n r1 r2 :
  cell r1 g = cell r2 g -> computed_sem g n r1 = computed_sem g n r2.
Proof. intros H. unfold computed_sem. now rewrite (effective_sd_ext g n r1 r2). Qed.

Lemma computed_zscore_ext g n r1 r2 :
  cell r1 g = cell r2 g -> population_mean r1 = population_mean r2 ->
  computed_zscore g n r1 = computed_zscore g n r2.
Proof.
  intros H Hm. unfold computed_zscore.
  now rewrite (computed_sem_ext g n r1 r2), H, Hm.
Qed.

Lemma unusable_ext g n r1 r2 :
  cell r1 g = cell r2 g -> unusable g n r1 = unusable g n r2.
Proof.
  intros H. unfold unusable, sd_missing, ci_missing.
  now rewrite (computed_sem_ext g n r1 r2), H.
Qed.

Lemma cell_step_row_other g n r g' :
  g <> g' -> cell (step_row g n r) g' = cell r g'.
Proof.
  intros Hne. unfold step_row. rewrite cell_with_zscore_sem.
  now apply cell_impute_row_other.
Qed.

Lemma cell_step_row_same g n r :
  cell (step_row g n r) g = set_sd (cell r g) (effective_sd g n r).
Proof.
  unfold step_row. rewrite cell_with_zscore_sem. apply cell_impute_row_same.
Qed.

Lemma source_of_step_row g n r : same_source r (step_row g n r).
Proof. unfold step_row. apply (source_of_impute_row g n r). Qed.

Lemma col_zscore_step_row g n r :
  col_zscore (step_row g n r) = dict_set g (computed_zscore g n r) (col_zscore r).
Proof.
  unfold step_row. simpl. rewrite zscore_of_impute_row.
  unfold impute_row. now destruct (sd_missing g r).
Qed.

Lemma col_sem_step_row g n r :
  col_sem (step_row g n r) = dict_set g (computed_sem g n r) (col_sem r).
Proof.
  unfold step_row. simpl. rewrite sem_of_impute_row.
  unfold impute_row. now destruct (sd_missing g r).
Qed.

Lemma same_source_trans r1 r2 r3 :
  same_source r1 r2 -> same_source r2 r3 -> same_source r1 r3.
Proof.
  unfold same_source. intros (A1 & A2 & A3 & A4 & A5) (B1 & B2 & B3 & B4 & B5).
  repeat split; congruence.
Qed.

Lemma processed_nil sample_size r : processed sample_size [] r r.
Proof.
  unfold processed, same_source. repeat split; auto. intros g [].
Qed.

Lemma processed_cons sample_size g n rest r r' :
  ~ In g rest ->
  dict_get g sample_size = Some n ->
  processed sample_size rest (step_row g n r) r' ->
  processed sample_size (g :: rest) r r'.
Proof.
  intros Hfresh Hn (Hsrc & Hout & Hin).
  pose proof (source_of_step_row g n r) as Hstep.
  split; [exact (same_source_trans _ _ _ Hstep Hsrc)|]. split.
  - intros g' Hno.
    assert (Hne : g <> g') by (intros ->; apply Hno; now left).
    destruct (Hout g') as (Hc & Hz & Hs); [intros H; apply Hno; now right|].
    rewrite Hc, Hz, Hs, col_zscore_step_row, col_sem_step_row.
    rewrite cell_step_row_other, !dict_get_set_other by exact Hne. auto.
  - intros g' [<-|Hrest].
    + exists n. destruct (Hout g Hfresh) as (Hc & Hz & Hs).
      rewrite Hc, Hz, Hs, col_zscore_step_row, col_sem_step_row.
      rewrite cell_step_row_same, !dict_get_set_same. auto.
    + assert (Hne : g <> g') by (intros ->; contradiction).
      destruct (Hin g' Hrest) as (n' & Hn' & Hc & Hs & Hz).
      pose proof (cell_step_row_other g n r g' Hne) as Hcell.
      destruct Hstep as (_ & _ & _ & Hpm & _).
      exists n'. rewrite Hc, Hs, Hz.
      rewrite (effective_sd_ext g' n' _ r Hcell),
              (computed_sem_ext g' n' _ r Hcell),
              (computed_zscore_ext g' n' _ r Hcell Hpm), Hcell.
      auto.
Qed.

Lemma Forall2_map_left {A B C} (R : B -> C -> Prop) (f : A -> B) l l' :
  Forall2 R (map f l) l' -> Forall2 (fun x y => R (f x) y) l l'.
Proof.
  revert l'. induction l as [|a l IH]; intros l' H; inversion H; subst.
  - constructor.
  - constructor; auto.
Qed.

Lemma Forall2_weaken {A B} (R S : A -> B -> Prop) l l' :
  (forall x y, In x l -> R x y -> S x y) -> Forall2 R l l' -> Forall2 S l l'.
Proof.
  intros H HR. induction HR; constructor.
  - apply H; [now left|assumption].
  - apply IHHR. intros a b Hin. apply H. now right.
Qed.

(** When the loop finishes, every group had columns, a sample size and no
    unusable row, and each row went through [step_row] once per group. *)
Lemma process_groups_ok df_blocks sample_size gs mean_df mean_df' :
  NoDup gs ->
  process_groups df_blocks sample_size gs mean_df = Ok mean_df' ->
  Forall2 (processed sample_size gs) mean_df mean_df'.
Proof.
  intros Hnd. revert mean_df.
  induction Hnd as [|g rest Hfresh Hnd IH]; intros mean_df H; simpl in H.
  - injection H as <-. induction mean_df; constructor; auto using processed_nil.
  - destruct (process_group df_blocks sample_size g mean_df) as [rows1|e] eqn:E;
      [|discriminate].
    simpl in H.
    destruct (process_group_ok_inv _ _ _ _ _ E) as (n & _ & Hn & _ & ->).
    apply IH, Forall2_map_left in H.
    eapply Forall2_weaken; [|exact H].
    intros r r' _. now apply processed_cons.
Qed.

(** A row that is unusable for one of the groups makes the loop raise; the
    error is a [ValueError] when every group has its columns. *)
Lemma process_groups_fails df_blocks sample_size gs mean_df g n r :
  (forall g', In g' gs -> exists n', dict_get g' sample_size = Some n') ->
  In g gs ->
  dict_get g sample_size = Some n ->
  In r mean_df ->
  unusable g n r = true ->
  exists e,
    process_groups df_blocks sample_size gs mean_df = Err e
    /\ ((forall g', In g' gs -> mem g' df_blocks = true) -> is_data_error e).
Proof.
  intros Hsizes. revert mean_df r.
  induction gs as [|g0 rest IH]; intros mean_df r Hg Hn Hr Hbad; [destruct Hg|].
  simpl process_groups.
  destruct (mem g0 df_blocks) eqn:Hcol.
  - destruct (Hsizes g0 (or_introl eq_refl)) as [n0 Hn0].
    rewrite (process_group_cases _ _ _ n0 _ Hcol Hn0).
    destruct (existsb (fun r => sd_missing g0 r && ci_missing g0 r) mean_df)
      eqn:E1; [eexists; split; [reflexivity|intros _; eexists; reflexivity]|].
    destruct (existsb (fun r => feq (computed_sem g0 n0 r) (Fin 0)) mean_df)
      eqn:E2; [eexists; split; [reflexivity|intros _; eexists; reflexivity]|].
    simpl bind. rewrite existsb_false_forall in E1, E2.
    destruct Hg as [->|Hg].
    + exfalso. assert (n0 = n) by congruence. subst n0.
      unfold unusable in Hbad. rewrite (E1 r Hr), (E2 r Hr) in Hbad.
      discriminate.
    + destruct (string_dec g0 g) as [->|Hne].
      * exfalso. assert (n0 = n) by congruence. subst n0.
        unfold unusable in Hbad. rewrite (E1 r Hr), (E2 r Hr) in Hbad.
        discriminate.
      * destruct (IH (fun g' H => Hsizes g' (or_intror H))
                     (map (step_row g0 n0) mean_df) (step_row g0 n0 r) Hg Hn)
          as (e & He & Hdata).
        -- now apply in_map.
        -- rewrite (unusable_ext g n _ r); [exact Hbad|].
           now apply cell_step_row_other.
        -- exists e. split; [exact He|].
           intros Hcols. apply Hdata. intros g' H. apply Hcols. now right.
  - unfold process_group, column. rewrite Hcol. simpl bind.
    eexists. split; [reflexivity|].
    intros Hcols. rewrite Hcols in Hcol by now left. discriminate.
Qed.

(** When every missing sd has its confidence interval, the loop can stop only
    at the zero-SEM check. *)
Lemma process_groups_progress df_blocks sample_size gs mean_df :
  NoDup gs ->
  (forall g, In g gs ->
     mem g df_blocks = true /\ exists n, dict_get g sample_size = Some n) ->
  (forall r g, In r mean_df -> In g gs ->
     sd_missing g r = true -> ci_missing g r = false) ->
  (exists mean_df', process_groups df_blocks sample_size gs mean_df = Ok mean_df')
  \/ (exists g n r,
        In g gs /\ dict_get g sample_size = Some n /\ In r mean_df
        /\ feq (computed_sem g n r) (Fin 0) = true
        /\ process_groups df_blocks sample_size gs mean_df
           = raise (SemIsZero g)).
Proof.
  intros Hnd. revert mean_df.
  induction Hnd as [|g rest Hfresh Hnd IH]; intros mean_df Hgs Hci.
  - left. now exists mean_df.
  - destruct (Hgs g (or_introl eq_refl)) as [Hcol [n Hn]].
    simpl process_groups. rewrite (process_group_cases _ _ _ n _ Hcol Hn).
    assert (E1 : existsb (fun r => sd_missing g r && ci_missing g r) mean_df
                 = false).
    { apply existsb_false_forall. intros r Hr.
      destruct (sd_missing g r) eqn:Hsd; [|reflexivity].
      now rewrite (Hci r g Hr (or_introl eq_refl) Hsd). }
    rewrite E1.
    destruct (existsb (fun r => feq (computed_sem g n r) (Fin 0)) mean_df)
      eqn:E2.
    + right. apply existsb_exists in E2. destruct E2 as (r & Hr & Hz).
      exists g, n, r. repeat split; auto. now left.
    + simpl bind.
      assert (Hne : forall g', In g' rest -> g <> g')
        by (intros g' H ->; contradiction).
      destruct (IH (map (step_row g n) mean_df)) as [Hok|Hzero].
      * intros g' H. apply Hgs. now right.
      * intros r1 g' Hr1 Hg'. apply in_map_iff in Hr1.
        destruct Hr1 as (r & <- & Hr).
        unfold sd_missing, ci_missing.
        rewrite (cell_step_row_other g n r g' (Hne g' Hg')).
        apply (Hci r g' Hr). now right.
      * now left.
      * right. destruct Hzero as (g' & n' & r1 & Hg' & Hn' & Hr1 & Hz & Hres).
        apply in_map_iff in Hr1. destruct Hr1 as (r & <- & Hr).
        exists g', n', r. repeat split; auto; [now right|].
        rewrite <- (computed_sem_ext g' n' (step_row g n r) r); [exact Hz|].
        now apply cell_step_row_other, Hne.
Qed.

(* ------------------------------------------------------------------------- *)
(** * The continuous z-score engine: the whole function *)

Lemma dict_get_Some_key {V} k (v : V) d :
  dict_get k d = Some v -> In k (dict_keys d).
Proof.
  induction d as [|[k' v'] d IH]; simpl; [discriminate|].
  destruct (String.eqb k k') eqn:E.
  - apply String.eqb_eq in E. auto.
  - auto.
Qed.

Lemma retained_kept d :
  retained d
  = map (fun r => with_population_mean r (row_mean r (blocks d))) (kept_rows d).
Proof. unfold retained, kept_rows. now rewrite filter_filter. Qed.

Lemma kept_rows_not_empty d r : In r (kept_rows d) -> empty d = false.
Proof.
  unfold kept_rows, empty. intros H. apply filter_In in H.
  destruct H as [H _]. now destruct (df_rows d).
Qed.

Lemma engine_loop d sample_size :
  empty d = false ->
  sample_size <> [] ->
  existsb (fun s => (s <=? 0)%Z) (dict_values sample_size) = false ->
  process_continuous_variables_mean (Some d) sample_size
  = (mean_df <- process_groups (blocks d) sample_size (dict_keys sample_size)
                               (retained d) ;;
     Ok (Some {| blocks := blocks d;
                 object_columns :=
                   engine_object_columns d (dict_keys sample_size);
                 df_rows := mean_df |})).
Proof.
  intros He Hne Hpos. unfold process_continuous_variables_mean.
  rewrite He, Hpos. now destruct sample_size.
Qed.

(** A retained row that is unusable for a group makes the engine fail. *)
Lemma engine_fails_on_unusable d sample_size r g n :
  In r (kept_rows d) ->
  dict_get g sample_size = Some n ->
  unusable g n r = true ->
  exists e,
    process_continuous_variables_mean (Some d) sample_size = Err e
    /\ ((forall g', In g' (dict_keys sample_size) -> In g' (blocks d))
        -> is_data_error e).
Proof.
  intros Hr Hn Hbad.
  pose proof (kept_rows_not_empty d r Hr) as He.
  assert (Hne : sample_size <> []) by (intros ->; discriminate).
  destruct (existsb (fun s => (s <=? 0)%Z) (dict_values sample_size)) eqn:Hpos.
  - unfold process_continuous_variables_mean. rewrite He, Hpos.
    destruct sample_size; [congruence|].
    eexists. split; [reflexivity|]. intros _. eexists. reflexivity.
  - rewrite (engine_loop d sample_size He Hne Hpos).
    destruct (process_groups_fails (blocks d) sample_size
                (dict_keys sample_size) (retained d) g n
                (with_population_mean r (row_mean r (blocks d))))
      as (e & -> & Hdata).
    + intros g' Hg'. apply dict_get_key, Hg'.
    + exact (dict_get_Some_key _ _ _ Hn).
    + exact Hn.
    + rewrite retained_kept.
      exact (in_map (fun r0 => with_population_mean r0 (row_mean r0 (blocks d)))
                    _ r Hr).
    + rewrite (unusable_ext g n _ r); [exact Hbad|reflexivity].
    + exists e. split; [reflexivity|].
      intros Hcols. apply Hdata. intros g' Hg'. apply mem_In. now apply Hcols.
Qed.


Lemma sqrt_sample_size n :
  (0 < n)%Z -> fsqrt (of_Z n) = Fin (sqrt (IZR n)) /\ 0 < sqrt (IZR n).
Proof.
  intros Hn. assert (H : 0 < IZR n) by now apply (IZR_lt 0).
  split; [apply fsqrt_fin; lra | now apply sqrt_lt_R0].
Qed.

Lemma zero_sd_zero_sem g n r :
  (0 < n)%Z -> effective_sd g n r = Fin 0 ->
  feq (computed_sem g n r) (Fin 0) = true.
Proof.
  intros Hn Hsd. unfold computed_sem. rewrite Hsd.
  destruct (sqrt_sample_size n Hn) as [-> Hs].
  rewrite fdiv_fin by lra. simpl. apply Reqb_true. unfold Rdiv. ring.
Qed.


(** The first group of [sample_size] with a zero SEM on a retained row stops
    the engine, when none of its rows lacks both sd and interval. *)
Lemma first_group_zero_sem d sample_size g n rest r :
  existsb (fun s => (s <=? 0)%Z) (dict_values sample_size) = false ->
  dict_keys sample_size = g :: rest ->
  mem g (blocks d) = true ->
  dict_get g sample_size = Some n ->
  (forall r', In r' (kept_rows d) -> sd_missing g r' && ci_missing g r' = false) ->
  In r (kept_rows d) ->
  feq (computed_sem g n r) (Fin 0) = true ->
  process_continuous_variables_mean (Some d) sample_size = raise (SemIsZero g).
Proof.
  intros Hpos Hkeys Hcol Hn Hci Hr Hz.
  assert (Hne : sample_size <> []) by (intros ->; discriminate).
  rewrite (engine_loop d sample_size (kept_rows_not_empty d r Hr) Hne Hpos).
  rewrite Hkeys. simpl process_groups.
  rewrite (process_group_cases _ _ _ n _ Hcol Hn), retained_kept.
  rewrite !existsb_map_compose.
  rewrite (existsb_pointwise _ (fun r' => sd_missing g r' && ci_missing g r'))
    by reflexivity.
  rewrite (proj2 (existsb_false_forall _ _) Hci).
  rewrite (existsb_pointwise _ (fun r' => feq (computed_sem g n r') (Fin 0)))
    by reflexivity.
  assert (E2 : existsb (fun r' => feq (computed_sem g n r') (Fin 0))
                       (kept_rows d) = true)
    by (apply existsb_exists; eauto).
  now rewrite E2.
Qed.

Example zero_sd_raises :
  process_continuous_variables_mean
    (Some (to_csv_wide (age_table (Some 0) None None))) fifty_each
  = raise (SemIsZero "treatment").
Proof.
  apply (first_group_zero_sem _ fifty_each "treatment" 50 ["control"]
           (wide_record 0 (age_row (Some 0) None None)));
    try reflexivity.
  - intros r' [<-|[]]. reflexivity.
  - simpl. now left.
  - apply zero_sd_zero_sem; [lia|reflexivity].
Qed.

(* ------------------------------------------------------------------------- *)
(** * Imputing the sd from the confidence interval *)

Lemma sd_from_ci_formula l u n :
  (0 < n)%Z ->
  sd_from_ci (Fin l) (Fin u) n = Fin ((u - l) / (2 * 1.96) * sqrt (IZR n)).
Proof.
  intros Hn. unfold sd_from_ci.
  destruct (sqrt_sample_size n Hn) as [-> _].
  rewrite fsub_fin, fdiv_fin by lra. reflexivity.
Qed.

(** C3 as stated fails: an interval whose bounds are present and equal gives
    the imputed sd 0, and the engine stops at its zero-SEM check. *)
Lemma equal_ci_bounds_counterexample :
  let d := to_csv_wide (age_table None (Some 57) (Some 57)) in
  let r := wide_record 0 (age_row None (Some 57) (Some 57)) in
  In r (kept_rows d)
  /\ sd_missing "treatment" r = true
  /\ ci_missing "treatment" r = false
  /\ process_continuous_variables_mean (Some d) fifty_each
     = raise (SemIsZero "treatment").
Proof.
  intros d r.
  assert (Hr : In r (kept_rows d)) by (simpl; now left).
  repeat split; try reflexivity; try exact Hr.
  apply (first_group_zero_sem d fifty_each "treatment" 50 ["control"] r);
    try reflexivity; try exact Hr.
  - intros r' [<-|[]]. reflexivity.
  - apply zero_sd_zero_sem; [lia|].
    unfold effective_sd. simpl. rewrite sd_from_ci_formula by lia.
    f_equal. unfold Rdiv. ring.
Qed.

Lemma Forall_positive_sizes sample_size :
  Forall (fun s => (0 < s)%Z) (dict_values sample_size) ->
  existsb (fun s => (s <=? 0)%Z) (dict_values sample_size) = false.
Proof.
  intros H. apply existsb_false_forall. intros s Hs.
  rewrite Forall_forall in H. apply Z.leb_gt. now apply H.
Qed.

(** C3, amended. On a frame with rows in which the mean columns are the
    columns whose label contains "mean" (no group id contains that word, and
    there is no [population_mean] column yet), with positive sample sizes
    and the columns of every group: when every retained row has, for every
    group, its
    sd or both bounds of its confidence interval, the engine returns the
    retained rows with each missing sd replaced by
    [(ci_upper - ci_lower) / (2 * 1.96) * sqrt(sample_size[group])], unless the
    SEM of some group is zero on some retained row, and then it fails with the
    zero-SEM error; when sd and both bounds are missing for some group on a
    retained row, the engine fails with a data error. *)
Theorem sd_imputed_from_ci (d : DataFrame) (sample_size : list (string * Z)) :
  plain_means d = true ->
  empty d = false ->
  sample_size <> [] ->
  Forall (fun s => (0 < s)%Z) (dict_values sample_size) ->
  NoDup (dict_keys sample_size) ->
  (forall g, In g (dict_keys sample_size) -> In g (blocks d)) ->
  ((forall r g, In r (kept_rows d) -> In g (dict_keys sample_size) ->
      sd_missing g r = true -> ci_missing g r = false) ->
   (exists out,
      process_continuous_variables_mean (Some d) sample_size = Ok (Some out)
      /\ Forall2 (sd_filled sample_size) (kept_rows d) (df_rows out))
   \/ (exists g n r,
         In r (kept_rows d) /\ dict_get g sample_size = Some n
         /\ feq (computed_sem g n r) (Fin 0) = true
         /\ process_continuous_variables_mean (Some d) sample_size
            = raise (SemIsZero g)))
  /\ (forall r g, In r (kept_rows d) -> In g (dict_keys sample_size) ->
        sd_missing g r = true ->
        isnan (c_95CI_lower (cell r g)) = true ->
        isnan (c_95CI_upper (cell r g)) = true ->
        exists w,
          process_continuous_variables_mean (Some d) sample_size = raise w)
  /\ (forall l u n, (0 < n)%Z ->
        sd_from_ci (Fin l) (Fin u) n
        = Fin ((u - l) / (2 * 1.96) * sqrt (IZR n))).
Proof.
  intros _ He Hne Hpos Hnd Hcols.
  pose proof (Forall_positive_sizes _ Hpos) as Hpos'.
  split; [|split; [|exact sd_from_ci_formula]].
  - intros Hci. rewrite (engine_loop d sample_size He Hne Hpos').
    destruct (process_groups_progress (blocks d) sample_size
                (dict_keys sample_size) (retained d) Hnd)
      as [[rows' Hok]|(g & n & r1 & Hg & Hn & Hr1 & Hz & Hraise)].
    + intros g Hg. split; [now apply mem_In, Hcols | now apply dict_get_key].
    + intros r1 g Hr1 Hg. rewrite retained_kept in Hr1.
      apply in_map_iff in Hr1. destruct Hr1 as (r & <- & Hr).
      exact (Hci r g Hr Hg).
    + left. rewrite Hok. simpl bind. eexists. split; [reflexivity|].
      apply (process_groups_ok _ _ _ _ _ Hnd) in Hok.
      rewrite retained_kept in Hok. apply Forall2_map_left in Hok.
      eapply Forall2_weaken; [|exact Hok].
      intros r r' _ ((Hname & _) & _ & Hin). split; [exact Hname|].
      intros g n Hn.
      destruct (Hin g (dict_get_Some_key _ _ _ Hn)) as (n' & Hn' & Hc & _).
      assert (n' = n) by congruence. subst n'.
      rewrite Hc. cbn [c_sd set_sd].
      rewrite (effective_sd_ext g n
                 (with_population_mean r (row_mean r (blocks d))) r eq_refl).
      unfold effective_sd.
      split; intros ->; reflexivity.
    + right. rewrite retained_kept in Hr1.
      apply in_map_iff in Hr1. destruct Hr1 as (r & <- & Hr).
      exists g, n, r. rewrite Hraise. repeat split; auto.
  - intros r g Hr Hg Hsd Hlo Hup.
    destruct (dict_get_key g sample_size Hg) as [n Hn].
    destruct (engine_fails_on_unusable d sample_size r g n Hr Hn)
      as (e & He' & Hdata).
    + unfold unusable, ci_missing. now rewrite Hsd, Hlo.
    + destruct (Hdata Hcols) as [w ->]. now exists w.
Qed.

Lemma nonzero_sd_nonzero_sem g n r x :
  (0 < n)%Z -> effective_sd g n r = Fin x -> x <> 0 ->
  feq (computed_sem g n r) (Fin 0) = false.
Proof.
  intros Hn Hsd Hx. unfold computed_sem. rewrite Hsd.
  destruct (sqrt_sample_size n Hn) as [-> Hs].
  rewrite fdiv_fin by lra. simpl. apply Reqb_false.
  intros H. apply Hx.
  apply (Rmult_eq_reg_r (/ sqrt (IZR n))); [|apply Rinv_neq_0_compat; lra].
  rewrite Rmult_0_l. exact H.
Qed.

(** The single-row frame of the boundary case: sd missing, interval 57..63. *)
Lemma sd_imputed_from_ci_witness :
  exists out,
    process_continuous_variables_mean
      (Some (to_csv_wide (age_table None (Some 57) (Some 63)))) fifty_each
    = Ok (Some out)
    /\ Forall2 (sd_filled fifty_each)
               (kept_rows (to_csv_wide (age_table None (Some 57) (Some 63))))
               (df_rows out).
Proof.
  destruct (sd_imputed_from_ci
              (to_csv_wide (age_table None (Some 57) (Some 63))) fifty_each)
    as [Himpute _].
  - reflexivity.
  - reflexivity.
  - discriminate.
  - repeat constructor.
  - repeat constructor; simpl; intuition discriminate.
  - intros g [<-|[<-|[]]]; simpl; auto.
  - destruct Himpute as [Hok|(g & n & r & Hr & Hn & Hz & _)].
    + intros r g [<-|[]] [<-|[<-|[]]]; [reflexivity|discriminate].
    + exact Hok.
    + exfalso. destruct Hr as [<-|[]]. simpl in Hn.
      destruct (String.eqb g "treatment") eqn:Et.
      * apply String.eqb_eq in Et. injection Hn as <-. subst g.
        rewrite (nonzero_sd_nonzero_sem _ _ _
                   ((63 - 57) / (2 * 1.96) * sqrt (IZR 50))) in Hz.
        -- discriminate.
        -- lia.
        -- unfold effective_sd. simpl. now rewrite sd_from_ci_formula by lia.
        -- destruct (sqrt_sample_size 50) as [_ Hs]; [lia|].
           assert (0 < (63 - 57) / (2 * 1.96)) by lra. nra.
      * destruct (String.eqb g "control") eqn:Ec; [|discriminate].
        apply String.eqb_eq in Ec. injection Hn as <-. subst g.
        rewrite (nonzero_sd_nonzero_sem _ _ _ 9) in Hz.
        -- discriminate.
        -- lia.
        -- reflexivity.
        -- lra.
Defined.

(* ------------------------------------------------------------------------- *)
(** * A missing mean on a retained row *)

Lemma dict_set_keys_NoDup {V} k (v : V) d :
  NoDup (dict_keys d) -> NoDup (dict_keys (dict_set k v d)).
Proof.
  assert (Hin : forall d' k', In k' (dict_keys (dict_set k v d')) ->
                              k' = k \/ In k' (dict_keys d')).
  { induction d' as [|[k0 v0] d' IH]; simpl; intros k'.
    - intros [<-|[]]. now left.
    - destruct (String.eqb k k0) eqn:E; simpl.
      + apply String.eqb_eq in E. subst k0. tauto.
      + intros [<-|H]; [tauto|]. destruct (IH _ H); tauto. }
  induction d as [|[k0 v0] d IH]; simpl; intros Hnd.
  - repeat constructor. intros [].
  - inversion Hnd as [|? ? Hfresh Hnd']; subst.
    destruct (String.eqb k k0) eqn:E; simpl.
    + apply String.eqb_eq in E. subst k0. now constructor.
    + constructor; [|now apply IH].
      intros H. destruct (Hin _ _ H) as [->|H']; [|contradiction].
      now rewrite String.eqb_refl in E.
Qed.

Lemma sample_size_of_NoDup json : NoDup (dict_keys (sample_size_of json)).
Proof.
  unfold sample_size_of.
  assert (H : forall gs (d : list (string * Z)),
             NoDup (dict_keys d) ->
             NoDup (dict_keys (fold_left
                      (fun d g => dict_set (group_id g) (sample_size g) d)
                      gs d))).
  { induction gs as [|g gs IH]; intros d Hd; simpl; [exact Hd|].
    apply IH. now apply dict_set_keys_NoDup. }
  apply H. constructor.
Qed.

Lemma engine_ok_inv d sample_size cont :
  empty d = false ->
  process_continuous_variables_mean (Some d) sample_size = Ok cont ->
  exists mean_df,
    process_groups (blocks d) sample_size (dict_keys sample_size) (retained d)
    = Ok mean_df
    /\ cont = Some {| blocks := blocks d;
                      object_columns :=
                        engine_object_columns d (dict_keys sample_size);
                      df_rows := mean_df |}.
Proof.
  intros He H. unfold process_continuous_variables_mean in H. rewrite He in H.
  destruct sample_size as [|kv rest]; [discriminate|].
  destruct (existsb _ (dict_values (kv :: rest))); [discriminate|].
  destruct (process_groups _ _ _ _) as [mean_df|e]; [|discriminate].
  injection H as <-. now exists mean_df.
Qed.

Lemma Forall2_In_left {A B} (R : A -> B -> Prop) l l' x :
  Forall2 R l l' -> In x l -> exists y, In y l' /\ R x y.
Proof.
  induction 1 as [|a b l l' Hab _ IH]; intros Hin; [destruct Hin|].
  destruct Hin as [<-|Hin].
  - exists b. split; [now left|assumption].
  - destruct (IH Hin) as (y & Hy & HR). exists y. split; [now right|assumption].
Qed.

Lemma dict_get_In_values {V} k (v : V) d :
  dict_get k d = Some v -> In v (dict_values d).
Proof.
  induction d as [|[k' v'] d IH]; simpl; [discriminate|].
  destruct (String.eqb k k'); [intros [= ->]; now left | auto].
Qed.

Lemma length_flat_map_ge {A B} (f : A -> list B) l x :
  In x l -> (List.length (f x) <= List.length (flat_map f l))%nat.
Proof.
  induction l as [|a l IH]; intros Hin; [destruct Hin|].
  simpl. rewrite length_app. destruct Hin as [<-|Hin]; [lia|].
  specialize (IH Hin). lia.
Qed.

Lemma processed_zscore_count sample_size gs r r' :
  NoDup gs -> processed sample_size gs r r' ->
  (List.length gs <= List.length (dict_values (col_zscore r')))%nat.
Proof.
  intros Hnd (_ & _ & Hin).
  unfold dict_values. rewrite length_map, <- (length_map fst).
  apply NoDup_incl_length; [exact Hnd|].
  intros g Hg. destruct (Hin g Hg) as (n & _ & _ & _ & Hz).
  exact (dict_get_Some_key _ _ _ Hz).
Qed.

Lemma missing_mean_nan_zscore g n r :
  isnan (c_mean (cell r g)) = true -> computed_zscore g n r = NaN.
Proof.
  unfold computed_zscore. destruct (c_mean (cell r g)); try discriminate.
  reflexivity.
Qed.

Lemma chi_square_on_nan F zs sigma0 :
  In NaN zs ->
  chi_square_variance_test F (Some zs) sigma0
  = raise (if (Z.of_nat (List.length zs) <? 2)%Z
           then ZscoresTooFew else ZscoresNaNOrInf).
Proof.
  intros Hin. unfold chi_square_variance_test.
  assert (H0 : (Z.of_nat (List.length zs) =? 0)%Z = false).
  { apply Z.eqb_neq. destruct zs; [destruct Hin|simpl; lia]. }
  rewrite H0. destruct (Z.of_nat (List.length zs) <? 2)%Z; [reflexivity|].
  assert (Hn : existsb isnan zs = true)
    by (apply existsb_exists; exists NaN; auto).
  now rewrite Hn.
Qed.

(** The engine's answer on a frame with a retained row whose mean is missing
    for group [g]: the row is in the output and its z-score for [g] is NaN. *)
Lemma missing_mean_in_output d sample_size cont r g :
  NoDup (dict_keys sample_size) ->
  In r (kept_rows d) ->
  In g (dict_keys sample_size) ->
  isnan (c_mean (cell r g)) = true ->
  process_continuous_variables_mean (Some d) sample_size = Ok cont ->
  exists out r',
    cont = Some out /\ In r' (df_rows out) /\ name r' = name r
    /\ dict_get g (col_zscore r') = Some NaN
    /\ (List.length (dict_keys sample_size)
        <= List.length (dict_values (col_zscore r')))%nat.
Proof.
  intros Hnd Hr Hg Hnan Hok.
  destruct (engine_ok_inv d sample_size cont (kept_rows_not_empty d r Hr) Hok)
    as (mean_df & Hloop & ->).
  apply (process_groups_ok _ _ _ _ _ Hnd) in Hloop.
  rewrite retained_kept in Hloop. apply Forall2_map_left in Hloop.
  destruct (Forall2_In_left _ _ _ r Hloop Hr) as (r' & Hr' & Hproc).
  exists {| blocks := blocks d;
            object_columns := engine_object_columns d (dict_keys sample_size);
            df_rows := mean_df |}, r'.
  split; [reflexivity|]. split; [exact Hr'|].
  pose proof (processed_zscore_count _ _ _ _ Hnd Hproc) as Hlen.
  destruct Hproc as ((Hname & _) & _ & Hin).
  destruct (Hin g Hg) as (n & _ & _ & _ & Hz).
  rewrite missing_mean_nan_zscore in Hz by exact Hnan.
  auto.
Qed.

Lemma kept_rows_spec d r :
  In r (kept_rows d)
  <-> In r (df_rows d) /\ col_Variable_type r = "Continuous"
      /\ exists g, In g (blocks d) /\ isnan (c_mean (cell r g)) = false.
Proof.
  unfold kept_rows, is_continuous, any_mean, notna.
  rewrite filter_In, andb_true_iff, String.eqb_eq, existsb_exists.
  split.
  - intros (Hin & Ht & g & Hg & Hm). repeat split; auto.
    exists g. split; [exact Hg|]. now apply negb_true_iff.
  - intros (Hin & Ht & g & Hg & Hm). repeat split; auto.
    exists g. split; [exact Hg|]. now apply negb_true_iff.
Qed.

Section PipelineFacts.

Variable F : Z -> R -> R.
Variable rng_state : Type.
Variable default_rng : option Z -> rng_state.
Variable rng_after : list (list Z) -> rng_state -> rng_state.
Variable fisher_exact :
  list (list Z) -> option rng_state -> result (float * float).
Variable combine_pvalues : list float -> result (float * float).

Lemma nan_in_flatten out r' g :
  In r' (df_rows out) -> dict_get g (col_zscore r') = Some NaN ->
  In NaN (flatten_zscores (Some out)).
Proof.
  intros Hr' Hz. unfold flatten_zscores. apply in_flat_map.
  exists r'. split; [exact Hr'|]. exact (dict_get_In_values _ _ _ Hz).
Qed.

Lemma chi_square_array_on_nan object_dtype zs sigma0 :
  In NaN zs ->
  chi_square_variance_test_array F object_dtype zs sigma0
  = Err (if (Z.of_nat (List.length zs) <? 2)%Z then ValueError ZscoresTooFew
         else if object_dtype then UFuncTypeError "isnan"
              else ValueError ZscoresNaNOrInf).
Proof.
  intros Hin. unfold chi_square_variance_test_array.
  rewrite (chi_square_on_nan F _ sigma0 Hin), Z.leb_antisym.
  destruct (Z.of_nat (List.length zs) <? 2)%Z, object_dtype; reflexivity.
Qed.

Lemma continuous_test_on_nan df sample_size acc out :
  process_continuous_variables_mean (Some df) sample_size = Ok (Some out) ->
  In NaN (flatten_zscores (Some out)) ->
  continuous_test F df sample_size false acc
  = Err (if (Z.of_nat (List.length (flatten_zscores (Some out))) <? 2)%Z
         then ValueError ZscoresTooFew
         else if object_zscores (Some out) (dict_keys sample_size)
              then UFuncTypeError "isnan"
              else ValueError ZscoresNaNOrInf).
Proof.
  intros Hok Hnan. unfold continuous_test. destruct acc as [pvals bundle0].
  rewrite Hok. cbn [bind].
  assert (Hrows : (0 <? frame_len (Some out))%Z = true).
  { apply Z.ltb_lt. unfold frame_len, len.
    unfold flatten_zscores in Hnan. destruct (df_rows out); [destruct Hnan|].
    simpl. lia. }
  assert (Hzs : (0 <? Z.of_nat (List.length (flatten_zscores (Some out))))%Z
                = true).
  { apply Z.ltb_lt. destruct (flatten_zscores (Some out)); [destruct Hnan|].
    simpl. lia. }
  rewrite Hrows, Hzs. simpl andb. cbv iota.
  now rewrite (chi_square_array_on_nan _ _ (Fin 1) Hnan).
Qed.

(** The pooled array of a frame with rows is an array of dtype object as
    soon as the z-score column of one group is an object column. *)
Lemma object_zscore_pooled d sample_size out g :
  process_continuous_variables_mean (Some d) sample_size = Ok (Some out) ->
  df_rows out <> [] ->
  In g (dict_keys sample_size) ->
  object_zscore d g = true ->
  object_zscores (Some out) (dict_keys sample_size) = true.
Proof.
  intros Hok Hrows Hg Hobj.
  assert (He : empty d = false).
  { destruct (empty d) eqn:E; [|reflexivity].
    unfold process_continuous_variables_mean in Hok. rewrite E in Hok.
    injection Hok as <-. unfold empty in E.
    destruct (df_rows d); [now destruct Hrows|discriminate]. }
  destruct (engine_ok_inv d sample_size _ He Hok) as (mean_df & _ & [= ->]).
  unfold object_zscores. apply existsb_exists. exists g. split; [exact Hg|].
  unfold is_object. cbn [object_columns]. unfold engine_object_columns.
  apply mem_In. apply in_or_app. right. apply in_or_app. right.
  apply in_flat_map. exists g. split; [exact Hg|].
  rewrite Hobj. now left.
Qed.

(** C10. A continuous row in which the mean of at least one group is
    present is retained: when the engine returns, the row is in its output.
    When such a row lacks the mean of a group of [sample_size], the z-score
    of that group in the row is NaN, NaN is among the pooled z-scores, and
    the chi-squared variance test raises at its NaN check (two groups or
    more): the [ValueError] of that check on a float64 array, the
    [TypeError] of [np.isnan] on an array of dtype object, which is the case
    when the mean column of the group is a column of dtype object (no row
    holds a number in it).  A run with the continuous test enabled raises
    the same error, and in every case the run raises an error. *)
Theorem missing_mean_raises (json_data : Table1) (skip_categorical_var : bool)
    (random_seed : option Z) (r : WideRow) (g : string) :
  let df := to_csv_wide json_data in
  let sample_size := sample_size_of json_data in
  let run :=
    run_test_pipeline F rng_state default_rng rng_after fisher_exact
      combine_pvalues json_data false skip_categorical_var random_seed in
  In r (df_rows df) ->
  col_Variable_type r = "Continuous" ->
  (exists g0, In g0 (blocks df) /\ isnan (c_mean (cell r g0)) = false) ->
  In g (dict_keys sample_size) ->
  isnan (c_mean (cell r g)) = true ->
  (forall cont,
     process_continuous_variables_mean (Some df) sample_size = Ok cont ->
     (exists out r', cont = Some out /\ In r' (df_rows out)
                     /\ name r' = name r
                     /\ dict_get g (col_zscore r') = Some NaN)
     /\ In NaN (flatten_zscores cont)
     /\ ((2 <= List.length (dict_keys sample_size))%nat ->
         exists e,
           chi_square_variance_test_array F
             (object_zscores cont (dict_keys sample_size))
             (flatten_zscores cont) (Fin 1) = Err e
           /\ (e = ValueError ZscoresNaNOrInf \/ e = UFuncTypeError "isnan")
           /\ (is_object df (column_label g "mean") = true ->
               e = UFuncTypeError "isnan")
           /\ (total_of sample_size <> 0%Z -> run = Err e)))
  /\ exists e, run = Err e.
Proof.
  intros df sample_size run Hin Htype Hsome Hg Hnan.
  assert (Hr : In r (kept_rows df)) by (apply kept_rows_spec; auto).
  pose proof (sample_size_of_NoDup json_data) as Hnd. fold sample_size in Hnd.
  assert (Hout : forall cont,
            process_continuous_variables_mean (Some df) sample_size = Ok cont ->
            exists out r',
              cont = Some out /\ In r' (df_rows out) /\ name r' = name r
              /\ dict_get g (col_zscore r') = Some NaN
              /\ In NaN (flatten_zscores cont)
              /\ ((2 <= List.length (dict_keys sample_size))%nat ->
                  (Z.of_nat (List.length (flatten_zscores cont)) <? 2)%Z
                  = false)).
  { intros cont Hok.
    destruct (missing_mean_in_output df sample_size cont r g Hnd Hr Hg Hnan Hok)
      as (out & r' & -> & Hr' & Hname & Hz & Hlen).
    exists out, r'. repeat split; auto.
    - exact (nan_in_flatten out r' g Hr' Hz).
    - intros H2. apply Z.ltb_ge.
      pose proof (length_flat_map_ge
                    (fun r => dict_values (col_zscore r)) (df_rows out) r' Hr')
        as Hflat.
      unfold flatten_zscores. lia. }
  split.
  - intros cont Hok.
    destruct (Hout cont Hok) as (out & r' & -> & Hr' & Hname & Hz & Hnan' & Hlen).
    split; [exists out, r'; auto|]. split; [exact Hnan'|].
    intros H2. eexists. split.
    { rewrite (chi_square_array_on_nan _ _ (Fin 1) Hnan'), (Hlen H2).
      reflexivity. }
    split; [|split].
    + destruct (object_zscores (Some out) (dict_keys sample_size)); auto.
    + intros Hobj.
      rewrite (object_zscore_pooled df sample_size out g Hok); auto.
      * intros E. rewrite E in Hr'. destruct Hr'.
      * unfold object_zscore. now rewrite Hobj.
    + intros Htotal. unfold run, run_test_pipeline, collect_tests.
      fold df sample_size.
      apply Z.eqb_neq in Htotal. rewrite Htotal.
      rewrite (continuous_test_on_nan df sample_size _ out Hok Hnan').
      now rewrite (Hlen H2).
  - unfold run, run_test_pipeline, collect_tests. fold df sample_size.
    destruct (total_of sample_size =? 0)%Z; [eexists; reflexivity|].
    destruct (process_continuous_variables_mean (Some df) sample_size)
      as [cont|e] eqn:Hok.
    + destruct (Hout cont eq_refl) as (out & r' & -> & _ & _ & _ & Hnan' & _).
      rewrite (continuous_test_on_nan df sample_size _ out Hok Hnan').
      eexists; reflexivity.
    + unfold continuous_test. rewrite Hok. eexists; reflexivity.
Qed.

End PipelineFacts.

(* ------------------------------------------------------------------------- *)
(** * The bundle of a run *)

Lemma process_groups_no_rows df_blocks sample_size gs mean_df :
  process_groups df_blocks sample_size gs [] = Ok mean_df -> mean_df = [].
Proof.
  induction gs as [|g gs IH]; simpl; [now intros [= <-]|].
  destruct (process_group df_blocks sample_size g []) as [rows1|e] eqn:E;
    [|discriminate].
  destruct (process_group_ok_inv _ _ _ _ _ E) as (n & _ & _ & _ & ->).
  exact IH.
Qed.

Section BundleFacts.

Variable F : Z -> R -> R.
Variable rng_state : Type.
Variable default_rng : option Z -> rng_state.
Variable rng_after : list (list Z) -> rng_state -> rng_state.
Variable fisher_exact :
  list (list Z) -> option rng_state -> result (float * float).
Variable combine_pvalues : list float -> result (float * float).

Lemma combine_inv pvals out0 out :
  combine combine_pvalues (pvals, out0) = Ok out ->
  pvals <> []
  /\ exists stat p,
       combine_pvalues pvals = Ok (stat, p)
       /\ out = dict_set "fisher_method-combined" (CombinedRecord p stat) out0.
Proof.
  unfold combine. destruct pvals as [|p0 pvals]; [discriminate|].
  destruct (Z.of_nat (List.length (p0 :: pvals)) =? 0)%Z; [discriminate|].
  destruct (negb (forallb valid_pvalue (p0 :: pvals))); [discriminate|].
  destruct (combine_pvalues (p0 :: pvals)) as [[stat p]|e]; [|discriminate].
  simpl. intros [= <-]. split; [discriminate|]. now exists stat, p.
Qed.

Lemma continuous_test_no_rows df sample_size skip acc :
  kept_rows df = [] ->
  continuous_test F df sample_size skip acc = Ok acc
  \/ exists e, continuous_test F df sample_size skip acc = Err e.
Proof.
  intros Hkept. unfold continuous_test. destruct acc as [pvals out].
  destruct skip; [now left|].
  destruct (process_continuous_variables_mean (Some df) sample_size)
    as [cont|e] eqn:Hok; [|right; eexists; reflexivity].
  cbn [bind].
  assert (Hlen : frame_len cont = 0%Z).
  { destruct (empty df) eqn:He.
    - unfold process_continuous_variables_mean in Hok. rewrite He in Hok.
      injection Hok as <-. unfold frame_len, len, empty in *.
      now destruct (df_rows df).
    - destruct (engine_ok_inv df sample_size cont He Hok) as (rows' & Hl & ->).
      rewrite retained_kept, Hkept in Hl.
      now rewrite (process_groups_no_rows _ _ _ _ Hl). }
  rewrite Hlen. now left.
Qed.

Lemma categorical_test_no_rows df sample_size total skip seed acc :
  filter (fun r => is_categorical r && counts_complete (blocks df) r)
         (df_rows df) = [] ->
  categorical_test rng_state default_rng rng_after fisher_exact
                   df sample_size total skip seed acc = Ok acc
  \/ exists e,
       categorical_test rng_state default_rng rng_after fisher_exact
                        df sample_size total skip seed acc = Err e.
Proof.
  intros Hnone. unfold categorical_test. destruct skip; [now left|].
  unfold process_categorical_variables.
  destruct (empty df) eqn:He.
  - cbn [bind]. unfold frame_len, len, empty in *.
    destruct (df_rows df); [now left|discriminate].
  - destruct (total <=? 0)%Z; [right; eexists; reflexivity|].
    cbn [bind]. unfold frame_len, len. cbn [df_rows].
    rewrite filter_filter, Hnone. now left.
Qed.

(** C1. A run that returns has the key ["fisher_method-combined"] in its
    bundle, holding the [p_value] and [test_statistic] that [combine_pvalues]
    gave for the p-values collected, of which there is at least one.  A run
    that collects no p-value raises: so does a run with both tests skipped,
    and a run on a table without a retained continuous row and without a
    categorical row with all its counts. *)
Theorem run_test_pipeline_combined (json_data : Table1)
    (skip_continuous_var skip_categorical_var : bool)
    (random_seed : option Z) :
  let run := run_test_pipeline F rng_state default_rng rng_after fisher_exact
               combine_pvalues json_data in
  let collect := collect_tests F rng_state default_rng rng_after fisher_exact
                   json_data in
  let df := to_csv_wide json_data in
  (forall out,
     run skip_continuous_var skip_categorical_var random_seed = Ok out ->
     exists pvals out0 stat p,
       collect skip_continuous_var skip_categorical_var random_seed
       = Ok (pvals, out0)
       /\ pvals <> []
       /\ combine_pvalues pvals = Ok (stat, p)
       /\ dict_get "fisher_method-combined" out = Some (CombinedRecord p stat)
       /\ p_value_of (CombinedRecord p stat) = p
       /\ test_statistic_of (CombinedRecord p stat) = stat)
  /\ (forall out0,
        collect skip_continuous_var skip_categorical_var random_seed
        = Ok ([], out0) ->
        run skip_continuous_var skip_categorical_var random_seed
        = raise NoPValuesCollected)
  /\ run true true random_seed
     = raise (if (total_of (sample_size_of json_data) =? 0)%Z
              then TotalSampleSizeZero else NoPValuesCollected)
  /\ (kept_rows df = [] ->
      filter (fun r => is_categorical r && counts_complete (blocks df) r)
             (df_rows df) = [] ->
      exists e,
        run skip_continuous_var skip_categorical_var random_seed = Err e).
Proof.
  intros run collect df. split; [|split; [|split]].
  - intros out Hrun. unfold run, run_test_pipeline in Hrun.
    fold collect in Hrun.
    destruct (collect skip_continuous_var skip_categorical_var random_seed)
      as [[pvals out0]|e]; [|discriminate].
    cbn [bind] in Hrun.
    destruct (combine_inv pvals out0 out Hrun) as (Hne & stat & p & Hc & ->).
    exists pvals, out0, stat, p. repeat split; auto.
    apply dict_get_set_same.
  - intros out0 Hc. unfold run, run_test_pipeline. fold collect.
    now rewrite Hc.
  - unfold run, run_test_pipeline, collect_tests.
    destruct (total_of (sample_size_of json_data) =? 0)%Z; reflexivity.
  - intros Hkept Hcat. unfold run, run_test_pipeline, collect_tests.
    fold df.
    destruct (total_of (sample_size_of json_data) =? 0)%Z;
      [eexists; reflexivity|].
    destruct (continuous_test_no_rows df (sample_size_of json_data)
                skip_continuous_var ([], []) Hkept) as [->|[e ->]];
      [|eexists; reflexivity].
    cbn [bind].
    destruct (categorical_test_no_rows df (sample_size_of json_data)
                (total_of (sample_size_of json_data)) skip_categorical_var
                random_seed ([], []) Hcat) as [->|[e ->]];
      eexists; reflexivity.
Qed.

End BundleFacts.

(* ------------------------------------------------------------------------- *)
(** * The Fisher records *)

Lemma dict_set_Forall {V} (P : V -> Prop) k v d :
  Forall P (dict_values d) -> P v -> Forall P (dict_values (dict_set k v d)).
Proof.
  intros Hd Hv. induction d as [|[k' v'] d IH]; simpl.
  - now constructor.
  - inversion Hd; subst.
    destruct (String.eqb k k'); simpl; constructor; auto.
Qed.

Section FisherFacts.

Variable F : Z -> R -> R.
Variable rng_state : Type.
Variable default_rng : option Z -> rng_state.
Variable rng_after : list (list Z) -> rng_state -> rng_state.
Variable fisher_exact :
  list (list Z) -> option rng_state -> result (float * float).
Variable combine_pvalues : list float -> result (float * float).

Variable random_seed : option Z.
Variable group_ids : list string.

Lemma fisher_method_ok :
  (method_of_run default_rng rng_after random_seed group_ids) (fisher_method rng_state default_rng group_ids random_seed).
Proof.
  unfold method_of_run, fisher_method.
  destruct (2 <? Z.of_nat (List.length group_ids))%Z eqn:E.
  - apply Z.ltb_lt in E. split; [|lia].
    intros _. eexists. split; [reflexivity|]. now exists [].
  - apply Z.ltb_ge in E. split; [lia|reflexivity].
Qed.

Lemma method_ok_after table method :
  (method_of_run default_rng rng_after random_seed group_ids) method -> (method_of_run default_rng rng_after random_seed group_ids) (option_map (rng_after table) method).
Proof.
  intros [Hmc Hexact]. split.
  - intros H. destruct (Hmc H) as (rng & -> & tables & ->).
    eexists. split; [reflexivity|].
    exists (tables ++ [table])%list. now rewrite fold_left_app.
  - intros H. now rewrite (Hexact H).
Qed.

Lemma fisher_tests_records df_blocks sample_size method cat_rows pvals out
    pvals' out' :
  (method_of_run default_rng rng_after random_seed group_ids) method ->
  Forall (fisher_record_ok default_rng rng_after fisher_exact random_seed
            group_ids) (dict_values out) ->
  fisher_tests rng_state rng_after fisher_exact df_blocks sample_size
               group_ids method cat_rows (pvals, out) = Ok (pvals', out') ->
  Forall (fisher_record_ok default_rng rng_after fisher_exact random_seed
            group_ids) (dict_values out').
Proof.
  revert method pvals out.
  induction cat_rows as [|row rest IH]; intros method pvals out Hm Hout H.
  - injection H as <- <-. exact Hout.
  - simpl in H.
    destruct (row_counts df_blocks row group_ids []) as [counts|e];
      [|discriminate].
    cbn [bind] in H.
    destruct (contingency_table_binary counts sample_size) as [table|e];
      [|discriminate].
    cbn [bind] in H.
    destruct (fisher_exact table method) as [[stat p]|e] eqn:Ef;
      [|discriminate].
    cbn [bind] in H.
    apply IH in H; [exact H | now apply method_ok_after |].
    apply dict_set_Forall; [exact Hout|].
    split.
    + rewrite Z.eqb_eq. lia.
    + now exists method.
Qed.

Lemma continuous_test_records df sample_size skip pvals out pvals' out' :
  Forall (fisher_record_ok default_rng rng_after fisher_exact random_seed
            group_ids) (dict_values out) ->
  continuous_test F df sample_size skip (pvals, out) = Ok (pvals', out') ->
  Forall (fisher_record_ok default_rng rng_after fisher_exact random_seed
            group_ids) (dict_values out').
Proof.
  intros Hout H. unfold continuous_test in H.
  destruct skip; [now injection H as <- <-|].
  destruct (process_continuous_variables_mean (Some df) sample_size)
    as [cont|e]; [|discriminate].
  cbn [bind] in H.
  destruct ((0 <? frame_len cont)%Z
            && (0 <? Z.of_nat (List.length (flatten_zscores cont)))%Z);
    [|now injection H as <- <-].
  destruct (chi_square_variance_test_array F _ (flatten_zscores cont) (Fin 1))
    as [[p stat]|e]; [|discriminate].
  cbn [bind] in H. injection H as <- <-.
  apply dict_set_Forall; [exact Hout|exact I].
Qed.

End FisherFacts.

(** C4. In the bundle of a run, a Fisher record is flagged as an odds ratio
    exactly when there are two groups, and its statistic and p-value are what
    [fisher_exact] returned for its table with the Monte Carlo method, on the
    generator seeded by [random_seed], when there are more than two groups
    and with the exact method ([None]) otherwise. *)
Theorem fisher_record_flag_and_method
    (F : Z -> R -> R) (rng_state : Type)
    (default_rng : option Z -> rng_state)
    (rng_after : list (list Z) -> rng_state -> rng_state)
    (fisher_exact : list (list Z) -> option rng_state -> result (float * float))
    (combine_pvalues : list float -> result (float * float))
    (json_data : Table1) (skip_continuous_var skip_categorical_var : bool)
    (random_seed : option Z) (out : bundle) (key : string)
    (p_value test_stat : float) (table : list (list Z))
    (variable_name : string) (is_odds_ratio : bool) :
  let group_ids := dict_keys (sample_size_of json_data) in
  run_test_pipeline F rng_state default_rng rng_after fisher_exact
    combine_pvalues json_data skip_continuous_var skip_categorical_var
    random_seed = Ok out ->
  dict_get key out
  = Some (FisherRecord p_value test_stat table variable_name is_odds_ratio) ->
  (is_odds_ratio = true <-> List.length group_ids = 2%nat)
  /\ exists method,
       fisher_exact table method = Ok (test_stat, p_value)
       /\ ((2 < List.length group_ids)%nat ->
           exists rng,
             method = Some rng
             /\ seeded default_rng rng_after random_seed rng)
       /\ ((List.length group_ids <= 2)%nat -> method = None).
Proof.
  intros group_ids Hrun Hget.
  assert (Hall : Forall (fisher_record_ok default_rng rng_after fisher_exact
                           random_seed group_ids) (dict_values out)).
  { unfold run_test_pipeline, collect_tests in Hrun.
    destruct (total_of (sample_size_of json_data) =? 0)%Z; [discriminate|].
    destruct (continuous_test F (to_csv_wide json_data)
                (sample_size_of json_data) skip_continuous_var ([], []))
      as [[pvals1 out1]|e] eqn:Hcont; [|discriminate].
    apply (continuous_test_records F rng_state default_rng rng_after
             fisher_exact random_seed group_ids) in Hcont; [|constructor].
    cbn [bind] in Hrun.
    destruct (categorical_test rng_state default_rng rng_after fisher_exact
                (to_csv_wide json_data) (sample_size_of json_data)
                (total_of (sample_size_of json_data)) skip_categorical_var
                random_seed (pvals1, out1))
      as [[pvals2 out2]|e] eqn:Hcat; [|discriminate].
    cbn [bind] in Hrun.
    destruct (combine_inv combine_pvalues pvals2 out2 out Hrun)
      as (_ & stat & p & _ & ->).
    apply dict_set_Forall; [|exact I].
    unfold categorical_test in Hcat.
    destruct skip_categorical_var; [now injection Hcat as <- <-|].
    destruct (process_categorical_variables (Some (to_csv_wide json_data))
                (total_of (sample_size_of json_data))) as [cat_df|e];
      [|discriminate].
    cbn [bind] in Hcat.
    destruct (frame_len cat_df =? 0)%Z; [now injection Hcat as <- <-|].
    apply (fisher_tests_records rng_state default_rng rng_after fisher_exact
             random_seed group_ids) in Hcat; auto.
    apply fisher_method_ok. }
  rewrite Forall_forall in Hall.
  destruct (Hall _ (dict_get_In_values _ _ _ Hget)) as [Hflag (method & [Hmc Hex] & Hf)].
  split; [exact Hflag|]. exists method. auto.
Qed.

(* ------------------------------------------------------------------------- *)
(** * Runs on the tables of the examples *)

Lemma valid_pvalue_half : valid_pvalue (Fin (1 / 2)) = true.
Proof.
  unfold valid_pvalue. apply andb_true_iff. split; apply fle_fin; lra.
Qed.

(** Two groups and one categorical row: the exact test, flagged as an odds
    ratio, and the combined record. *)
Lemma smoker_run :
  run_test_pipeline chi2_cdf_two_df unit unit_rng unit_rng_after
    fixed_fisher_exact fixed_combine_pvalues smoker_table false false None
  = Ok [("fisher_test-0",
         FisherRecord (Fin (1 / 2)) (Fin 1) [[12; 38]; [15; 35]]%Z
                      "smoker (Yes)" true);
        ("fisher_method-combined", CombinedRecord (Fin 1) (Fin 0))].
Proof.
  unfold run_test_pipeline.
  assert (Hc : collect_tests chi2_cdf_two_df unit unit_rng unit_rng_after
                 fixed_fisher_exact smoker_table false false None
               = Ok ([Fin (1 / 2)],
                     [("fisher_test-0",
                       FisherRecord (Fin (1 / 2)) (Fin 1)
                         [[12; 38]; [15; 35]]%Z "smoker (Yes)" true)]))
    by reflexivity.
  rewrite Hc. cbn [bind]. unfold combine. cbn [List.length forallb].
  rewrite valid_pvalue_half. reflexivity.
Qed.

Lemma fisher_record_flag_and_method_witness :
  (true = true <-> List.length (dict_keys (sample_size_of smoker_table)) = 2%nat)
  /\ exists method,
       fixed_fisher_exact [[12; 38]; [15; 35]]%Z method
       = Ok (Fin 1, Fin (1 / 2))
       /\ ((2 < List.length (dict_keys (sample_size_of smoker_table)))%nat ->
           exists rng,
             method = Some rng /\ seeded unit_rng unit_rng_after None rng)
       /\ ((List.length (dict_keys (sample_size_of smoker_table)) <= 2)%nat ->
           method = None).
Proof.
  eapply (fisher_record_flag_and_method chi2_cdf_two_df unit unit_rng
            unit_rng_after fixed_fisher_exact fixed_combine_pvalues
            smoker_table false false None _ "fisher_test-0" _ _ _
            "smoker (Yes)").
  - exact smoker_run.
  - reflexivity.
Defined.

(** No rows at all: nothing to combine. *)
Example no_rows_run :
  run_test_pipeline chi2_cdf_two_df unit unit_rng unit_rng_after
    fixed_fisher_exact fixed_combine_pvalues no_rows_table false false None
  = raise NoPValuesCollected.
Proof. reflexivity. Qed.

(** The engine returns when no retained row is unusable. *)
Lemma engine_returns d sample_size :
  empty d = false ->
  sample_size <> [] ->
  Forall (fun s => (0 < s)%Z) (dict_values sample_size) ->
  NoDup (dict_keys sample_size) ->
  (forall g, In g (dict_keys sample_size) -> In g (blocks d)) ->
  (forall r g n, In r (kept_rows d) -> dict_get g sample_size = Some n ->
                 unusable g n r = false) ->
  exists out,
    process_continuous_variables_mean (Some d) sample_size = Ok (Some out).
Proof.
  intros He Hne Hpos Hnd Hcols Hfine.
  rewrite (engine_loop d sample_size He Hne (Forall_positive_sizes _ Hpos)).
  destruct (process_groups_progress (blocks d) sample_size
              (dict_keys sample_size) (retained d) Hnd)
    as [[rows' ->]|(g & n & r1 & Hg & Hn & Hr1 & Hz & _)].
  - intros g Hg. split; [now apply mem_In, Hcols | now apply dict_get_key].
  - intros r1 g Hr1 Hg Hsd. rewrite retained_kept in Hr1.
    apply in_map_iff in Hr1. destruct Hr1 as (r & <- & Hr).
    destruct (dict_get_key g sample_size Hg) as [n Hn].
    pose proof (Hfine r g n Hr Hn) as Hu. unfold unusable in Hu.
    apply orb_false_iff in Hu. destruct Hu as [Hu _].
    change (sd_missing g r = true) in Hsd. rewrite Hsd in Hu. exact Hu.
  - eexists. reflexivity.
  - exfalso. rewrite retained_kept in Hr1.
    apply in_map_iff in Hr1. destruct Hr1 as (r & <- & Hr).
    pose proof (Hfine r g n Hr Hn) as Hu. unfold unusable in Hu.
    apply orb_false_iff in Hu. destruct Hu as [_ Hu].
    rewrite (computed_sem_ext g n
               (with_population_mean r (row_mean r (blocks d))) r eq_refl) in Hz.
    congruence.
Qed.

Lemma one_mean_engine_returns :
  exists out,
    process_continuous_variables_mean (Some (to_csv_wide one_mean_table))
      (sample_size_of one_mean_table) = Ok (Some out).
Proof.
  apply engine_returns.
  - reflexivity.
  - discriminate.
  - repeat constructor.
  - apply sample_size_of_NoDup.
  - intros g [<-|[<-|[]]]; simpl; auto.
  - intros r g n [<-|[]] Hn. simpl in Hn.
    destruct (String.eqb g "treatment") eqn:Et.
    + apply String.eqb_eq in Et. injection Hn as <-. subst g.
      unfold unusable. rewrite (nonzero_sd_nonzero_sem _ _ _ 10);
        [reflexivity|lia|reflexivity|lra].
    + destruct (String.eqb g "control") eqn:Ec; [|discriminate].
      apply String.eqb_eq in Ec. injection Hn as <-. subst g.
      unfold unusable. rewrite (nonzero_sd_nonzero_sem _ _ _ 9);
        [reflexivity|lia|reflexivity|lra].
Qed.

Lemma mean_missing_once_engine_returns :
  exists out,
    process_continuous_variables_mean
      (Some (to_csv_wide mean_missing_once_table))
      (sample_size_of mean_missing_once_table) = Ok (Some out).
Proof.
  apply engine_returns.
  - reflexivity.
  - discriminate.
  - repeat constructor.
  - apply sample_size_of_NoDup.
  - intros g [<-|[<-|[]]]; simpl; auto.
  - intros r g n Hr Hn. simpl in Hn.
    destruct (String.eqb g "treatment") eqn:Et.
    + apply String.eqb_eq in Et. injection Hn as <-. subst g.
      destruct Hr as [<-|[<-|[]]]; unfold unusable;
        rewrite (nonzero_sd_nonzero_sem _ _ _ 10);
        try reflexivity; try lia; lra.
    + destruct (String.eqb g "control") eqn:Ec; [|discriminate].
      apply String.eqb_eq in Ec. injection Hn as <-. subst g.
      destruct Hr as [<-|[<-|[]]]; unfold unusable;
        rewrite (nonzero_sd_nonzero_sem _ _ _ 9);
        try reflexivity; try lia; lra.
Qed.

(** The control group reports no mean in the only row: its mean column is a
    column of dtype object, and the run stops at [np.isnan] with a
    [TypeError].  With a second row that reports it, the column is a float64
    column and the run stops with the [ValueError] of the NaN check. *)
Lemma missing_mean_raises_witness :
  run_test_pipeline chi2_cdf_two_df unit unit_rng unit_rng_after
    fixed_fisher_exact fixed_combine_pvalues one_mean_table false false None
  = Err (UFuncTypeError "isnan")
  /\ run_test_pipeline chi2_cdf_two_df unit unit_rng unit_rng_after
       fixed_fisher_exact fixed_combine_pvalues mean_missing_once_table
       false false None
     = raise ZscoresNaNOrInf.
Proof.
  split.
  - destruct (missing_mean_raises chi2_cdf_two_df unit unit_rng unit_rng_after
                fixed_fisher_exact fixed_combine_pvalues one_mean_table false
                None (wide_record 0 one_mean_row) "control")
      as (Hcont & _).
    + simpl. now left.
    + reflexivity.
    + exists "treatment". split; [simpl; auto | reflexivity].
    + simpl. auto.
    + reflexivity.
    + destruct one_mean_engine_returns as [out Hok].
      destruct (Hcont (Some out) Hok) as (_ & _ & Hchi).
      destruct Hchi as (e & _ & _ & Hobj & Hrun); [simpl; lia|].
      rewrite (Hobj eq_refl) in Hrun. apply Hrun. discriminate.
  - destruct (missing_mean_raises chi2_cdf_two_df unit unit_rng unit_rng_after
                fixed_fisher_exact fixed_combine_pvalues
                mean_missing_once_table false None
                (wide_record 0 one_mean_row) "control")
      as (Hcont & _).
    + simpl. now left.
    + reflexivity.
    + exists "treatment". split; [simpl; auto | reflexivity].
    + simpl. auto.
    + reflexivity.
    + destruct mean_missing_once_engine_returns as [out Hok].
      destruct (Hcont (Some out) Hok) as (_ & Hnan & Hchi).
      destruct Hchi as (e & Hchi & Hdisj & _ & Hrun); [simpl; lia|].
      destruct (engine_ok_inv (to_csv_wide mean_missing_once_table) _ _
                  eq_refl Hok) as (mean_df & _ & [= ->]).
      unfold chi_square_variance_test_array in Hchi.
      match type of Hchi with
      | context [object_zscores ?c ?gs] =>
          change (object_zscores c gs) with false in Hchi
      end.
      cbn [andb] in Hchi.
      rewrite (chi_square_on_nan _ _ _ Hnan) in Hchi.
      injection Hchi as <-.
      destruct (Z.of_nat (List.length _) <? 2)%Z.
      * destruct Hdisj; discriminate.
      * apply Hrun. discriminate.
Defined.

(** Three groups: the Monte Carlo method is handed to [fisher_exact], and the
    record is not flagged as an odds ratio. *)
Example three_group_run :
  run_test_pipeline chi2_cdf_two_df unit unit_rng unit_rng_after
    telltale_fisher_exact fixed_combine_pvalues three_group_table
    true false (Some 42%Z)
  = Ok [("fisher_test-0",
         FisherRecord (Fin (1 / 2)) (Fin 2) [[8; 32]; [10; 30]; [12; 28]]%Z
                      "smoker (Yes)" false);
        ("fisher_method-combined", CombinedRecord (Fin 1) (Fin 0))].
Proof.
  unfold run_test_pipeline.
  assert (Hc : collect_tests chi2_cdf_two_df unit unit_rng unit_rng_after
                 telltale_fisher_exact three_group_table true false
                 (Some 42%Z)
               = Ok ([Fin (1 / 2)],
                     [("fisher_test-0",
                       FisherRecord (Fin (1 / 2)) (Fin 2)
                         [[8; 32]; [10; 30]; [12; 28]]%Z
                         "smoker (Yes)" false)]))
    by reflexivity.
  rewrite Hc. cbn [bind]. unfold combine. cbn [List.length forallb].
  rewrite valid_pvalue_half. reflexivity.
Qed.

Example two_group_run_is_exact :
  run_test_pipeline chi2_cdf_two_df unit unit_rng unit_rng_after
    telltale_fisher_exact fixed_combine_pvalues smoker_table
    true false (Some 42%Z)
  = Ok [("fisher_test-0",
         FisherRecord (Fin (1 / 2)) (Fin 1) [[12; 38]; [15; 35]]%Z
                      "smoker (Yes)" true);
        ("fisher_method-combined", CombinedRecord (Fin 1) (Fin 0))].
Proof.
  unfold run_test_pipeline.
  assert (Hc : collect_tests chi2_cdf_two_df unit unit_rng unit_rng_after
                 telltale_fisher_exact smoker_table true false (Some 42%Z)
               = Ok ([Fin (1 / 2)],
                     [("fisher_test-0",
                       FisherRecord (Fin (1 / 2)) (Fin 1)
                         [[12; 38]; [15; 35]]%Z "smoker (Yes)" true)]))
    by reflexivity.
  rewrite Hc. cbn [bind]. unfold combine. cbn [List.length forallb].
  rewrite valid_pvalue_half. reflexivity.
Qed.

(** The failure conditions of the chi-squared test. *)
Example chi_square_empty :
  chi_square_variance_test chi2_cdf_two_df (Some []) (Fin 1)
  = raise ZscoresEmpty.
Proof. reflexivity. Qed.

Example chi_square_none :
  chi_square_variance_test chi2_cdf_two_df None (Fin 1) = raise ZscoresEmpty.
Proof. reflexivity. Qed.

Example chi_square_single :
  chi_square_variance_test chi2_cdf_two_df (Some [Fin 1]) (Fin 1)
  = raise ZscoresTooFew.
Proof. reflexivity. Qed.

Example chi_square_nan :
  chi_square_variance_test chi2_cdf_two_df (Some [Fin 1; NaN; Fin 2]) (Fin 1)
  = raise ZscoresNaNOrInf.
Proof. reflexivity. Qed.

Example chi_square_inf :
  chi_square_variance_test chi2_cdf_two_df (Some [Fin 1; NInf; Fin 2]) (Fin 1)
  = raise ZscoresNaNOrInf.
Proof. reflexivity. Qed.

Example chi_square_sigma0_zero :
  chi_square_variance_test chi2_cdf_two_df (Some [Fin 1; Fin 2; Fin 3]) (Fin 0)
  = raise Sigma0NotPositive.
Proof.
  unfold chi_square_variance_test. cbn [List.length Z.of_nat].
  assert (H : fle (Fin 0) (Fin 0) = true) by (apply fle_fin; lra).
  now rewrite H.
Qed.

Example chi2_statistic_1_2_3 : chi2_statistic [1; 2; 3] (Fin 1) = 2.
Proof.
  unfold chi2_statistic, sample_variance, arithmetic_mean. simpl. field.
Qed.

(* ------------------------------------------------------------------------- *)
(** * More on the chi-squared variance test *)










(* ------------------------------------------------------------------------- *)
(** * More on the continuous z-score engine *)


Lemma engine_rows d sample_size out :
  NoDup (dict_keys sample_size) ->
  process_continuous_variables_mean (Some d) sample_size = Ok (Some out) ->
  blocks out = blocks d
  /\ Forall2 (fun r r' =>
                processed sample_size (dict_keys sample_size)
                  (with_population_mean r (row_mean r (blocks d))) r')
             (kept_rows d) (df_rows out).
Proof.
  intros Hnd Hok. destruct (empty d) eqn:He.
  - unfold process_continuous_variables_mean in Hok. rewrite He in Hok.
    injection Hok as <-. split; [reflexivity|].
    unfold kept_rows, empty in *. destruct (df_rows d); [constructor|discriminate].
  - destruct (engine_ok_inv d sample_size _ He Hok) as (rows' & Hloop & [= ->]).
    split; [reflexivity|]. cbn [df_rows].
    apply (process_groups_ok _ _ _ _ _ Hnd) in Hloop.
    rewrite retained_kept in Hloop. now apply Forall2_map_left in Hloop.
Qed.

(** X3. The z-score engine returns a [None] or empty frame as it is, whatever
    the sample sizes; on a frame with rows it first rejects an empty
    [sample_size] and then any sample size that is not positive, before it
    looks at a row. *)
Theorem process_continuous_variables_mean_validation :
  (forall sample_size,
     process_continuous_variables_mean None sample_size = Ok None)
  /\ (forall d sample_size,
        empty d = true ->
        process_continuous_variables_mean (Some d) sample_size = Ok (Some d))
  /\ (forall d,
        empty d = false ->
        process_continuous_variables_mean (Some d) [] = raise SampleSizeEmpty)
  /\ (forall d sample_size g n,
        empty d = false -> In (g, n) sample_size -> (n <= 0)%Z ->
        process_continuous_variables_mean (Some d) sample_size
        = raise SampleSizesNotPositive).
Proof.
  split; [reflexivity|]. split; [|split].
  - intros d sample_size He. unfold process_continuous_variables_mean.
    now rewrite He.
  - intros d He. unfold process_continuous_variables_mean. now rewrite He.
  - intros d sample_size g n He Hin Hn.
    unfold process_continuous_variables_mean. rewrite He.
    assert (Hex : existsb (fun s => (s <=? 0)%Z) (dict_values sample_size)
                  = true).
    { apply existsb_exists. exists n. split; [|now apply Z.leb_le].
      apply in_map_iff. now exists (g, n). }
    rewrite Hex. destruct sample_size; [destruct Hin|reflexivity].
Qed.

(** X4. On a frame with rows in which the mean columns are the columns whose
    label contains "mean" (no group id contains that word, and there is no
    [population_mean] column yet), with positive sample sizes and the
    columns of every group, the engine returns a frame exactly when every
    retained row has, for every group, its sd or both bounds of its
    confidence interval, and a standard error of the mean that is not
    zero. *)
Theorem process_continuous_variables_mean_returns_iff
    (d : DataFrame) (sample_size : list (string * Z)) :
  plain_means d = true ->
  empty d = false ->
  sample_size <> [] ->
  Forall (fun s => (0 < s)%Z) (dict_values sample_size) ->
  NoDup (dict_keys sample_size) ->
  (forall g, In g (dict_keys sample_size) -> In g (blocks d)) ->
  ((exists out,
      process_continuous_variables_mean (Some d) sample_size = Ok (Some out))
   <-> forall r g n,
         In r (kept_rows d) -> dict_get g sample_size = Some n ->
         (sd_missing g r = true -> ci_missing g r = false)
         /\ feq (computed_sem g n r) (Fin 0) = false).
Proof.
  intros _ He Hne Hpos Hnd Hcols. split.
  - intros [out Hok] r g n Hr Hn.
    destruct (unusable g n r) eqn:Hu.
    + destruct (engine_fails_on_unusable d sample_size r g n Hr Hn Hu)
        as (e & Herr & _). congruence.
    + unfold unusable in Hu. apply orb_false_iff in Hu.
      destruct Hu as [Hci Hz]. split; [|exact Hz].
      intros Hsd. now rewrite Hsd in Hci.
  - intros Hfine. apply engine_returns; auto.
    intros r g n Hr Hn. destruct (Hfine r g n Hr Hn) as [Hci Hz].
    unfold unusable. rewrite Hz, orb_false_r.
    destruct (sd_missing g r); [now rewrite Hci|reflexivity].
Qed.

Lemma process_continuous_variables_mean_returns_iff_witness :
  (exists out,
     process_continuous_variables_mean (Some (to_csv_wide one_mean_table))
       (sample_size_of one_mean_table) = Ok (Some out))
  <-> forall r g n,
        In r (kept_rows (to_csv_wide one_mean_table)) ->
        dict_get g (sample_size_of one_mean_table) = Some n ->
        (sd_missing g r = true -> ci_missing g r = false)
        /\ feq (computed_sem g n r) (Fin 0) = false.
Proof.
  apply (process_continuous_variables_mean_returns_iff
           (to_csv_wide one_mean_table) (sample_size_of one_mean_table)).
  - reflexivity.
  - reflexivity.
  - discriminate.
  - repeat constructor.
  - apply sample_size_of_NoDup.
  - intros g [<-|[<-|[]]]; simpl; auto.
Defined.


(* ------------------------------------------------------------------------- *)
(** * The pooled z-scores *)

Lemma dict_keys_dict_set {V} k (v : V) d :
  dict_keys (dict_set k v d)
  = if mem k (dict_keys d) then dict_keys d else (dict_keys d ++ [k])%list.
Proof.
  unfold mem. induction d as [|[k' v'] d IH]; simpl; [reflexivity|].
  destruct (String.eqb k k') eqn:E; simpl.
  - apply String.eqb_eq in E. now subst k'.
  - rewrite IH. now destruct (existsb (String.eqb k) _).
Qed.

Lemma add_keys_fresh seen gs :
  NoDup gs -> (forall g, In g gs -> ~ In g seen) ->
  add_keys seen gs = (seen ++ gs)%list.
Proof.
  intros Hnd. revert seen.
  induction Hnd as [|g gs Hfresh Hnd IH]; intros seen Hnew.
  - unfold add_keys. simpl. now rewrite app_nil_r.
  - unfold add_keys in *. simpl.
    assert (Hm : mem g seen = false).
    { apply not_true_is_false. rewrite mem_In. apply Hnew. now left. }
    rewrite Hm, IH.
    + now rewrite <- app_assoc.
    + intros g' Hg' Hin. apply in_app_or in Hin. destruct Hin as [Hin|[<-|[]]].
      * apply (Hnew g'); [now right|exact Hin].
      * contradiction.
Qed.

Lemma process_groups_zscore_keys df_blocks sample_size gs mean_df mean_df' :
  process_groups df_blocks sample_size gs mean_df = Ok mean_df' ->
  Forall2 (fun r r' =>
             dict_keys (col_zscore r')
             = add_keys (dict_keys (col_zscore r)) gs) mean_df mean_df'.
Proof.
  revert mean_df.
  induction gs as [|g gs IH]; intros mean_df H; simpl in H.
  - injection H as <-. induction mean_df; constructor; auto.
  - destruct (process_group df_blocks sample_size g mean_df) as [rows1|e] eqn:E;
      [|discriminate].
    simpl in H.
    destruct (process_group_ok_inv _ _ _ _ _ E) as (n & _ & _ & _ & ->).
    apply IH, Forall2_map_left in H.
    eapply Forall2_weaken; [|exact H].
    intros r r' _ ->. rewrite col_zscore_step_row, dict_keys_dict_set.
    reflexivity.
Qed.

Lemma dict_values_by_keys {V} (f : string -> V) d :
  NoDup (dict_keys d) ->
  (forall g, In g (dict_keys d) -> dict_get g d = Some (f g)) ->
  dict_values d = map f (dict_keys d).
Proof.
  induction d as [|[k v] d IH]; simpl; intros Hnd Hget; [reflexivity|].
  inversion Hnd as [|? ? Hfresh Hnd']; subst.
  pose proof (Hget k (or_introl eq_refl)) as Hk.
  rewrite String.eqb_refl in Hk. injection Hk as ->.
  f_equal. apply IH; [exact Hnd'|].
  intros g Hg. specialize (Hget g (or_intror Hg)).
  destruct (String.eqb g k) eqn:E; [|exact Hget].
  apply String.eqb_eq in E. subst g. contradiction.
Qed.

Lemma Forall2_flat_map {A B C} (f : A -> list C) (h : B -> list C) l l' :
  Forall2 (fun x y => h y = f x) l l' -> flat_map h l' = flat_map f l.
Proof. induction 1; simpl; congruence. Qed.

Lemma length_flat_map_const {A B} (f : A -> list B) l k :
  (forall x, List.length (f x) = k) ->
  List.length (flat_map f l) = (List.length l * k)%nat.
Proof.
  intros H. induction l as [|a l IH]; simpl; [reflexivity|].
  now rewrite length_app, IH, H.
Qed.

Lemma Forall2_and {A B} (R S : A -> B -> Prop) l l' :
  Forall2 R l l' -> Forall2 S l l' -> Forall2 (fun x y => R x y /\ S x y) l l'.
Proof.
  intros HR. induction HR; intros HS; inversion HS; subst; constructor; auto.
Qed.

Lemma Forall2_Forall_left {A B} (P : A -> Prop) (R : A -> B -> Prop) l l' :
  Forall P l -> Forall2 R l l' -> Forall2 (fun x y => P x /\ R x y) l l'.
Proof.
  intros HP HR. induction HR; inversion HP; subst; constructor; auto.
Qed.

Lemma flatten_zscores_rows (d : DataFrame) (sample_size : list (string * Z))
    (out : DataFrame) :
  NoDup (dict_keys sample_size) ->
  Forall (fun r => col_zscore r = []) (df_rows d) ->
  process_continuous_variables_mean (Some d) sample_size = Ok (Some out) ->
  flatten_zscores (Some out)
  = flat_map (fun r => map (row_zscore d sample_size r) (dict_keys sample_size))
             (kept_rows d).
Proof.
  intros Hnd Hfresh Hok.
  unfold flatten_zscores. apply Forall2_flat_map.
  destruct (engine_rows d sample_size out Hnd Hok) as [_ Hrows].
  assert (Hkeys : Forall2 (fun r r' =>
                             dict_keys (col_zscore r')
                             = add_keys (dict_keys (col_zscore r))
                                        (dict_keys sample_size))
                          (kept_rows d) (df_rows out)).
  { destruct (empty d) eqn:He.
    - unfold process_continuous_variables_mean in Hok. rewrite He in Hok.
      injection Hok as <-. unfold kept_rows, empty in *.
      destruct (df_rows d); [constructor|discriminate].
    - destruct (engine_ok_inv d sample_size _ He Hok)
        as (rows' & Hloop & [= ->]).
      apply process_groups_zscore_keys in Hloop.
      rewrite retained_kept in Hloop. now apply Forall2_map_left in Hloop. }
  assert (Hempty : Forall (fun r => col_zscore r = []) (kept_rows d)).
  { rewrite Forall_forall in *. intros r Hr. apply Hfresh.
    apply kept_rows_spec in Hr. tauto. }
  pose proof (Forall2_Forall_left _ _ _ _ Hempty
                (Forall2_and _ _ _ _ Hrows Hkeys)) as Hall.
  eapply Forall2_weaken; [|exact Hall].
  intros r r' _ (Hz0 & (_ & _ & Hin) & Hk).
  cbn [col_zscore with_population_mean] in Hk. rewrite Hz0 in Hk.
  cbn [dict_keys map] in Hk.
  rewrite (add_keys_fresh [] _ Hnd) in Hk by (intros g _ []).
  cbn [app] in Hk.
  rewrite (dict_values_by_keys (row_zscore d sample_size r)); rewrite Hk; auto.
  intros g Hg. destruct (Hin g Hg) as (n & Hn & _ & _ & Hz).
  rewrite Hz. unfold row_zscore, value_of. rewrite Hn. reflexivity.
Qed.

(** X6. On a frame whose rows carry no z-score column yet, as [to_csv_wide]
    builds them, and in which no group id contains "mean" or "zscore" (and
    there is no [population_mean] column yet), so that the columns selected
    by these words are the mean columns and the z-score columns: the
    z-scores the pipeline pools from the engine's frame are, row after row
    of the retained rows and group after group of [sample_size],
    [(mean - population_mean) / (sd / sqrt(n))]: one per retained row and
    group. *)
Theorem pooled_zscores (d : DataFrame) (sample_size : list (string * Z))
    (out : DataFrame) :
  plain_means d = true ->
  plain "zscore" d = true ->
  NoDup (dict_keys sample_size) ->
  Forall (fun r => col_zscore r = []) (df_rows d) ->
  process_continuous_variables_mean (Some d) sample_size = Ok (Some out) ->
  flatten_zscores (Some out)
  = flat_map (fun r => map (row_zscore d sample_size r) (dict_keys sample_size))
             (kept_rows d)
  /\ List.length (flatten_zscores (Some out))
     = (List.length (kept_rows d) * List.length (dict_keys sample_size))%nat.
Proof.
  intros _ _ Hnd Hfresh Hok.
  pose proof (flatten_zscores_rows d sample_size out Hnd Hfresh Hok) as Hflat.
  split; [exact Hflat|].
  rewrite Hflat. apply length_flat_map_const. intros r. apply length_map.
Qed.

Lemma wide_records_fresh i rs :
  Forall (fun r => col_zscore r = []) (wide_records i rs).
Proof.
  revert i. induction rs as [|row rs IH]; intros i; simpl; constructor; auto.
Qed.

Lemma to_csv_wide_fresh json_data :
  Forall (fun r => col_zscore r = []) (df_rows (to_csv_wide json_data)).
Proof. apply wide_records_fresh. Qed.

Lemma pooled_zscores_witness :
  exists out,
    process_continuous_variables_mean (Some (to_csv_wide one_mean_table))
      (sample_size_of one_mean_table) = Ok (Some out)
    /\ List.length (flatten_zscores (Some out)) = 2%nat.
Proof.
  destruct one_mean_engine_returns as [out Hok].
  exists out. split; [exact Hok|].
  destruct (pooled_zscores (to_csv_wide one_mean_table)
              (sample_size_of one_mean_table) out eq_refl eq_refl
              (sample_size_of_NoDup one_mean_table)
              (to_csv_wide_fresh one_mean_table) Hok) as [_ Hlen].
  rewrite Hlen. reflexivity.
Defined.





(* ------------------------------------------------------------------------- *)
(** * More on the contingency table *)

Lemma table_rows_ok_inv labels group_count group_total table :
  table_rows labels group_count group_total = Ok table ->
  Forall2 (fun g row =>
             exists s t, dict_get g group_count = Some s
                         /\ dict_get g group_total = Some t
                         /\ (s <= t)%Z /\ row = [s; (t - s)%Z])
          labels table.
Proof.
  revert table. induction labels as [|g rest IH]; intros table H; simpl in H.
  - injection H as <-. constructor.
  - unfold dict_lookup in H.
    destruct (dict_get g group_count) as [s|] eqn:Es; [|discriminate].
    destruct (dict_get g group_total) as [t|] eqn:Et; [|discriminate].
    cbn [bind] in H.
    destruct (t <? s)%Z eqn:Ecmp; [discriminate|]. apply Z.ltb_ge in Ecmp.
    destruct (table_rows rest group_count group_total) as [table'|e];
      [|discriminate].
    cbn [bind] in H. injection H as <-.
    constructor; [|now apply IH]. exists s, t. auto.
Qed.

(** X8. A table that [contingency_table_binary] returns has one row per group
    of [group_count], in key order; each row is the pair of the group's
    successes and failures, which add up to the group's total, and the
    failures are never negative. *)
Theorem contingency_table_binary_rows
    (group_count group_total : list (string * Z)) (table : list (list Z)) :
  contingency_table_binary group_count group_total = Ok table ->
  List.length table = List.length (dict_keys group_count)
  /\ Forall2 (fun g row =>
                exists success failure,
                  row = [success; failure]
                  /\ dict_get g group_count = Some success
                  /\ dict_get g group_total = Some (success + failure)%Z
                  /\ (0 <= failure)%Z)
             (dict_keys group_count) table.
Proof.
  intros H. unfold contingency_table_binary in H.
  apply table_rows_ok_inv in H. split.
  - symmetry. exact (Forall2_length H).
  - eapply Forall2_weaken; [|exact H].
    intros g row _ (s & t & Hs & Ht & Hle & ->).
    exists s, (t - s)%Z. repeat split; auto; [|lia].
    rewrite Ht. f_equal. lia.
Qed.

Lemma contingency_table_binary_rows_witness :
  List.length [[30; 20]; [25; 30]]%Z
  = List.length (dict_keys [("A", 30%Z); ("B", 25%Z)])
  /\ Forall2 (fun g row =>
                exists success failure,
                  row = [success; failure]
                  /\ dict_get g [("A", 30%Z); ("B", 25%Z)] = Some success
                  /\ dict_get g [("A", 50%Z); ("B", 55%Z)]
                     = Some (success + failure)%Z
                  /\ (0 <= failure)%Z)
             (dict_keys [("A", 30%Z); ("B", 25%Z)]) [[30; 20]; [25; 30]]%Z.
Proof.
  apply (contingency_table_binary_rows [("A", 30%Z); ("B", 25%Z)]
           [("A", 50%Z); ("B", 55%Z)]).
  reflexivity.
Defined.

Lemma table_rows_first_failure l1 g l2 group_count group_total s :
  (forall h, In h l1 ->
     exists c t, dict_get h group_count = Some c
                 /\ dict_get h group_total = Some t /\ (c <= t)%Z) ->
  dict_get g group_count = Some s ->
  (dict_get g group_total = None ->
   table_rows (l1 ++ g :: l2) group_count group_total = Err (KeyError g))
  /\ (forall t, dict_get g group_total = Some t -> (t < s)%Z ->
        table_rows (l1 ++ g :: l2) group_count group_total
        = raise (SuccessExceedsTotal g s t)).
Proof.
  intros Hfine Hs.
  induction l1 as [|h l1 IH]; simpl.
  - unfold dict_lookup. rewrite Hs. cbn [bind]. split.
    + intros ->. reflexivity.
    + intros t -> Hlt. cbn [bind]. apply Z.ltb_lt in Hlt. now rewrite Hlt.
  - destruct (Hfine h (or_introl eq_refl)) as (c & t & Hc & Ht & Hle).
    unfold dict_lookup. rewrite Hc, Ht. cbn [bind].
    apply Z.ltb_ge in Hle. rewrite Hle.
    destruct (IH (fun h' H => Hfine h' (or_intror H))) as [IHk IHe].
    split.
    + intros Hnone. now rewrite (IHk Hnone).
    + intros t' Ht' Hlt. now rewrite (IHe t' Ht' Hlt).
Qed.

(** X9. [contingency_table_binary] stops at the first group, in key order,
    that it cannot use: when the groups before it have totals not below their
    counts, a group without a total gives the [KeyError] of that group, and a
    group whose count exceeds its total gives the error that names it. *)
Theorem contingency_table_binary_first_failure
    (group_count group_total : list (string * Z))
    (before : list string) (g : string) (after : list string) :
  dict_keys group_count = (before ++ g :: after)%list ->
  (forall h, In h before ->
     exists t, dict_get h group_total = Some t
               /\ (value_of h group_count <= t)%Z) ->
  (dict_get g group_total = None ->
   contingency_table_binary group_count group_total = Err (KeyError g))
  /\ (forall t, dict_get g group_total = Some t ->
        (t < value_of g group_count)%Z ->
        contingency_table_binary group_count group_total
        = raise (SuccessExceedsTotal g (value_of g group_count) t)).
Proof.
  intros Hkeys Hfine. unfold contingency_table_binary. rewrite Hkeys.
  assert (Hin : forall h, In h (before ++ g :: after)%list ->
                  dict_get h group_count = Some (value_of h group_count)).
  { intros h Hh. rewrite <- Hkeys in Hh.
    destruct (dict_get_key h group_count Hh) as [v Hv].
    unfold value_of. now rewrite Hv. }
  apply table_rows_first_failure.
  - intros h Hh. destruct (Hfine h Hh) as (t & Ht & Hle).
    exists (value_of h group_count), t. repeat split; auto.
    apply Hin. apply in_or_app. now left.
  - apply Hin. apply in_or_app. right. now left.
Qed.

Lemma contingency_table_binary_first_failure_witness :
  (dict_get "B" [("A", 50%Z)] = None ->
   contingency_table_binary [("A", 30%Z); ("B", 25%Z)] [("A", 50%Z)]
   = Err (KeyError "B"))
  /\ (forall t, dict_get "B" [("A", 50%Z)] = Some t ->
        (t < value_of "B" [("A", 30%Z); ("B", 25%Z)])%Z ->
        contingency_table_binary [("A", 30%Z); ("B", 25%Z)] [("A", 50%Z)]
        = raise (SuccessExceedsTotal "B"
                   (value_of "B" [("A", 30%Z); ("B", 25%Z)]) t)).
Proof.
  apply (contingency_table_binary_first_failure
           [("A", 30%Z); ("B", 25%Z)] [("A", 50%Z)] ["A"] "B" []).
  - reflexivity.
  - intros h [<-|[]]. exists 50%Z. split; [reflexivity|].
    unfold value_of. simpl. lia.
Defined.

(* ------------------------------------------------------------------------- *)
(** * More on the categorical rate engine *)

Lemma filter_all {A} (p : A -> bool) l :
  (forall x, In x l -> p x = true) -> filter p l = l.
Proof.
  intros H. induction l as [|a l IH]; simpl; [reflexivity|].
  rewrite (H a (or_introl eq_refl)). f_equal. apply IH.
  intros x Hx. apply H. now right.
Qed.

(** X10. The categorical rate engine is idempotent: given its own output and
    the same total, it returns that output again. *)
Theorem process_categorical_variables_idempotent
    (d out : DataFrame) (total_sample_size : Z) :
  process_categorical_variables (Some d) total_sample_size = Ok (Some out) ->
  process_categorical_variables (Some out) total_sample_size = Ok (Some out).
Proof.
  intros H. unfold process_categorical_variables in *.
  destruct (empty d) eqn:He; [injection H as <-; now rewrite He|].
  destruct (total_sample_size <=? 0)%Z eqn:Et; [discriminate|].
  injection H as <-.
  match goal with |- (if ?c then _ else _) = _ => destruct c; [reflexivity|] end.
  cbn [blocks df_rows]. do 3 f_equal.
  assert (Hk : forall r,
             In r (filter (counts_complete (blocks d))
                          (filter is_categorical (df_rows d))) ->
             is_categorical r = true /\ counts_complete (blocks d) r = true).
  { intros r Hr. apply filter_In in Hr.
    destruct Hr as [Hr Hc]. apply filter_In in Hr. tauto. }
  rewrite (filter_all is_categorical), (filter_all (counts_complete (blocks d))).
  - rewrite map_map. apply map_ext. intros r. reflexivity.
  - intros r' Hr'. apply in_map_iff in Hr'. destruct Hr' as (r & <- & Hr).
    exact (proj2 (Hk r Hr)).
  - intros r' Hr'. apply in_map_iff in Hr'. destruct Hr' as (r & <- & Hr).
    exact (proj1 (Hk r Hr)).
Qed.

Lemma process_categorical_variables_idempotent_witness :
  exists out,
    process_categorical_variables (Some (to_csv_wide smoker_table)) 100
    = Ok (Some out)
    /\ process_categorical_variables (Some out) 100 = Ok (Some out).
Proof.
  eexists. split; [reflexivity|].
  apply (process_categorical_variables_idempotent (to_csv_wide smoker_table)).
  reflexivity.
Defined.

(* ------------------------------------------------------------------------- *)
(** * The wide table of [to_csv_wide] *)

Lemma find_app_last {A} (p : A -> bool) l x :
  find p (l ++ [x])
  = match find p l with
    | Some y => Some y
    | None => if p x then Some x else None
    end.
Proof.
  induction l as [|a l IH]; simpl; [reflexivity|].
  destruct (p a); [reflexivity|exact IH].
Qed.

Lemma record_lookup g vs (record : list (string * Cells)) :
  dict_get g (fold_left (fun record v =>
                           dict_set (v_group_id v) (entry_cells v) record)
                        vs record)
  = match find (fun v => String.eqb (v_group_id v) g) (rev vs) with
    | Some v => Some (entry_cells v)
    | None => dict_get g record
    end.
Proof.
  revert record. induction vs as [|v vs IH]; intros record; simpl.
  - reflexivity.
  - rewrite IH, find_app_last.
    destruct (find _ (rev vs)); [reflexivity|].
    destruct (String.eqb (v_group_id v) g) eqn:E.
    + apply String.eqb_eq in E. subst g. apply dict_get_set_same.
    + apply String.eqb_neq in E. now apply dict_get_set_other.
Qed.

Lemma wide_records_nth i rs k :
  nth_error (wide_records i rs) k
  = option_map (wide_record (i + k)) (nth_error rs k).
Proof.
  revert i k. induction rs as [|row rs IH]; intros i k; simpl.
  - now destruct k.
  - destruct k as [|k]; simpl.
    + now rewrite Nat.add_0_r.
    + rewrite IH. now rewrite Nat.add_succ_r.
Qed.

Lemma wide_records_length i rs :
  List.length (wide_records i rs) = List.length rs.
Proof. revert i. induction rs; intros i; simpl; auto. Qed.

Lemma entries_lookup g vs (record : list (string * ValueEntry)) :
  dict_get g (fold_left (fun record v => dict_set (v_group_id v) v record)
                        vs record)
  = match find (fun v => String.eqb (v_group_id v) g) (rev vs) with
    | Some v => Some v
    | None => dict_get g record
    end.
Proof.
  revert record. induction vs as [|v vs IH]; intros record; simpl.
  - reflexivity.
  - rewrite IH, find_app_last.
    destruct (find _ (rev vs)); [reflexivity|].
    destruct (String.eqb (v_group_id v) g) eqn:E.
    + apply String.eqb_eq in E. subst g. apply dict_get_set_same.
    + apply String.eqb_neq in E. now apply dict_get_set_other.
Qed.

(** The labels of the columns: a label names one group and one field. *)
Lemma contains_paren s1 s2 : contains "(" (s1 ++ "(" ++ s2) = true.
Proof.
  induction s1 as [|c s1 IH].
  - cbn [append contains String.prefix]. now destruct s2.
  - cbn [append contains]. cbn [append] in IH. rewrite IH. apply orb_true_r.
Qed.

Lemma contains_paren_closed f :
  contains "(" f = false -> contains "(" (f ++ ")") = false.
Proof.
  induction f as [|c f IH]; [reflexivity|].
  cbn [append contains]. intros H. apply orb_false_iff in H.
  destruct H as [Hp Hf]. rewrite (IH Hf), orb_false_r.
  cbn [String.prefix] in *. destruct (Ascii.ascii_dec _ c); [|reflexivity].
  now destruct f.
Qed.

Lemma append_inj_right a b c : (a ++ c = b ++ c)%string -> a = b.
Proof.
  assert (Hlen : forall x y, String.length (x ++ y)
                             = (String.length x + String.length y)%nat).
  { induction x; intros y; simpl; auto. }
  revert b. induction a as [|x a IH]; intros [|y b]; simpl; intros H.
  - reflexivity.
  - apply (f_equal String.length) in H. simpl in H. rewrite Hlen in H. lia.
  - apply (f_equal String.length) in H. simpl in H. rewrite Hlen in H. lia.
  - injection H as -> H. f_equal. now apply IH.
Qed.

Lemma column_label_inj g f g' f' :
  contains "(" f = false -> contains "(" f' = false ->
  column_label g f = column_label g' f' -> g = g' /\ f = f'.
Proof.
  intros Hf Hf'. unfold column_label.
  assert (Hno : forall h k rest,
             contains "(" h = false ->
             (h ++ ")")%string <> (k ++ " (" ++ rest)%string).
  { intros h k rest Hh E. apply contains_paren_closed in Hh.
    rewrite E in Hh.
    assert (Ek : (k ++ " (" ++ rest)%string
                 = ((k ++ " ") ++ "(" ++ rest)%string).
    { clear. induction k as [|c k IH]; [reflexivity|].
      simpl. f_equal. exact IH. }
    rewrite Ek, contains_paren in Hh. discriminate. }
  revert g'. induction g as [|c g IH]; intros [|c' g']; simpl; intros E.
  - injection E as E. split; [reflexivity|].
    exact (append_inj_right _ _ _ E).
  - exfalso. injection E as _ E. destruct g' as [|c2 g']; simpl in E.
    + discriminate.
    + injection E as _ E. exact (Hno f g' (f' ++ ")")%string Hf E).
  - exfalso. injection E as _ E. destruct g as [|c2 g]; simpl in E.
    + discriminate.
    + injection E as _ E. symmetry in E.
      exact (Hno f' g (f ++ ")")%string Hf' E).
  - injection E as -> E. destruct (IH g' E) as [-> ->]. now split.
Qed.

Lemma numeric_fields_no_paren fp :
  In fp numeric_fields -> contains "(" (fst fp) = false.
Proof.
  intros H. repeat (destruct H as [<-|H]; [reflexivity|]). destruct H.
Qed.

Lemma object_columns_of_In rs gs g field present :
  In g gs -> In (field, present) numeric_fields ->
  (In (column_label g field) (object_columns_of rs gs)
   <-> exists present', In (field, present') numeric_fields
                        /\ all_none rs g present' = true).
Proof.
  intros Hg Hfield. unfold object_columns_of. rewrite in_flat_map. split.
  - intros (g' & _ & Hin). apply in_flat_map in Hin.
    destruct Hin as ([f' p'] & Hfp & Hin). cbn [fst snd] in Hin.
    destruct (all_none rs g' p') eqn:E; [|destruct Hin].
    destruct Hin as [Hl|[]].
    apply column_label_inj in Hl.
    + destruct Hl as [-> ->]. now exists p'.
    + exact (numeric_fields_no_paren _ Hfp).
    + exact (numeric_fields_no_paren _ Hfield).
  - intros (p' & Hfp & Hall). exists g. split; [exact Hg|].
    apply in_flat_map. exists (field, p'). split; [exact Hfp|].
    cbn [fst snd]. rewrite Hall. now left.
Qed.

Lemma numeric_fields_functional field present present' :
  In (field, present) numeric_fields -> In (field, present') numeric_fields ->
  present = present'.
Proof.
  intros H H'.
  repeat (destruct H as [[= <- <-]|H];
          [repeat (destruct H' as [H'|H'];
                   [first [discriminate H' | now injection H' as <-]|]);
           destruct H'|]).
  destruct H.
Qed.

(** X11. [to_csv_wide] makes one record per row of the extraction, in order
    and indexed from 0.  In the record of a row, the columns of a group hold
    the values of the row's entry for that group, the last one if there are
    several, a null being a missing value; they are all missing when the row
    has no entry for the group.  A numeric column of the frame is a column
    of dtype object, with [None] for its missing values, exactly when every
    row has an entry for the group with a null in that field; every other
    numeric column has a numeric dtype, with NaN for its missing values. *)
Theorem to_csv_wide_records (json_data : Table1) :
  List.length (df_rows (to_csv_wide json_data))
  = List.length (rows json_data)
  /\ (forall i row,
        nth_error (rows json_data) i = Some row ->
        exists r,
          nth_error (df_rows (to_csv_wide json_data)) i = Some r
          /\ name r = i
          /\ col_Variable_type r = variable_type row
          /\ forall g,
               cell r g
               = match find (fun v => String.eqb (v_group_id v) g)
                            (rev (values row)) with
                 | Some v => entry_cells v
                 | None => nan_cells
                 end)
  /\ forall g field present,
       In g (blocks (to_csv_wide json_data)) ->
       In (field, present) numeric_fields ->
       (is_object (to_csv_wide json_data) (column_label g field) = true
        <-> forall row, In row (rows json_data) ->
              exists v,
                find (fun v => String.eqb (v_group_id v) g) (rev (values row))
                = Some v
                /\ present v = false).
Proof.
  split; [apply wide_records_length|]. split.
  - intros i row Hrow. exists (wide_record i row).
    unfold to_csv_wide. cbn [df_rows].
    rewrite wide_records_nth, Hrow. repeat split.
    intros g. unfold cell, wide_record. cbn [cells].
    rewrite record_lookup. now destruct (find _ (rev (values row))).
  - intros g field present Hg Hfield. unfold is_object.
    rewrite mem_In. unfold to_csv_wide in *. cbn [object_columns blocks] in *.
    rewrite (object_columns_of_In _ _ g field present Hg Hfield).
    assert (Hall : all_none (rows json_data) g present = true
                   <-> forall row, In row (rows json_data) ->
                         exists v,
                           find (fun v => String.eqb (v_group_id v) g)
                                (rev (values row)) = Some v
                           /\ present v = false).
    { unfold all_none. rewrite forallb_forall.
      split; intros H row Hrow; specialize (H row Hrow);
        unfold entries in *; rewrite entries_lookup in *; cbn [dict_get] in *.
      - destruct (find _ (rev (values row))) as [v|]; [|discriminate].
        exists v. split; [reflexivity|]. now apply negb_true_iff.
      - destruct H as (v & -> & Hv). now rewrite Hv. }
    rewrite <- Hall. split.
    + intros (p' & Hp' & H).
      now rewrite (numeric_fields_functional _ _ _ Hfield Hp').
    + intros H. now exists present.
Qed.

Lemma add_keys_In seen ks g :
  In g (add_keys seen ks) <-> In g seen \/ In g ks.
Proof.
  unfold add_keys. revert seen.
  induction ks as [|k ks IH]; intros seen; simpl; [tauto|].
  rewrite IH. destruct (mem k seen) eqn:E.
  - apply mem_In in E. split; [tauto|].
    intros [H|[<-|H]]; auto.
  - rewrite in_app_iff. simpl. tauto.
Qed.

Lemma add_keys_NoDup seen ks : NoDup seen -> NoDup (add_keys seen ks).
Proof.
  unfold add_keys. revert seen.
  induction ks as [|k ks IH]; intros seen Hnd; simpl; [exact Hnd|].
  apply IH. destruct (mem k seen) eqn:E; [exact Hnd|].
  apply NoDup_app; [exact Hnd|repeat constructor; intros []|].
  intros x Hx [<-|[]]. apply mem_In in Hx. congruence.
Qed.

Lemma record_keys vs (record : list (string * Cells)) :
  dict_keys (fold_left (fun record v =>
                          dict_set (v_group_id v) (entry_cells v) record)
                       vs record)
  = add_keys (dict_keys record) (map v_group_id vs).
Proof.
  revert record. induction vs as [|v vs IH]; intros record; simpl.
  - reflexivity.
  - rewrite IH, dict_keys_dict_set. reflexivity.
Qed.

Lemma blocks_fold_In (records : list WideRow) acc g :
  In g (fold_left (fun acc r => add_keys acc (dict_keys (cells r))) records acc)
  <-> In g acc \/ exists r, In r records /\ In g (dict_keys (cells r)).
Proof.
  revert acc. induction records as [|r records IH]; intros acc; simpl.
  - split; [tauto|]. intros [H|(r & [] & _)]. exact H.
  - rewrite IH, add_keys_In. split.
    + intros [[H|H]|(r' & Hr' & Hg)]; eauto.
    + intros [H|(r' & [<-|Hr'] & Hg)]; eauto.
Qed.

Lemma blocks_fold_NoDup (records : list WideRow) acc :
  NoDup acc ->
  NoDup (fold_left (fun acc r => add_keys acc (dict_keys (cells r)))
                   records acc).
Proof.
  revert acc. induction records as [|r records IH]; intros acc Hnd; simpl.
  - exact Hnd.
  - now apply IH, add_keys_NoDup.
Qed.

Lemma wide_records_In i rs r :
  In r (wide_records i rs)
  -> exists k row, In row rs /\ r = wide_record k row.
Proof.
  revert i. induction rs as [|row rs IH]; intros i; simpl; [tauto|].
  intros [<-|H].
  - exists i, row. auto.
  - destruct (IH _ H) as (k & row' & Hin & ->). exists k, row'. auto.
Qed.

Lemma In_wide_records i rs row :
  In row rs -> exists k, In (wide_record k row) (wide_records i rs).
Proof.
  revert i. induction rs as [|row' rs IH]; intros i; simpl; [tauto|].
  intros [->|H].
  - exists i. now left.
  - destruct (IH (S i) H) as [k Hk]. exists k. now right.
Qed.

Lemma to_csv_wide_blocks_In (json_data : Table1) g :
  In g (blocks (to_csv_wide json_data))
  <-> exists row v, In row (rows json_data) /\ In v (values row)
                    /\ v_group_id v = g.
Proof.
  unfold to_csv_wide. cbn [blocks]. rewrite blocks_fold_In. split.
  - intros [[]|(r & Hr & Hg)].
    apply wide_records_In in Hr. destruct Hr as (k & row & Hrow & ->).
    unfold wide_record in Hg. cbn [cells] in Hg.
    rewrite record_keys in Hg. apply add_keys_In in Hg.
    destruct Hg as [[]|Hg]. apply in_map_iff in Hg.
    destruct Hg as (v & Hv & Hin). now exists row, v.
  - intros (row & v & Hrow & Hv & <-). right.
    destruct (In_wide_records 0 _ row Hrow) as [k Hk].
    exists (wide_record k row). split; [exact Hk|].
    unfold wide_record. cbn [cells]. rewrite record_keys.
    apply add_keys_In. right. now apply in_map.
Qed.

(** X12. The frame of [to_csv_wide] has one block of columns for each group
    id that occurs in an entry of some row, and no block twice. *)
Theorem to_csv_wide_blocks (json_data : Table1) :
  NoDup (blocks (to_csv_wide json_data))
  /\ forall g,
       In g (blocks (to_csv_wide json_data))
       <-> exists row v, In row (rows json_data) /\ In v (values row)
                         /\ v_group_id v = g.
Proof.
  split.
  - unfold to_csv_wide. cbn [blocks]. apply blocks_fold_NoDup. constructor.
  - intros g. apply to_csv_wide_blocks_In.
Qed.

Lemma to_uint_nonnil n : Nat.to_uint n <> Decimal.Nil.
Proof.
  rewrite <- (DecimalNat.Unsigned.of_to n) at 1.
  rewrite DecimalNat.Unsigned.to_of. apply DecimalFacts.unorm_nonnil.
Qed.

Lemma string_of_nat_inj n m : string_of_nat n = string_of_nat m -> n = m.
Proof.
  unfold string_of_nat. intros H.
  apply DecimalNat.Unsigned.to_uint_inj.
  apply (f_equal NilZero.uint_of_string) in H.
  rewrite !NilZero.usu in H by apply to_uint_nonnil. congruence.
Qed.

Lemma append_inj_left p a b : (p ++ a = p ++ b)%string -> a = b.
Proof. induction p; simpl; [auto|]. intros [= H]. auto. Qed.

Lemma fisher_key_inj i j : fisher_key i = fisher_key j -> i = j.
Proof.
  unfold fisher_key. intros H. apply string_of_nat_inj.
  exact (append_inj_left _ _ _ H).
Qed.

Lemma fisher_key_not_combined i : fisher_key i <> "fisher_method-combined".
Proof. unfold fisher_key. simpl. congruence. Qed.

Lemma fisher_key_not_chi i : fisher_key i <> "cont_chi_squared_variance".
Proof. unfold fisher_key. simpl. congruence. Qed.

Lemma dict_set_new {V} k (v : V) d :
  dict_get k d = None -> dict_set k v d = (d ++ [(k, v)])%list.
Proof.
  induction d as [|[k' v'] d IH]; simpl; [reflexivity|].
  destruct (String.eqb k k'); [discriminate|].
  intros H. now rewrite IH.
Qed.

Lemma dict_get_app {V} k (d1 d2 : list (string * V)) :
  dict_get k (d1 ++ d2)
  = match dict_get k d1 with
    | Some v => Some v
    | None => dict_get k d2
    end.
Proof.
  induction d1 as [|[k' v'] d1 IH]; simpl; [reflexivity|].
  destruct (String.eqb k k'); [reflexivity|exact IH].
Qed.

Lemma dict_get_None_keys {V} k (d : list (string * V)) :
  dict_get k d = None <-> ~ In k (dict_keys d).
Proof.
  split.
  - intros H Hin. destruct (dict_get_key k d Hin) as [v Hv]. congruence.
  - intros H. destruct (dict_get k d) as [v|] eqn:E; [|reflexivity].
    destruct H. exact (dict_get_Some_key _ _ _ E).
Qed.

(* ------------------------------------------------------------------------- *)
(** * The counts and the table of one categorical row *)

Lemma row_counts_spec df_blocks r gs d counts :
  NoDup gs ->
  (forall g, In g gs -> dict_get g d = None) ->
  row_counts df_blocks r gs d = Ok counts ->
  counts = (d ++ map (fun g => (g, count_of r g)) gs)%list.
Proof.
  intros Hnd. revert d.
  induction Hnd as [|g gs Hfresh Hnd IH]; intros d Hnew H; simpl in H.
  - injection H as <-. now rewrite app_nil_r.
  - destruct (column df_blocks g "count"); [|discriminate]. cbn [bind] in H.
    destruct (c_count (cell r g)) as [c|] eqn:Ec; [|discriminate].
    cbn [bind] in H. apply IH in H.
    + rewrite H, (dict_set_new g c d) by (apply Hnew; now left).
      rewrite <- app_assoc. simpl. unfold count_of. now rewrite Ec.
    + intros g' Hg'. rewrite dict_get_set_other; [apply Hnew; now right|].
      intros ->. contradiction.
Qed.

Lemma dict_get_tabulate {V} (f : string -> V) gs g :
  In g gs -> dict_get g (map (fun g => (g, f g)) gs) = Some (f g).
Proof.
  induction gs as [|g0 gs IH]; simpl; [tauto|].
  intros Hin. destruct (String.eqb g g0) eqn:E.
  - apply String.eqb_eq in E. now subst.
  - apply IH. destruct Hin as [->|H]; [|exact H].
    now rewrite String.eqb_refl in E.
Qed.

Lemma Forall2_eq_map {A B} (f : A -> B) l l' :
  Forall2 (fun x y => y = f x) l l' -> l' = map f l.
Proof. induction 1; simpl; congruence. Qed.

Lemma row_table_spec df_blocks sample_size gs r counts table :
  NoDup gs ->
  row_counts df_blocks r gs [] = Ok counts ->
  contingency_table_binary counts sample_size = Ok table ->
  table = expected_table sample_size gs r
  /\ forall g, In g gs -> (count_of r g <= value_of g sample_size)%Z.
Proof.
  intros Hnd Hc Ht.
  apply (row_counts_spec _ _ _ [] _ Hnd) in Hc; [|reflexivity].
  cbn [app] in Hc. subst counts.
  unfold contingency_table_binary, dict_keys in Ht.
  rewrite map_map, map_id in Ht. cbn [fst] in Ht.
  apply table_rows_ok_inv in Ht.
  assert (H : Forall2 (fun g row =>
                row = [count_of r g;
                       (value_of g sample_size - count_of r g)%Z]
                /\ (count_of r g <= value_of g sample_size)%Z) gs table).
  { eapply Forall2_weaken; [|exact Ht].
    intros g row Hg (s & t & Hs & Htot & Hle & ->).
    rewrite (dict_get_tabulate (count_of r)) in Hs by exact Hg.
    injection Hs as <-. unfold value_of. rewrite Htot. auto. }
  split.
  - unfold expected_table. apply Forall2_eq_map.
    eapply Forall2_weaken; [|exact H]. intros g row _ [-> _]. reflexivity.
  - intros g Hg. destruct (Forall2_In_left _ _ _ g H Hg) as (row & _ & _ & Hle).
    exact Hle.
Qed.

(* ------------------------------------------------------------------------- *)
(** * The structure of the bundle *)

Lemma wide_records_names i rs :
  map name (wide_records i rs) = seq i (List.length rs).
Proof.
  revert i. induction rs as [|row rs IH]; intros i; simpl; [reflexivity|].
  now rewrite IH.
Qed.

Lemma to_csv_wide_names json_data :
  NoDup (map name (df_rows (to_csv_wide json_data))).
Proof.
  unfold to_csv_wide. cbn [df_rows]. rewrite wide_records_names.
  apply seq_NoDup.
Qed.

Lemma NoDup_map_filter {A B} (f : A -> B) (p : A -> bool) l :
  NoDup (map f l) -> NoDup (map f (filter p l)).
Proof.
  induction l as [|a l IH]; simpl; intros H; [constructor|].
  inversion H as [|? ? Hfresh Hnd]; subst.
  destruct (p a); simpl; [|auto].
  constructor; [|auto].
  intros Hin. apply Hfresh. apply in_map_iff in Hin.
  destruct Hin as (x & Hx & Hf). apply filter_In in Hf.
  apply in_map_iff. exists x. tauto.
Qed.

Lemma valid_pvalue_spec p :
  valid_pvalue p = true <-> exists x, p = Fin x /\ 0 <= x <= 1.
Proof.
  unfold valid_pvalue. rewrite andb_true_iff. split.
  - intros [H0 H1]. destruct p as [| | |x]; try discriminate.
    exists x. split; [reflexivity|].
    apply fle_fin in H0. apply fle_fin in H1. lra.
  - intros (x & -> & Hx). split; apply fle_fin; lra.
Qed.

Section RunStructure.

Variable F : Z -> R -> R.
Variable rng_state : Type.
Variable default_rng : option Z -> rng_state.
Variable rng_after : list (list Z) -> rng_state -> rng_state.
Variable fisher_exact :
  list (list Z) -> option rng_state -> result (float * float).
Variable combine_pvalues : list float -> result (float * float).

Lemma fisher_tests_shape df_blocks sample_size gs method cat_rows
    pvals0 out0 pvals out :
  NoDup gs ->
  NoDup (map name cat_rows) ->
  (forall r, In r cat_rows -> dict_get (fisher_key (name r)) out0 = None) ->
  fisher_tests rng_state rng_after fisher_exact df_blocks sample_size gs
               method cat_rows (pvals0, out0) = Ok (pvals, out) ->
  exists recs,
    Forall2 (fun r kv =>
               exists p stat,
                 kv = (fisher_key (name r),
                       FisherRecord p stat (expected_table sample_size gs r)
                         (col_Variable r)
                         (Z.of_nat (List.length gs) =? 2)%Z))
            cat_rows recs
    /\ out = (out0 ++ recs)%list
    /\ pvals = (pvals0 ++ p_values recs)%list
    /\ forall r g, In r cat_rows -> In g gs ->
                   (count_of r g <= value_of g sample_size)%Z.
Proof.
  intros Hgs. revert method pvals0 out0.
  induction cat_rows as [|row rest IH]; intros method pvals0 out0 Hnd Hnew H.
  - injection H as <- <-. exists []. rewrite !app_nil_r.
    repeat split; auto. intros r g [].
  - cbn [fisher_tests] in H. cbn [map] in Hnd.
    inversion Hnd as [|? ? Hfresh Hnd']; subst.
    destruct (row_counts df_blocks row gs []) as [counts|e] eqn:Ec;
      [|discriminate].
    cbn [bind] in H.
    destruct (contingency_table_binary counts sample_size) as [table|e] eqn:Et;
      [|discriminate].
    cbn [bind] in H.
    destruct (fisher_exact table method) as [[stat p]|e]; [|discriminate].
    cbn [bind] in H.
    destruct (row_table_spec _ _ _ _ _ _ Hgs Ec Et) as [-> Hle].
    fold (fisher_key (name row)) in H.
    rewrite (dict_set_new _ _ out0) in H by (apply Hnew; now left).
    apply IH in H; [|exact Hnd'|].
    + destruct H as (recs & Hrecs & -> & -> & Hle').
      eexists (_ :: recs). split; [constructor; [|exact Hrecs]|].
      * exists p, stat. reflexivity.
      * rewrite <- !app_assoc. repeat split; auto.
        intros r g [<-|Hr] Hg; auto.
    + intros r Hr. rewrite dict_get_app, (Hnew r (or_intror Hr)).
      cbn [dict_get].
      destruct (String.eqb (fisher_key (name r)) (fisher_key (name row)))
        eqn:E; [|reflexivity].
      apply String.eqb_eq, fisher_key_inj in E. destruct Hfresh.
      rewrite <- E. now apply in_map.
Qed.

Lemma categorical_test_shape df sample_size total skip seed pvals0 out0
    pvals out :
  NoDup (dict_keys sample_size) ->
  NoDup (map name (df_rows df)) ->
  (forall i, dict_get (fisher_key i) out0 = None) ->
  categorical_test rng_state default_rng rng_after fisher_exact df sample_size
                   total skip seed (pvals0, out0) = Ok (pvals, out) ->
  exists recs,
    out = (out0 ++ recs)%list
    /\ pvals = (pvals0 ++ p_values recs)%list
    /\ (skip = true -> recs = [])
    /\ (skip = false ->
        Forall2 (fun r kv =>
                   exists p stat,
                     kv = (fisher_key (name r),
                           FisherRecord p stat
                             (expected_table sample_size
                                             (dict_keys sample_size) r)
                             (col_Variable r)
                             (Z.of_nat (List.length (dict_keys sample_size))
                              =? 2)%Z))
                (categorical_rows df) recs
        /\ forall r g, In r (categorical_rows df) ->
                       In g (dict_keys sample_size) ->
                       (count_of r g <= value_of g sample_size)%Z).
Proof.
  intros Hgs Hnames Hnew H. unfold categorical_test in H.
  destruct skip.
  { injection H as <- <-. exists []. rewrite !app_nil_r.
    repeat split; intros; auto; discriminate. }
  unfold process_categorical_variables in H.
  destruct (empty df) eqn:He.
  { cbn [bind] in H.
    assert (Hrows : df_rows df = [])
      by (unfold empty in He; now destruct (df_rows df)).
    unfold frame_len, len in H. rewrite Hrows in H. simpl in H.
    injection H as <- <-. exists []. rewrite !app_nil_r.
    unfold categorical_rows. rewrite Hrows.
    split; [reflexivity|]. split; [reflexivity|]. split; [reflexivity|].
    intros _. split; [constructor|intros r g []]. }
  destruct (total <=? 0)%Z; [discriminate|].
  cbn [bind frame_len len df_rows] in H.
  rewrite filter_filter in H. fold (categorical_rows df) in H.
  set (rate := fun r => with_population_rate r
                          (fdiv (of_Z (count_sum r (blocks df))) (of_Z total)))
    in H.
  unfold len in H. cbn [df_rows] in H.
  destruct (Z.of_nat (List.length (map rate (categorical_rows df))) =? 0)%Z
    eqn:Elen.
  { injection H as <- <-. exists []. rewrite !app_nil_r.
    apply Z.eqb_eq in Elen. rewrite length_map in Elen.
    destruct (categorical_rows df); [|simpl in Elen; lia].
    split; [reflexivity|]. split; [reflexivity|]. split; [reflexivity|].
    intros _. split; [constructor|intros r g []]. }
  apply fisher_tests_shape in H; auto.
  - destruct H as (recs & Hrecs & -> & -> & Hle).
    exists recs. split; [reflexivity|]. split; [reflexivity|].
    split; [discriminate|]. intros _. split.
    + apply Forall2_map_left in Hrecs. exact Hrecs.
    + intros r g Hr Hg. apply (Hle (rate r) g); [now apply in_map|exact Hg].
  - rewrite map_map. cbn [name rate with_population_rate].
    unfold categorical_rows. now apply NoDup_map_filter.
Qed.

Lemma continuous_test_shape df sample_size skip pvals out :
  continuous_test F df sample_size skip ([], []) = Ok (pvals, out) ->
  (pvals = [] /\ out = [])
  \/ (skip = false
      /\ exists cont p stat,
           process_continuous_variables_mean (Some df) sample_size = Ok cont
           /\ (0 < frame_len cont)%Z
           /\ chi_square_variance_test F (Some (flatten_zscores cont)) (Fin 1)
              = Ok (p, stat)
           /\ pvals = [p]
           /\ out = [("cont_chi_squared_variance",
                      ChiSquaredRecord p stat (flatten_zscores cont))]).
Proof.
  intros H. unfold continuous_test in H.
  destruct skip; [injection H as <- <-; now left|].
  destruct (process_continuous_variables_mean (Some df) sample_size)
    as [cont|e] eqn:Hok; [|discriminate].
  cbn [bind] in H.
  destruct (0 <? frame_len cont)%Z eqn:Erows;
    [|injection H as <- <-; now left].
  destruct (0 <? Z.of_nat (List.length (flatten_zscores cont)))%Z;
    [|injection H as <- <-; now left].
  cbn [andb] in H.
  destruct (chi_square_variance_test_array F _ (flatten_zscores cont) (Fin 1))
    as [[p stat]|e] eqn:Echi; [|discriminate].
  apply chi_square_array_ok in Echi.
  cbn [bind] in H. injection H as <- <-.
  right. split; [reflexivity|]. exists cont, p, stat.
  apply Z.ltb_lt in Erows. repeat split; auto.
Qed.

Lemma combine_shape pvals out0 out :
  combine combine_pvalues (pvals, out0) = Ok out ->
  dict_get "fisher_method-combined" out0 = None ->
  pvals <> [] /\ forallb valid_pvalue pvals = true
  /\ exists stat p,
       combine_pvalues pvals = Ok (stat, p)
       /\ out = (out0 ++ [("fisher_method-combined", CombinedRecord p stat)])%list.
Proof.
  unfold combine. intros H Hnew. destruct pvals as [|p0 pvals]; [discriminate|].
  destruct (Z.of_nat (List.length (p0 :: pvals)) =? 0)%Z; [discriminate|].
  destruct (forallb valid_pvalue (p0 :: pvals)) eqn:Ev; [|discriminate].
  cbn [negb] in H.
  destruct (combine_pvalues (p0 :: pvals)) as [[stat p]|e]; [|discriminate].
  cbn [bind] in H. injection H as <-.
  split; [discriminate|]. split; [reflexivity|].
  exists stat, p. split; [reflexivity|]. now apply dict_set_new.
Qed.

(** The bundle of a run that returns: the chi-squared record if that test
    ran, the Fisher records of the categorical rows, the combined record. *)
Lemma run_structure json_data skip_continuous_var skip_categorical_var
    random_seed out :
  run_test_pipeline F rng_state default_rng rng_after fisher_exact
    combine_pvalues json_data skip_continuous_var skip_categorical_var
    random_seed = Ok out ->
  exists chi fisher stat p,
    out = (chi ++ fisher
           ++ [("fisher_method-combined", CombinedRecord p stat)])%list
    /\ combine_pvalues (p_values (chi ++ fisher)%list) = Ok (stat, p)
    /\ (chi ++ fisher)%list <> []
    /\ forallb valid_pvalue (p_values (chi ++ fisher)%list) = true
    /\ (chi = []
        \/ skip_continuous_var = false
           /\ exists cont pc sc,
                process_continuous_variables_mean
                  (Some (to_csv_wide json_data)) (sample_size_of json_data)
                = Ok cont
                /\ (0 < frame_len cont)%Z
                /\ chi_square_variance_test F (Some (flatten_zscores cont))
                                            (Fin 1) = Ok (pc, sc)
                /\ chi = [("cont_chi_squared_variance",
                           ChiSquaredRecord pc sc (flatten_zscores cont))])
    /\ (skip_categorical_var = true -> fisher = [])
    /\ (skip_categorical_var = false ->
        Forall2 (fisher_entry json_data)
                (categorical_rows (to_csv_wide json_data)) fisher
        /\ forall r g, In r (categorical_rows (to_csv_wide json_data)) ->
                       In g (dict_keys (sample_size_of json_data)) ->
                       (count_of r g
                        <= value_of g (sample_size_of json_data))%Z).
Proof.
  intros Hrun. unfold run_test_pipeline, collect_tests in Hrun.
  destruct (total_of (sample_size_of json_data) =? 0)%Z; [discriminate|].
  destruct (continuous_test F (to_csv_wide json_data)
              (sample_size_of json_data) skip_continuous_var ([], []))
    as [[pvals1 out1]|e] eqn:Hcont; [|discriminate].
  cbn [bind] in Hrun.
  destruct (categorical_test rng_state default_rng rng_after fisher_exact
              (to_csv_wide json_data) (sample_size_of json_data)
              (total_of (sample_size_of json_data)) skip_categorical_var
              random_seed (pvals1, out1))
    as [[pvals2 out2]|e] eqn:Hcat; [|discriminate].
  cbn [bind] in Hrun.
  apply continuous_test_shape in Hcont.
  assert (Hchi : pvals1 = p_values out1
                 /\ forall i, dict_get (fisher_key i) out1 = None).
  { destruct Hcont as [[-> ->]|(_ & cont & pc & sc & _ & _ & _ & -> & ->)].
    - split; [reflexivity|]. reflexivity.
    - split; [reflexivity|]. intros i. simpl.
      destruct (String.eqb (fisher_key i) "cont_chi_squared_variance") eqn:E;
        [|reflexivity].
      apply String.eqb_eq in E. now destruct (fisher_key_not_chi i). }
  destruct Hchi as [Hp1 Hnew].
  apply categorical_test_shape in Hcat;
    [|apply sample_size_of_NoDup|apply to_csv_wide_names|exact Hnew].
  destruct Hcat as (recs & -> & -> & Hskip & Hrecs).
  assert (Hrecs' : exists b, Forall (fun kv => exists i, fst kv = fisher_key i)
                                    recs /\ b = skip_categorical_var).
  { exists skip_categorical_var. split; [|reflexivity].
    destruct skip_categorical_var.
    - rewrite Hskip by reflexivity. constructor.
    - destruct (Hrecs eq_refl) as [Hf _]. clear - Hf.
      induction Hf as [|r kv l l' (p & stat & ->) _ IH]; constructor; auto.
      now exists (name r). }
  destruct Hrecs' as (_ & Hkeys & _).
  apply combine_shape in Hrun.
  - destruct Hrun as (Hne & Hvalid & stat & p & Hcomb & ->).
    exists out1, recs, stat, p.
    assert (Hpv : (pvals1 ++ p_values recs)%list = p_values (out1 ++ recs)%list).
    { rewrite Hp1. unfold p_values. now rewrite map_app. }
    rewrite Hpv in *. rewrite <- app_assoc.
    split; [reflexivity|]. split; [exact Hcomb|]. split.
    { intros E. rewrite E in Hne. now apply Hne. }
    split; [exact Hvalid|]. split.
    { destruct Hcont as [[_ ->]|(Hs & cont & pc & sc & H1 & H2 & H3 & _ & ->)];
        [now left|right].
      split; [exact Hs|]. now exists cont, pc, sc. }
    split; [exact Hskip|]. exact Hrecs.
  - rewrite dict_get_app.
    assert (H1 : dict_get "fisher_method-combined" out1 = None).
    { destruct Hcont as [[_ ->]|(_ & cont & pc & sc & _ & _ & _ & _ & ->)];
        reflexivity. }
    rewrite H1. apply dict_get_None_keys. intros Hin.
    apply in_map_iff in Hin. destruct Hin as (kv & Hk & Hin).
    rewrite Forall_forall in Hkeys. destruct (Hkeys kv Hin) as [i Hi].
    rewrite Hi in Hk. now destruct (fisher_key_not_combined i).
Qed.

End RunStructure.

Lemma fisher_entries_lookup json_data cat_rows recs r :
  Forall2 (fisher_entry json_data) cat_rows recs ->
  NoDup (map name cat_rows) ->
  In r cat_rows ->
  exists kv, In kv recs /\ fisher_entry json_data r kv
             /\ dict_get (fisher_key (name r)) recs = Some (snd kv).
Proof.
  induction 1 as [|r0 kv0 rows recs Hkv _ IH]; intros Hnd Hin; [destruct Hin|].
  cbn [map] in Hnd. inversion Hnd as [|? ? Hfresh Hnd']; subst.
  destruct Hin as [<-|Hin].
  - exists kv0. split; [now left|]. split; [exact Hkv|].
    destruct Hkv as (p & stat & ->). cbn [dict_get snd].
    now rewrite String.eqb_refl.
  - destruct (IH Hnd' Hin) as (kv & Hkv' & He & Hget).
    exists kv. split; [now right|]. split; [exact He|].
    destruct Hkv as (p & stat & ->). cbn [dict_get].
    destruct (String.eqb (fisher_key (name r)) (fisher_key (name r0))) eqn:E;
      [|exact Hget].
    apply String.eqb_eq, fisher_key_inj in E. destruct Hfresh.
    rewrite <- E. now apply in_map.
Qed.

Lemma fisher_entries_keys json_data cat_rows recs :
  Forall2 (fisher_entry json_data) cat_rows recs ->
  dict_keys recs = map (fun r => fisher_key (name r)) cat_rows.
Proof.
  induction 1 as [|r kv rows recs (p & stat & ->) _ IH]; simpl; congruence.
Qed.

Lemma NoDup_map_injective {A B} (f : A -> B) l :
  (forall x y, f x = f y -> x = y) -> NoDup l -> NoDup (map f l).
Proof.
  intros Hinj. induction 1 as [|a l Hfresh _ IH]; simpl; constructor; auto.
  intros Hin. apply in_map_iff in Hin. destruct Hin as (x & Hx & Hin).
  apply Hinj in Hx. now subst.
Qed.

Lemma categorical_rows_names json_data :
  NoDup (map name (categorical_rows (to_csv_wide json_data))).
Proof.
  unfold categorical_rows. apply NoDup_map_filter, to_csv_wide_names.
Qed.

Section BundleContents.

Variable F : Z -> R -> R.
Variable rng_state : Type.
Variable default_rng : option Z -> rng_state.
Variable rng_after : list (list Z) -> rng_state -> rng_state.
Variable fisher_exact :
  list (list Z) -> option rng_state -> result (float * float).
Variable combine_pvalues : list float -> result (float * float).

Lemma bundle_keys (json_data : Table1)
    (skip_continuous_var skip_categorical_var : bool)
    (random_seed : option Z) (out : bundle) :
  run_test_pipeline F rng_state default_rng rng_after fisher_exact
    combine_pvalues json_data skip_continuous_var skip_categorical_var
    random_seed = Ok out ->
  NoDup (dict_keys out)
  /\ exists chi_keys,
       (chi_keys = [] \/ (chi_keys = ["cont_chi_squared_variance"]
                          /\ skip_continuous_var = false))
       /\ dict_keys out
          = (chi_keys
             ++ (if skip_categorical_var then []
                 else map (fun r => fisher_key (name r))
                          (categorical_rows (to_csv_wide json_data)))
             ++ ["fisher_method-combined"])%list.
Proof.
  intros Hrun.
  destruct (run_structure _ _ _ _ _ _ _ _ _ _ _ Hrun)
    as (chi & fisher & stat & p & -> & _ & _ & _ & Hchi & Hskip & Hrecs).
  assert (Hkeys : exists chi_keys,
            (chi_keys = [] \/ (chi_keys = ["cont_chi_squared_variance"]
                               /\ skip_continuous_var = false))
            /\ dict_keys (chi ++ fisher
                          ++ [("fisher_method-combined",
                               CombinedRecord p stat)])%list
               = (chi_keys
                  ++ (if skip_categorical_var then []
                      else map (fun r => fisher_key (name r))
                               (categorical_rows (to_csv_wide json_data)))
                  ++ ["fisher_method-combined"])%list).
  { exists (dict_keys chi). split.
    - destruct Hchi as [->|(Hs & cont & pc & sc & _ & _ & _ & ->)]; auto.
    - unfold dict_keys. rewrite !map_app. f_equal. f_equal.
      destruct skip_categorical_var.
      + now rewrite Hskip.
      + destruct (Hrecs eq_refl) as [Hf _].
        exact (fisher_entries_keys _ _ _ Hf). }
  split; [|exact Hkeys].
  destruct Hkeys as (chi_keys & Hck & ->).
  assert (Hfk : NoDup (map (fun r => fisher_key (name r))
                           (categorical_rows (to_csv_wide json_data)))).
  { rewrite <- (map_map name fisher_key).
    apply NoDup_map_injective; [|apply categorical_rows_names].
    intros i j. apply fisher_key_inj. }
  assert (Hmid : NoDup ((if skip_categorical_var then []
                         else map (fun r => fisher_key (name r))
                                  (categorical_rows (to_csv_wide json_data)))
                        ++ ["fisher_method-combined"])%list).
  { apply NoDup_app.
    - destruct skip_categorical_var; [constructor|exact Hfk].
    - repeat constructor. intros [].
    - intros k Hk [<-|[]]. destruct skip_categorical_var; [destruct Hk|].
      apply in_map_iff in Hk. destruct Hk as (r & Hk & _).
      now destruct (fisher_key_not_combined (name r)). }
  destruct Hck as [->|[-> _]]; [exact Hmid|].
  cbn [app]. constructor; [|exact Hmid].
  intros Hin. apply in_app_or in Hin. destruct Hin as [Hin|[Hin|[]]].
  - destruct skip_categorical_var; [destruct Hin|].
    apply in_map_iff in Hin. destruct Hin as (r & Hk & _).
    now destruct (fisher_key_not_chi (name r)).
  - discriminate.
Qed.

(** X13. For a table in which no group id contains "count", so that the
    columns the rate engine selects are the count columns: the keys of a
    returned bundle, in order, are the chi-squared record if there is one,
    then one Fisher key per categorical row with all its counts, in row order
    (none when the categorical test is skipped), then the combined record;
    no key occurs twice, and there is no chi-squared record when the
    continuous test is skipped. *)
Theorem run_test_pipeline_keys (json_data : Table1)
    (skip_continuous_var skip_categorical_var : bool)
    (random_seed : option Z) (out : bundle) :
  plain "count" (to_csv_wide json_data) = true ->
  run_test_pipeline F rng_state default_rng rng_after fisher_exact
    combine_pvalues json_data skip_continuous_var skip_categorical_var
    random_seed = Ok out ->
  NoDup (dict_keys out)
  /\ exists chi_keys,
       (chi_keys = [] \/ (chi_keys = ["cont_chi_squared_variance"]
                          /\ skip_continuous_var = false))
       /\ dict_keys out
          = (chi_keys
             ++ (if skip_categorical_var then []
                 else map (fun r => fisher_key (name r))
                          (categorical_rows (to_csv_wide json_data)))
             ++ ["fisher_method-combined"])%list.
Proof.
  intros _.
  exact (bundle_keys json_data skip_continuous_var skip_categorical_var
           random_seed out).
Qed.

(** X14. For a table in which no group id contains "count", so that the
    columns the rate engine selects are the count columns: in a returned
    bundle of a run with the categorical test enabled,
    every categorical row with all its counts has its Fisher record under
    ["fisher_test-{index}"]: the table [[count, sample_size - count]] of the
    groups in order, the row's variable name and the odds-ratio flag; and no
    count of such a row exceeds the sample size of its group. *)
Theorem run_test_pipeline_fisher_records (json_data : Table1)
    (skip_continuous_var : bool) (random_seed : option Z) (out : bundle)
    (r : WideRow) :
  plain "count" (to_csv_wide json_data) = true ->
  run_test_pipeline F rng_state default_rng rng_after fisher_exact
    combine_pvalues json_data skip_continuous_var false random_seed = Ok out ->
  In r (categorical_rows (to_csv_wide json_data)) ->
  (exists p_value test_stat,
     dict_get (fisher_key (name r)) out
     = Some (FisherRecord p_value test_stat
               (expected_table (sample_size_of json_data)
                               (dict_keys (sample_size_of json_data)) r)
               (col_Variable r)
               (Z.of_nat (List.length (dict_keys (sample_size_of json_data)))
                =? 2)%Z))
  /\ forall g, In g (dict_keys (sample_size_of json_data)) ->
               (count_of r g <= value_of g (sample_size_of json_data))%Z.
Proof.
  intros _ Hrun Hr.
  destruct (run_structure _ _ _ _ _ _ _ _ _ _ _ Hrun)
    as (chi & fisher & stat & p & -> & _ & _ & _ & Hchi & _ & Hrecs).
  destruct (Hrecs eq_refl) as [Hf Hle]. split; [|intros g; now apply Hle].
  destruct (fisher_entries_lookup _ _ _ r Hf (categorical_rows_names _) Hr)
    as (kv & _ & (pv & st & ->) & Hget).
  exists pv, st. rewrite dict_get_app.
  assert (Hc : dict_get (fisher_key (name r)) chi = None).
  { destruct Hchi as [->|(_ & cont & pc & sc & _ & _ & _ & ->)];
      [reflexivity|].
    cbn [dict_get].
    destruct (String.eqb (fisher_key (name r)) "cont_chi_squared_variance")
      eqn:E; [|reflexivity].
    apply String.eqb_eq in E. now destruct (fisher_key_not_chi (name r)). }
  rewrite Hc, dict_get_app, Hget. reflexivity.
Qed.

(** X15. In a returned bundle the p-value of the chi-squared record and of
    every Fisher record is a number between 0 and 1: a run with a p-value
    outside that range raises instead. *)
Theorem run_test_pipeline_pvalues_in_range (json_data : Table1)
    (skip_continuous_var skip_categorical_var : bool)
    (random_seed : option Z) (out : bundle) (key : string) (t : test_result) :
  run_test_pipeline F rng_state default_rng rng_after fisher_exact
    combine_pvalues json_data skip_continuous_var skip_categorical_var
    random_seed = Ok out ->
  dict_get key out = Some t ->
  key <> "fisher_method-combined" ->
  exists x, p_value_of t = Fin x /\ 0 <= x <= 1.
Proof.
  intros Hrun Hget Hkey.
  destruct (run_structure _ _ _ _ _ _ _ _ _ _ _ Hrun)
    as (chi & fisher & stat & p & -> & _ & _ & Hvalid & _).
  rewrite app_assoc, dict_get_app in Hget.
  destruct (dict_get key (chi ++ fisher)%list) as [v|] eqn:E.
  - injection Hget as <-. apply dict_get_In_values in E.
    rewrite forallb_forall in Hvalid. apply valid_pvalue_spec, Hvalid.
    unfold p_values. unfold dict_values in E. apply in_map_iff in E.
    destruct E as (kv & <- & Hin). apply in_map_iff. now exists kv.
  - cbn [dict_get] in Hget.
    destruct (String.eqb key "fisher_method-combined") eqn:Ek; [|discriminate].
    apply String.eqb_eq in Ek. contradiction.
Qed.

(** X16. For a table in which no group id contains "count", so that the
    columns the rate engine selects are the count columns: a run with the
    categorical test enabled raises when some categorical row with all its
    counts reports, for some group, a count above the group's sample
    size. *)
Theorem run_test_pipeline_count_exceeds (json_data : Table1)
    (skip_continuous_var : bool) (random_seed : option Z)
    (r : WideRow) (g : string) :
  plain "count" (to_csv_wide json_data) = true ->
  In r (categorical_rows (to_csv_wide json_data)) ->
  In g (dict_keys (sample_size_of json_data)) ->
  (value_of g (sample_size_of json_data) < count_of r g)%Z ->
  exists e,
    run_test_pipeline F rng_state default_rng rng_after fisher_exact
      combine_pvalues json_data skip_continuous_var false random_seed = Err e.
Proof.
  intros _ Hr Hg Hlt.
  destruct (run_test_pipeline F rng_state default_rng rng_after fisher_exact
              combine_pvalues json_data skip_continuous_var false random_seed)
    as [out|e] eqn:Hrun; [|now exists e].
  destruct (run_structure _ _ _ _ _ _ _ _ _ _ _ Hrun)
    as (chi & fisher & stat & p & _ & _ & _ & _ & _ & _ & Hrecs).
  destruct (Hrecs eq_refl) as [_ Hle]. specialize (Hle r g Hr Hg). lia.
Qed.

(** X17. A returned bundle has a chi-squared record only if the continuous
    test was enabled and the engine returned at least one row; the record then
    holds the z-scores pooled from the engine's frame and what
    [chi_square_variance_test] returns on them with [sigma0 = 1]. *)
Theorem run_test_pipeline_chi_record (json_data : Table1)
    (skip_continuous_var skip_categorical_var : bool)
    (random_seed : option Z) (out : bundle) (t : test_result) :
  run_test_pipeline F rng_state default_rng rng_after fisher_exact
    combine_pvalues json_data skip_continuous_var skip_categorical_var
    random_seed = Ok out ->
  dict_get "cont_chi_squared_variance" out = Some t ->
  skip_continuous_var = false
  /\ exists cont p_value test_stat,
       process_continuous_variables_mean (Some (to_csv_wide json_data))
         (sample_size_of json_data) = Ok cont
       /\ (0 < frame_len cont)%Z
       /\ chi_square_variance_test F (Some (flatten_zscores cont)) (Fin 1)
          = Ok (p_value, test_stat)
       /\ t = ChiSquaredRecord p_value test_stat (flatten_zscores cont).
Proof.
  intros Hrun Hget.
  destruct (run_structure _ _ _ _ _ _ _ _ _ _ _ Hrun)
    as (chi & fisher & stat & p & -> & _ & _ & _ & Hchi & Hskip & Hrecs).
  destruct Hchi as [->|(Hs & cont & pc & sc & Hok & Hlen & Htest & ->)].
  - exfalso. cbn [app] in Hget. rewrite dict_get_app in Hget.
    assert (Hf : dict_get "cont_chi_squared_variance" fisher = None).
    { destruct skip_categorical_var.
      - now rewrite Hskip.
      - destruct (Hrecs eq_refl) as [Hf _]. apply dict_get_None_keys.
        rewrite (fisher_entries_keys _ _ _ Hf). intros Hin.
        apply in_map_iff in Hin. destruct Hin as (r & Hk & _).
        now destruct (fisher_key_not_chi (name r)). }
    rewrite Hf in Hget. discriminate.
  - cbn [app dict_get] in Hget. injection Hget as <-.
    split; [exact Hs|]. now exists cont, pc, sc.
Qed.

End BundleContents.

Lemma run_test_pipeline_keys_witness :
  NoDup ["fisher_test-0"; "fisher_method-combined"]
  /\ exists chi_keys,
       (chi_keys = [] \/ (chi_keys = ["cont_chi_squared_variance"]
                          /\ false = false))
       /\ ["fisher_test-0"; "fisher_method-combined"]
          = (chi_keys
             ++ map (fun r => fisher_key (name r))
                    (categorical_rows (to_csv_wide smoker_table))
             ++ ["fisher_method-combined"])%list.
Proof.
  exact (run_test_pipeline_keys chi2_cdf_two_df unit unit_rng unit_rng_after
           fixed_fisher_exact fixed_combine_pvalues smoker_table false false
           None _ eq_refl smoker_run).
Defined.

Lemma run_test_pipeline_fisher_records_witness :
  (exists p_value test_stat,
     dict_get "fisher_test-0"
       [("fisher_test-0",
         FisherRecord (Fin (1 / 2)) (Fin 1) [[12; 38]; [15; 35]]%Z
                      "smoker (Yes)" true);
        ("fisher_method-combined", CombinedRecord (Fin 1) (Fin 0))]
     = Some (FisherRecord p_value test_stat [[12; 38]; [15; 35]]%Z
               "smoker (Yes)" true))
  /\ forall g, In g ["treatment"; "control"] ->
               (count_of (wide_record 0 (smoker_row (Some 12%Z) (Some 15%Z))) g
                <= value_of g fifty_each)%Z.
Proof.
  apply (run_test_pipeline_fisher_records chi2_cdf_two_df unit unit_rng
           unit_rng_after fixed_fisher_exact fixed_combine_pvalues
           smoker_table false None _
           (wide_record 0 (smoker_row (Some 12%Z) (Some 15%Z))) eq_refl
           smoker_run).
  left. reflexivity.
Defined.

Lemma run_test_pipeline_pvalues_in_range_witness :
  exists x, Fin (1 / 2) = Fin x /\ 0 <= x <= 1.
Proof.
  apply (run_test_pipeline_pvalues_in_range chi2_cdf_two_df unit unit_rng
           unit_rng_after fixed_fisher_exact fixed_combine_pvalues
           smoker_table false false None _ "fisher_test-0"
           (FisherRecord (Fin (1 / 2)) (Fin 1) [[12; 38]; [15; 35]]%Z
                         "smoker (Yes)" true) smoker_run).
  - reflexivity.
  - discriminate.
Defined.

Lemma run_test_pipeline_count_exceeds_witness :
  exists e,
    run_test_pipeline chi2_cdf_two_df unit unit_rng unit_rng_after
      fixed_fisher_exact fixed_combine_pvalues impossible_table false false
      None = Err e.
Proof.
  apply (run_test_pipeline_count_exceeds chi2_cdf_two_df unit unit_rng
           unit_rng_after fixed_fisher_exact fixed_combine_pvalues
           impossible_table false None
           (wide_record 0 (smoker_row (Some 60%Z) (Some 15%Z))) "treatment").
  - reflexivity.
  - left. reflexivity.
  - left. reflexivity.
  - vm_compute. reflexivity.
Defined.

(* ------------------------------------------------------------------------- *)
(** * A run with a chi-squared record *)

Lemma row_zscore_fin d sample_size r g m pm s :
  (0 < value_of g sample_size)%Z ->
  c_mean (cell r g) = Fin m ->
  row_mean r (blocks d) = Fin pm ->
  effective_sd g (value_of g sample_size) r = Fin s ->
  s <> 0 ->
  row_zscore d sample_size r g
  = Fin ((m - pm) / (s / sqrt (IZR (value_of g sample_size)))).
Proof.
  intros Hn Hm Hpm Hsd Hs. unfold row_zscore. rewrite Hm, Hpm, Hsd.
  destruct (sqrt_sample_size _ Hn) as [-> Hpos].
  rewrite fdiv_fin by lra. rewrite fsub_fin. apply fdiv_fin.
  intros H. apply Hs.
  apply (Rmult_eq_reg_r (/ sqrt (IZR (value_of g sample_size))));
    [|apply Rinv_neq_0_compat; lra].
  rewrite Rmult_0_l. exact H.
Qed.

Section ContinuousRun.

Variable F : Z -> R -> R.
Variable rng_state : Type.
Variable default_rng : option Z -> rng_state.
Variable rng_after : list (list Z) -> rng_state -> rng_state.
Variable fisher_exact :
  list (list Z) -> option rng_state -> result (float * float).
Variable combine_pvalues : list float -> result (float * float).
Hypothesis F_range : forall df x, 0 <= F df x <= 1.

(** With the categorical test skipped, a run whose engine returns rows with
    at least two finite z-scores, in float64 columns, returns the chi-squared
    record and the combined one. *)
Lemma continuous_only_run json_data cont zs random_seed stat p :
  total_of (sample_size_of json_data) <> 0%Z ->
  process_continuous_variables_mean (Some (to_csv_wide json_data))
    (sample_size_of json_data) = Ok (Some cont) ->
  df_rows cont <> [] ->
  object_zscores (Some cont) (dict_keys (sample_size_of json_data)) = false ->
  flatten_zscores (Some cont) = map Fin zs ->
  (2 <= List.length zs)%nat ->
  combine_pvalues
    [Fin (2 * Rmin (F (Z.of_nat (List.length zs) - 1)
                      (chi2_statistic zs (Fin 1)))
                   (1 - F (Z.of_nat (List.length zs) - 1)
                          (chi2_statistic zs (Fin 1))))]
  = Ok (stat, p) ->
  run_test_pipeline F rng_state default_rng rng_after fisher_exact
    combine_pvalues json_data false true random_seed
  = Ok [("cont_chi_squared_variance",
         ChiSquaredRecord
           (Fin (2 * Rmin (F (Z.of_nat (List.length zs) - 1)
                             (chi2_statistic zs (Fin 1)))
                          (1 - F (Z.of_nat (List.length zs) - 1)
                                 (chi2_statistic zs (Fin 1)))))
           (Fin (chi2_statistic zs (Fin 1))) (map Fin zs));
        ("fisher_method-combined", CombinedRecord p stat)].
Proof.
  intros Htotal Hok Hrows Hfloat Hz Hlen Hcomb.
  unfold run_test_pipeline, collect_tests.
  apply Z.eqb_neq in Htotal. rewrite Htotal.
  unfold continuous_test. rewrite Hok. cbn [bind]. rewrite Hz, Hfloat.
  unfold chi_square_variance_test_array. cbn [andb].
  assert (Hl : (0 <? frame_len (Some cont))%Z = true).
  { apply Z.ltb_lt. cbn [frame_len]. unfold len.
    destruct (df_rows cont); [contradiction|]. cbn [List.length]. lia. }
  assert (Hn : (0 <? Z.of_nat (List.length (map Fin zs)))%Z = true).
  { apply Z.ltb_lt. rewrite length_map. lia. }
  rewrite Hl, Hn. cbn [andb].
  assert (Hsigma : flt (Fin 0) (Fin 1) = true) by (apply Rltb_true; lra).
  rewrite (chi_square_value F zs (Fin 1) Hlen Hsigma).
  cbn [bind categorical_test app dict_set]. unfold combine.
  cbn [List.length Z.of_nat Z.eqb forallb].
  assert (Hv : valid_pvalue
                 (Fin (2 * Rmin (F (Z.of_nat (List.length zs) - 1)
                                   (chi2_statistic zs (Fin 1)))
                                (1 - F (Z.of_nat (List.length zs) - 1)
                                       (chi2_statistic zs (Fin 1)))))
               = true).
  { pose proof (two_tailed_range _ (F_range (Z.of_nat (List.length zs) - 1)
                                            (chi2_statistic zs (Fin 1)))) as H.
    unfold valid_pvalue. apply andb_true_iff.
    split; apply fle_fin; lra. }
  rewrite Hv. cbn [andb negb]. rewrite Hcomb. reflexivity.
Qed.

End ContinuousRun.

(** Two groups and one continuous row with both sds reported. *)
Lemma age_run :
  exists p_value test_stat zscores,
    run_test_pipeline chi2_cdf_two_df unit unit_rng unit_rng_after
      fixed_fisher_exact fixed_combine_pvalues
      (age_table (Some 10) None None) false true None
    = Ok [("cont_chi_squared_variance",
           ChiSquaredRecord p_value test_stat zscores);
          ("fisher_method-combined", CombinedRecord (Fin 1) (Fin 0))].
Proof.
  assert (Hfine : forall r g n,
            In r (kept_rows (to_csv_wide (age_table (Some 10) None None))) ->
            dict_get g (sample_size_of (age_table (Some 10) None None))
            = Some n ->
            unusable g n r = false).
  { intros r g n [<-|[]] Hn. simpl in Hn.
    destruct (String.eqb g "treatment") eqn:Et.
    - apply String.eqb_eq in Et. injection Hn as <-. subst g.
      unfold unusable. rewrite (nonzero_sd_nonzero_sem _ _ _ 10);
        [reflexivity|lia|reflexivity|lra].
    - destruct (String.eqb g "control") eqn:Ec; [|discriminate].
      apply String.eqb_eq in Ec. injection Hn as <-. subst g.
      unfold unusable. rewrite (nonzero_sd_nonzero_sem _ _ _ 9);
        [reflexivity|lia|reflexivity|lra]. }
  destruct (engine_returns (to_csv_wide (age_table (Some 10) None None))
              (sample_size_of (age_table (Some 10) None None)))
    as [cont Hok]; try exact Hfine.
  - reflexivity.
  - discriminate.
  - repeat constructor.
  - apply sample_size_of_NoDup.
  - intros g [<-|[<-|[]]]; simpl; auto.
  - pose proof (flatten_zscores_rows _ _ _ (sample_size_of_NoDup _)
                  (to_csv_wide_fresh _) Hok) as Hflat.
    assert (Hmean : row_mean (wide_record 0 (age_row (Some 10) None None))
                      (blocks (to_csv_wide (age_table (Some 10) None None)))
                    = Fin ((0 + 60 + 58) / 2)).
    { unfold row_mean. cbn. apply fdiv_fin. lra. }
    assert (Hzs : flatten_zscores (Some cont)
                  = map Fin
                      [(60 - (0 + 60 + 58) / 2) / (10 / sqrt (IZR 50));
                       (58 - (0 + 60 + 58) / 2) / (9 / sqrt (IZR 50))]).
    { rewrite Hflat.
      change (kept_rows (to_csv_wide (age_table (Some 10) None None)))
        with [wide_record 0 (age_row (Some 10) None None)].
      change (dict_keys (sample_size_of (age_table (Some 10) None None)))
        with ["treatment"; "control"].
      cbn [flat_map map app].
      rewrite (row_zscore_fin
                 (to_csv_wide (age_table (Some 10) None None))
                 (sample_size_of (age_table (Some 10) None None))
                 (wide_record 0 (age_row (Some 10) None None))
                 "treatment" 60 _ 10 eq_refl eq_refl Hmean eq_refl) by lra.
      rewrite (row_zscore_fin
                 (to_csv_wide (age_table (Some 10) None None))
                 (sample_size_of (age_table (Some 10) None None))
                 (wide_record 0 (age_row (Some 10) None None))
                 "control" 58 _ 9 eq_refl eq_refl Hmean eq_refl) by lra.
      reflexivity. }
    eexists _, _, _.
    apply (continuous_only_run chi2_cdf_two_df unit unit_rng unit_rng_after
             fixed_fisher_exact fixed_combine_pvalues chi2_cdf_two_df_range
             (age_table (Some 10) None None) cont
             [(60 - (0 + 60 + 58) / 2) / (10 / sqrt (IZR 50));
              (58 - (0 + 60 + 58) / 2) / (9 / sqrt (IZR 50))]
             None (Fin 0) (Fin 1)).
    + discriminate.
    + exact Hok.
    + destruct (engine_rows _ _ _ (sample_size_of_NoDup _) Hok) as [_ Hrows].
      inversion Hrows; discriminate.
    + destruct (engine_ok_inv (to_csv_wide (age_table (Some 10) None None))
                  _ _ eq_refl Hok) as (mean_df & _ & [= ->]).
      reflexivity.
    + exact Hzs.
    + cbn [List.length]. lia.
    + reflexivity.
Qed.

Lemma run_test_pipeline_chi_record_witness :
  exists p_value test_stat zscores,
    false = false
    /\ exists cont p_value' test_stat',
         process_continuous_variables_mean
           (Some (to_csv_wide (age_table (Some 10) None None)))
           (sample_size_of (age_table (Some 10) None None)) = Ok cont
         /\ (0 < frame_len cont)%Z
         /\ chi_square_variance_test chi2_cdf_two_df
              (Some (flatten_zscores cont)) (Fin 1)
            = Ok (p_value', test_stat')
         /\ ChiSquaredRecord p_value test_stat zscores
            = ChiSquaredRecord p_value' test_stat' (flatten_zscores cont).
Proof.
  destruct age_run as (p_value & test_stat & zscores & Hrun).
  exists p_value, test_stat, zscores.
  apply (run_test_pipeline_chi_record chi2_cdf_two_df unit unit_rng
           unit_rng_after fixed_fisher_exact fixed_combine_pvalues
           (age_table (Some 10) None None) false true None _ _ Hrun).
  reflexivity.
Defined.


(* ------------------------------------------------------------------------- *)
(** * The report collector *)

Lemma filter_length_bound {A} (f : A -> bool) l :
  (List.length (filter f l) <= List.length l)%nat.
Proof.
  induction l as [|a l IH]; simpl; [lia|]. destruct (f a); simpl; lia.
Qed.

Lemma filter_snoc {A} (f : A -> bool) l a :
  filter f (l ++ [a])%list
  = (filter f l ++ (if f a then [a] else []))%list.
Proof. rewrite filter_app. reflexivity. Qed.

(** X18. The summary statistics of any list of results: the papers are the
    successful and the failed ones, the flagged papers are among the
    successful ones, and the flagged rate is the quotient of the two counts,
    a number between 0 and 1, and 0 when no analysis succeeded. *)
Theorem get_summary_stats_invariants (results : list Report.PaperResult) :
  let s := Report.get_summary_stats results in
  (Report.total_papers s
   = Report.successful_analyses s + Report.failed_analyses s)%Z
  /\ (0 <= Report.failed_analyses s)%Z
  /\ (0 <= Report.flagged_papers s <= Report.successful_analyses s)%Z
  /\ exists x,
       Report.flagged_rate s = Fin x
       /\ 0 <= x <= 1
       /\ (Report.successful_analyses s = 0%Z -> x = 0)
       /\ x * IZR (Report.successful_analyses s)
          = IZR (Report.flagged_papers s).
Proof.
  cbn zeta. unfold Report.get_summary_stats.
  cbn [Report.total_papers Report.successful_analyses Report.failed_analyses
       Report.flagged_papers Report.flagged_rate].
  pose proof (filter_length_bound Report.succeeded results) as Hs.
  pose proof (filter_length_bound Report.is_flagged
                (filter Report.succeeded results)) as Hf.
  split; [lia|]. split; [lia|]. split; [lia|].
  destruct (filter Report.succeeded results) as [|r successful] eqn:E.
  - exists 0. cbn. repeat split; try lra; try reflexivity.
  - set (n := List.length (r :: successful)) in *.
    set (k := List.length (filter Report.is_flagged (r :: successful))) in *.
    assert (Hn : (0 < n)%nat) by (unfold n; cbn; lia).
    assert (Hn' : 0 < IZR (Z.of_nat n)) by (apply (IZR_lt 0); lia).
    assert (Hk : 0 <= IZR (Z.of_nat k) <= IZR (Z.of_nat n)).
    { split; [apply (IZR_le 0)|apply IZR_le]; lia. }
    exists (IZR (Z.of_nat k) / IZR (Z.of_nat n)).
    split; [unfold of_Z; apply fdiv_fin; lra|].
    split; [|split].
    + split.
      * apply Rmult_le_pos; [lra|]. left. now apply Rinv_0_lt_compat.
      * apply (Rmult_le_reg_r (IZR (Z.of_nat n))); [exact Hn'|].
        unfold Rdiv. rewrite Rmult_assoc, Rinv_l by lra. lra.
    + lia.
    + unfold Rdiv. rewrite Rmult_assoc, Rinv_l by lra. lra.
Qed.

Lemma add_result_appends results paper_id source title test_output plot_path
    error results' :
  Report.add_result results paper_id source title test_output plot_path error
  = Ok results' ->
  exists r,
    results' = (results ++ [r])%list
    /\ Report.paper_id r = paper_id
    /\ Report.source r = source
    /\ Report.title r = title
    /\ Report.error r = error
    /\ (Report.nonempty test_output && negb (Report.truthy error) = false ->
        Report.combined_p_value r = None
        /\ Report.chi_squared_p_value r = None
        /\ Report.chi_squared_n_zscores r = 0%Z
        /\ Report.fisher_tests_count r = 0%Z
        /\ Report.fisher_p_values r = []
        /\ Report.plot_path r = None)
    /\ (Report.nonempty test_output && negb (Report.truthy error) = true ->
        exists out,
          test_output = Some out
          /\ Report.combined_p_value r
             = option_map p_value_of (dict_get "fisher_method-combined" out)
          /\ Report.plot_path r = plot_path).
Proof.
  unfold Report.add_result. intros H.
  destruct (Report.nonempty test_output && negb (Report.truthy error)) eqn:E.
  - destruct test_output as [out|]; [|discriminate].
    destruct (match dict_get "cont_chi_squared_variance" out with
              | Some chi_sq =>
                  zscores <- Report.zscores_of chi_sq ;;
                  Ok (Some (p_value_of chi_sq),
                      Z.of_nat (List.length zscores))
              | None => Ok (None, 0%Z)
              end) as [[chi_p chi_n]|e]; [|discriminate].
    cbn [bind] in H.
    destruct (Report.p_values_at out
                (filter (String.prefix "fisher_test") (dict_keys out)))
      as [ps|e]; [|discriminate].
    cbn [bind] in H. injection H as <-.
    eexists. split; [reflexivity|]. cbn.
    do 4 (split; [reflexivity|]). split; [discriminate|].
    intros _. exists out. split; [reflexivity|]. split; [|reflexivity].
    destruct (dict_get "fisher_method-combined" out); reflexivity.
  - cbn [bind] in H. injection H as <-.
    eexists. split; [reflexivity|]. cbn.
    do 4 (split; [reflexivity|]). split; [|discriminate].
    intros _. repeat split.
Qed.

(** X19. What one [add_result] does to the summary: one more paper; with an
    error message, even an empty one, one more failed analysis and nothing
    else; without one, one more successful analysis, which is flagged exactly
    when the bundle is not empty and its combined p-value is below 0.05. *)
Theorem add_result_summary (results : list Report.PaperResult)
    (paper_id source : string) (title : option string)
    (test_output : option bundle) (plot_path error : option string)
    (results' : list Report.PaperResult) :
  Report.add_result results paper_id source title test_output plot_path error
  = Ok results' ->
  let s := Report.get_summary_stats results in
  let s' := Report.get_summary_stats results' in
  Report.total_papers s' = (Report.total_papers s + 1)%Z
  /\ (error <> None ->
      Report.successful_analyses s' = Report.successful_analyses s
      /\ Report.failed_analyses s' = (Report.failed_analyses s + 1)%Z
      /\ Report.flagged_papers s' = Report.flagged_papers s)
  /\ (error = None ->
      Report.successful_analyses s' = (Report.successful_analyses s + 1)%Z
      /\ Report.failed_analyses s' = Report.failed_analyses s
      /\ ((exists out t,
             test_output = Some out
             /\ dict_get "fisher_method-combined" out = Some t
             /\ flt (p_value_of t) (Fin 0.05) = true) ->
          Report.flagged_papers s' = (Report.flagged_papers s + 1)%Z)
      /\ (~ (exists out t,
               test_output = Some out
               /\ dict_get "fisher_method-combined" out = Some t
               /\ flt (p_value_of t) (Fin 0.05) = true) ->
          Report.flagged_papers s' = Report.flagged_papers s)).
Proof.
  intros H. cbn zeta.
  destruct (add_result_appends _ _ _ _ _ _ _ _ H)
    as (r & -> & _ & _ & _ & Herr & Hno & Hyes).
  unfold Report.get_summary_stats.
  cbn [Report.total_papers Report.successful_analyses Report.failed_analyses
       Report.flagged_papers].
  rewrite (filter_snoc Report.succeeded).
  assert (Hsucc : Report.succeeded r
                  = match error with None => true | Some _ => false end).
  { unfold Report.succeeded. now rewrite Herr. }
  rewrite Hsucc. rewrite !length_app. cbn [List.length].
  split; [lia|]. split.
  - intros Hsome. destruct error as [msg|]; [|contradiction].
    rewrite app_nil_r. cbn [List.length]. repeat split; lia.
  - intros ->. rewrite (filter_snoc Report.is_flagged), !length_app.
    cbn [List.length]. split; [lia|]. split; [lia|].
    assert (Hflag : Report.is_flagged r = true <->
                    exists out t,
                      test_output = Some out
                      /\ dict_get "fisher_method-combined" out = Some t
                      /\ flt (p_value_of t) (Fin 0.05) = true).
    { unfold Report.is_flagged.
      destruct (Report.nonempty test_output && negb (Report.truthy None))
        eqn:E.
      - destruct (Hyes eq_refl) as (out & -> & -> & _).
        destruct (dict_get "fisher_method-combined" out) as [t|] eqn:Et; cbn.
        + split.
          * intros Hp. now exists out, t.
          * intros (out' & t' & [= <-] & Ht' & Hp).
            rewrite Et in Ht'. now injection Ht' as <-.
        + split; [discriminate|].
          intros (out' & t' & [= <-] & Ht' & _).
          rewrite Et in Ht'. discriminate.
      - destruct (Hno eq_refl) as (-> & _). split; [discriminate|].
        intros (out & t & -> & Ht & _).
        destruct out; [discriminate|]. discriminate. }
    split.
    + intros Hex. rewrite (proj2 Hflag Hex). cbn [List.length]. lia.
    + intros Hnex. destruct (Report.is_flagged r) eqn:Ef.
      * destruct Hnex. now apply Hflag.
      * cbn [List.length]. lia.
Qed.

Lemma prefix_fisher_key i : String.prefix "fisher_test" (fisher_key i) = true.
Proof. reflexivity. Qed.

Lemma dict_get_In_NoDup {V} k (v : V) d :
  NoDup (dict_keys d) -> In (k, v) d -> dict_get k d = Some v.
Proof.
  induction d as [|[k' v'] d IH]; intros Hnd Hin; [destruct Hin|].
  cbn [dict_keys map fst] in Hnd. inversion Hnd as [|? ? Hk Hnd']; subst.
  cbn [dict_get]. destruct Hin as [[= -> ->]|Hin].
  - now rewrite String.eqb_refl.
  - destruct (String.eqb k k') eqn:E; [|now apply IH].
    apply String.eqb_eq in E. subst k'. exfalso. apply Hk.
    apply in_map_iff. now exists (k, v).
Qed.

Lemma p_values_at_keys out recs :
  NoDup (dict_keys out) ->
  (forall kv, In kv recs -> In kv out) ->
  Report.p_values_at out (dict_keys recs) = Ok (p_values recs).
Proof.
  intros Hnd. induction recs as [|[k t] recs IH]; intros Hin; [reflexivity|].
  cbn [dict_keys map fst Report.p_values_at]. unfold dict_lookup.
  rewrite (dict_get_In_NoDup k t out Hnd) by (apply Hin; now left).
  cbn [bind]. fold (dict_keys recs).
  rewrite IH by (intros kv Hkv; apply Hin; now right). reflexivity.
Qed.

Lemma filter_none {A} (f : A -> bool) l :
  (forall x, In x l -> f x = false) -> filter f l = [].
Proof.
  induction l as [|a l IH]; intros H; [reflexivity|].
  cbn [filter]. rewrite (H a) by now left.
  apply IH. intros x Hx. apply H. now right.
Qed.

Lemma fisher_p_values_rows json_data cat_rows recs (out : bundle) :
  Forall2 (fisher_entry json_data) cat_rows recs ->
  NoDup (dict_keys out) ->
  (forall kv, In kv recs -> In kv out) ->
  Forall2 (fun row q =>
             exists t, dict_get (fisher_key (name row)) out = Some t
                       /\ q = p_value_of t)
          cat_rows (p_values recs).
Proof.
  intros Hf Hnd. induction Hf as [|row kv rows recs Hrow _ IH]; intros Hin.
  - constructor.
  - cbn [p_values map]. constructor.
    + destruct Hrow as (pv & st & ->). eexists. split; [|reflexivity].
      apply dict_get_In_NoDup; [exact Hnd|]. apply Hin. now left.
    + apply IH. intros kv' Hkv'. apply Hin. now right.
Qed.

Section ReportOfRun.

Variable F : Z -> R -> R.
Variable rng_state : Type.
Variable default_rng : option Z -> rng_state.
Variable rng_after : list (list Z) -> rng_state -> rng_state.
Variable fisher_exact :
  list (list Z) -> option rng_state -> result (float * float).
Variable combine_pvalues : list float -> result (float * float).

Lemma add_run_output (json_data : Table1)
    (skip_continuous_var skip_categorical_var : bool)
    (random_seed : option Z) (out : bundle)
    (results : list Report.PaperResult) (paper_id source : string)
    (title plot_path : option string) :
  run_test_pipeline F rng_state default_rng rng_after fisher_exact
    combine_pvalues json_data skip_continuous_var skip_categorical_var
    random_seed = Ok out ->
  exists r,
    Report.add_result results paper_id source title (Some out) plot_path None
    = Ok (results ++ [r])%list
    /\ Report.error r = None
    /\ Report.plot_path r = plot_path
    /\ (exists p stat,
          dict_get "fisher_method-combined" out = Some (CombinedRecord p stat)
          /\ Report.combined_p_value r = Some p)
    /\ Report.fisher_tests_count r
       = Z.of_nat (List.length
                     (if skip_categorical_var then []
                      else categorical_rows (to_csv_wide json_data)))
    /\ Forall2 (fun row p =>
                  exists t, dict_get (fisher_key (name row)) out = Some t
                            /\ p = p_value_of t)
               (if skip_categorical_var then []
                else categorical_rows (to_csv_wide json_data))
               (Report.fisher_p_values r)
    /\ match dict_get "cont_chi_squared_variance" out with
       | Some t =>
           exists p stat zscores,
             t = ChiSquaredRecord p stat zscores
             /\ Report.chi_squared_p_value r = Some p
             /\ Report.chi_squared_n_zscores r
                = Z.of_nat (List.length zscores)
       | None =>
           Report.chi_squared_p_value r = None
           /\ Report.chi_squared_n_zscores r = 0%Z
       end.
Proof.
  intros Hrun.
  destruct (bundle_keys F rng_state default_rng rng_after fisher_exact
              combine_pvalues _ _ _ _ _ Hrun) as (Hnd & _).
  destruct (run_structure F rng_state default_rng rng_after fisher_exact
              combine_pvalues _ _ _ _ _ Hrun)
    as (chi & fisher & stat & p & Hout & _ & _ & _ & Hchi & Hskip & Hrecs).
  assert (Hf : Forall2 (fisher_entry json_data)
                 (if skip_categorical_var then []
                  else categorical_rows (to_csv_wide json_data)) fisher).
  { destruct skip_categorical_var.
    - rewrite (Hskip eq_refl). constructor.
    - now destruct (Hrecs eq_refl). }
  assert (HinF : forall kv, In kv fisher -> In kv out).
  { intros kv Hkv. rewrite Hout. apply in_or_app. right.
    apply in_or_app. now left. }
  assert (Hcomb : dict_get "fisher_method-combined" out
                  = Some (CombinedRecord p stat)).
  { apply dict_get_In_NoDup; [exact Hnd|]. rewrite Hout.
    apply in_or_app. right. apply in_or_app. right. now left. }
  assert (Hfk : forall k, In k (dict_keys fisher) ->
                          String.prefix "fisher_test" k = true).
  { intros k Hk. rewrite (fisher_entries_keys _ _ _ Hf) in Hk.
    apply in_map_iff in Hk. destruct Hk as (row & <- & _).
    apply prefix_fisher_key. }
  assert (Hfilter : filter (String.prefix "fisher_test") (dict_keys out)
                    = dict_keys fisher).
  { rewrite Hout. unfold dict_keys. rewrite !map_app, !filter_app.
    rewrite (filter_all _ (map fst fisher) Hfk). cbn [map filter fst].
    change (String.prefix "fisher_test" "fisher_method-combined") with false.
    rewrite app_nil_r.
    destruct Hchi as [->|(_ & cont & pc & sc & _ & _ & _ & ->)]; reflexivity. }
  assert (Hne : Report.nonempty (Some out) = true).
  { rewrite Hout. destruct chi; [destruct fisher|]; reflexivity. }
  assert (Hps : Forall2 (fun row q =>
                           exists t, dict_get (fisher_key (name row)) out
                                     = Some t /\ q = p_value_of t)
                        (if skip_categorical_var then []
                         else categorical_rows (to_csv_wide json_data))
                        (p_values fisher)).
  { exact (fisher_p_values_rows _ _ _ _ Hf Hnd HinF). }
  assert (Hcount : List.length (dict_keys fisher)
                   = List.length
                       (if skip_categorical_var then []
                        else categorical_rows (to_csv_wide json_data))).
  { rewrite (fisher_entries_keys _ _ _ Hf). apply length_map. }
  unfold Report.add_result. rewrite Hne. cbn [Report.truthy negb andb].
  rewrite Hcomb, Hfilter, (p_values_at_keys out fisher Hnd HinF).
  destruct Hchi as [->|(_ & cont & pc & sc & _ & _ & _ & ->)].
  - assert (Hnone : dict_get "cont_chi_squared_variance" out = None).
    { apply dict_get_None_keys. rewrite Hout. cbn [app].
      unfold dict_keys. rewrite map_app. intros Hin.
      apply in_app_or in Hin. destruct Hin as [Hin|[Hin|[]]].
      - apply Hfk in Hin. discriminate.
      - discriminate. }
    rewrite Hnone. cbn [bind]. eexists. split; [reflexivity|].
    cbn [Report.error Report.plot_path Report.combined_p_value
         Report.fisher_tests_count Report.fisher_p_values
         Report.chi_squared_p_value Report.chi_squared_n_zscores p_value_of].
    rewrite Hcount.
    repeat (split; [reflexivity|]). split; [now exists p, stat|].
    split; [reflexivity|]. split; [exact Hps|]. split; reflexivity.
  - assert (Hsome : dict_get "cont_chi_squared_variance" out
                    = Some (ChiSquaredRecord pc sc (flatten_zscores cont))).
    { rewrite Hout. reflexivity. }
    rewrite Hsome. cbn [bind Report.zscores_of]. eexists.
    split; [reflexivity|].
    cbn [Report.error Report.plot_path Report.combined_p_value
         Report.fisher_tests_count Report.fisher_p_values
         Report.chi_squared_p_value Report.chi_squared_n_zscores p_value_of].
    rewrite Hcount.
    repeat (split; [reflexivity|]). split; [now exists p, stat|].
    split; [reflexivity|]. split; [exact Hps|].
    exists pc, sc, (flatten_zscores cont). repeat split.
Qed.

(** X20. For a table in which no group id contains "count", so that the
    columns the rate engine selects are the count columns: adding a returned
    bundle to the collector without an error message
    never raises.  The new result holds the combined p-value of the bundle,
    the number of Fisher tests, which is the number of categorical rows with
    all their counts (0 when the categorical test was skipped), their
    p-values in row order, and the p-value of the chi-squared record with the
    number of its z-scores if the bundle has one. *)
Theorem add_result_of_run (json_data : Table1)
    (skip_continuous_var skip_categorical_var : bool)
    (random_seed : option Z) (out : bundle)
    (results : list Report.PaperResult) (paper_id source : string)
    (title plot_path : option string) :
  plain "count" (to_csv_wide json_data) = true ->
  run_test_pipeline F rng_state default_rng rng_after fisher_exact
    combine_pvalues json_data skip_continuous_var skip_categorical_var
    random_seed = Ok out ->
  exists r,
    Report.add_result results paper_id source title (Some out) plot_path None
    = Ok (results ++ [r])%list
    /\ Report.error r = None
    /\ Report.plot_path r = plot_path
    /\ (exists p stat,
          dict_get "fisher_method-combined" out = Some (CombinedRecord p stat)
          /\ Report.combined_p_value r = Some p)
    /\ Report.fisher_tests_count r
       = Z.of_nat (List.length
                     (if skip_categorical_var then []
                      else categorical_rows (to_csv_wide json_data)))
    /\ Forall2 (fun row p =>
                  exists t, dict_get (fisher_key (name row)) out = Some t
                            /\ p = p_value_of t)
               (if skip_categorical_var then []
                else categorical_rows (to_csv_wide json_data))
               (Report.fisher_p_values r)
    /\ match dict_get "cont_chi_squared_variance" out with
       | Some t =>
           exists p stat zscores,
             t = ChiSquaredRecord p stat zscores
             /\ Report.chi_squared_p_value r = Some p
             /\ Report.chi_squared_n_zscores r
                = Z.of_nat (List.length zscores)
       | None =>
           Report.chi_squared_p_value r = None
           /\ Report.chi_squared_n_zscores r = 0%Z
       end.
Proof.
  intros _.
  exact (add_run_output json_data skip_continuous_var skip_categorical_var
           random_seed out results paper_id source title plot_path).
Qed.

End ReportOfRun.

Lemma add_result_summary_witness :
  Report.total_papers (Report.get_summary_stats [smoker_result])
  = (Report.total_papers (Report.get_summary_stats []) + 1)%Z.
Proof.
  exact (proj1 (add_result_summary [] "1" "smoker.json" None
                  (Some smoker_bundle) None None [smoker_result] eq_refl)).
Defined.

Lemma add_result_of_run_witness :
  exists r,
    Report.add_result [] "1" "smoker.json" None (Some smoker_bundle) None None
    = Ok [r]
    /\ Report.combined_p_value r = Some (Fin 1)
    /\ Report.fisher_tests_count r = 1%Z.
Proof.
  destruct (add_result_of_run chi2_cdf_two_df unit unit_rng unit_rng_after
              fixed_fisher_exact fixed_combine_pvalues smoker_table false
              false None smoker_bundle [] "1" "smoker.json" None None
              eq_refl smoker_run)
    as (r & Hadd & _ & _ & (p & stat & Hget & Hp) & Hcount & _).
  exists r. split; [exact Hadd|]. split; [|exact Hcount].
  rewrite Hp. now injection Hget as <- _.
Defined.


(* ------------------------------------------------------------------------- *)
(** * Validation of an extraction *)

Import ValidateOutput.

Ltac read_fields :=
  cbv [get dict_get String.eqb Ascii.eqb Bool.eqb json_of_float json_of_int
       json_of_str is_None is_int is_number is_str negb int_value].

Ltac read_fields_in H :=
  cbv [get dict_get String.eqb Ascii.eqb Bool.eqb] in H.

Lemma when_nil {E} (cond : bool) (e : E) : when cond e = [] <-> cond = false.
Proof. unfold when. destruct cond; split; congruence. Qed.

Lemma mem_false k l : mem k l = false <-> ~ In k l.
Proof.
  rewrite <- mem_In. destruct (mem k l); split; congruence.
Qed.

Lemma enumerate_from_cons {A} k (a : A) l :
  List.combine (seq k (List.length (a :: l))) (a :: l)
  = (k, a) :: List.combine (seq (S k) (List.length l)) l.
Proof. reflexivity. Qed.

Lemma app_nil_inv {A} (l1 l2 : list A) :
  (l1 ++ l2)%list = [] -> l1 = [] /\ l2 = [].
Proof. destruct l1; [auto|discriminate]. Qed.

Lemma groups_fold_sound blank gs :
  forall k errors seen errors' seen',
    fold_left (validate_group blank)
              (List.combine (seq k (List.length (map json_of_group gs)))
                            (map json_of_group gs))
              (errors, seen) = (errors', seen') ->
    exists E,
      errors' = (errors ++ E)%list
      /\ (E = [] ->
          seen' = (seen ++ map group_id gs)%list
          /\ (forall g, In g gs -> ~ In (group_id g) seen)
          /\ NoDup (map group_id gs)
          /\ Forall (valid_group blank) gs).
Proof.
  induction gs as [|g gs IH]; intros k errors seen errors' seen' H.
  - cbn in H. injection H as <- <-. exists []. rewrite !app_nil_r.
    split; [reflexivity|]. intros _. repeat split; try constructor.
    intros g [].
  - cbn [map] in H. rewrite enumerate_from_cons in H. cbn [fold_left] in H.
    unfold validate_group at 2 in H. cbn [json_of_group] in H.
    read_fields_in H. cbn [not_text is_int negb int_value] in H.
    destruct (mem (group_id g) seen) eqn:Em.
    + apply IH in H. destruct H as (E & -> & _).
      eexists. rewrite <- !app_assoc. split; [reflexivity|].
      cbn [app]. discriminate.
    + assert (Hadd : set_add (group_id g) seen = (seen ++ [group_id g])%list).
      { unfold set_add. now rewrite Em. }
      rewrite Hadd in H. apply IH in H. destruct H as (E & -> & HE).
      eexists. rewrite <- !app_assoc. split; [reflexivity|].
      cbn [app]. intros Hnil.
      apply app_nil_inv in Hnil. destruct Hnil as [Hl Hnil].
      apply app_nil_inv in Hnil. destruct Hnil as [Hs Hnil].
      apply when_nil in Hl.
      destruct (HE Hnil) as (-> & Hfresh & Hnd & Hall).
      apply mem_false in Em. rewrite <- app_assoc.
      split; [reflexivity|]. split; [|split].
      * intros g' [<-|Hg']; [exact Em|].
        intros Hin. apply (Hfresh g' Hg'). apply in_or_app. now left.
      * cbn [map]. constructor; [|exact Hnd].
        intros Hin. apply in_map_iff in Hin. destruct Hin as (g' & Heq & Hg').
        apply (Hfresh g' Hg'). apply in_or_app. right. rewrite Heq. now left.
      * constructor; [|exact Hall]. split; [exact Hl|].
        destruct (sample_size g <? 0)%Z eqn:Ez; [discriminate|].
        now apply Z.ltb_ge in Ez.
Qed.

Lemma is_None_float x : is_None (json_of_float x) = true <-> x = None.
Proof. destruct x; cbn; split; congruence. Qed.

Lemma not_None_float x : negb (is_None (json_of_float x)) = false <-> x = None.
Proof. destruct x; cbn; split; congruence. Qed.

Lemma categorical_errors_typed v :
  categorical_errors (value_members v) = [] ->
  (exists c, v_count v = Some c /\ (0 <= c)%Z)
  /\ v_mean v = None /\ v_median v = None /\ v_sd v = None
  /\ v_IQR_lower v = None /\ v_IQR_upper v = None
  /\ v_95CI_lower v = None /\ v_95CI_upper v = None.
Proof.
  unfold categorical_errors, value_members.
  cbv [get dict_get String.eqb Ascii.eqb Bool.eqb]. intros H.
  repeat (apply app_nil_inv in H;
          let Hw := fresh "Hw" in destruct H as [Hw H];
          apply when_nil, not_None_float in Hw).
  destruct (v_count v) as [c|]; [|discriminate].
  cbn in H. destruct (c <? 0)%Z eqn:Ec; [discriminate|].
  apply Z.ltb_ge in Ec. repeat split; try assumption. now exists c.
Qed.

Lemma continuous_errors_typed v :
  continuous_errors (value_members v) = [] ->
  (forall sd, v_sd v = Some sd -> flt sd (Fin 0) = false)
  /\ (forall lo hi, v_95CI_lower v = Some lo -> v_95CI_upper v = Some hi ->
                    flt hi lo = false).
Proof.
  unfold continuous_errors, value_members.
  cbv [get dict_get String.eqb Ascii.eqb Bool.eqb]. intros H.
  do 7 (apply app_nil_inv in H; destruct H as [_ H]).
  apply app_nil_inv in H. destruct H as [Hsd H].
  apply app_nil_inv in H. destruct H as [_ H].
  apply app_nil_inv in H. destruct H as [Hci _].
  apply when_nil in Hsd, Hci. split.
  - intros sd Es. rewrite Es in Hsd. exact Hsd.
  - intros lo hi El Eh. rewrite El, Eh in Hci. exact Hci.
Qed.

Lemma pvalue_errors_typed v :
  pvalue_errors (value_members v) = [] ->
  forall p, v_pvalue v = Some p ->
            flt p (Fin 0) = false /\ flt (Fin 1) p = false.
Proof.
  unfold pvalue_errors, value_members.
  cbv [get dict_get String.eqb Ascii.eqb Bool.eqb]. intros H p Ep.
  rewrite Ep in H. cbn in H. apply when_nil in H.
  now apply orb_false_iff in H.
Qed.

Lemma values_fold_sound blank group_ids vt vs :
  forall errors seen,
    exists E,
      fold_left (validate_value blank group_ids (JStr vt))
                (map json_of_value vs) (errors, seen)
      = ((errors ++ E)%list,
         fold_left (fun s v => set_add (v_group_id v) s) vs seen)
      /\ (E = [] ->
          (forall v, In v vs -> ~ In (v_group_id v) seen)
          /\ NoDup (map v_group_id vs)
          /\ fold_left (fun s v => set_add (v_group_id v) s) vs seen
             = (seen ++ map v_group_id vs)%list
          /\ Forall (entry_passes blank group_ids vt) vs).
Proof.
  induction vs as [|v vs IH]; intros errors seen.
  - exists []. cbn. rewrite !app_nil_r. split; [reflexivity|].
    intros _. repeat split; try constructor. intros v [].
  - cbn [map fold_left]. unfold validate_value at 2.
    cbn [json_of_value].
    set (e_gid := match get (value_members v) "group_id" with
                  | JStr gid =>
                      ((when (negb (mem gid group_ids)) (UnknownGroupId gid)
                        ++ when (mem gid seen) (DuplicateValueGroupId gid))%list,
                       set_add gid seen)
                  | _ => ([ValueInvalidGroupId], seen)
                  end).
    assert (He : e_gid
                 = ((when (negb (mem (v_group_id v) group_ids))
                          (UnknownGroupId (v_group_id v))
                     ++ when (mem (v_group_id v) seen)
                             (DuplicateValueGroupId (v_group_id v)))%list,
                    set_add (v_group_id v) seen)) by reflexivity.
    rewrite He. clear He e_gid.
    change (get (value_members v) "original") with (JStr (v_original v)).
    cbn [not_text equals_str].
    destruct (IH (errors
                  ++ (when (negb (mem (v_group_id v) group_ids))
                           (UnknownGroupId (v_group_id v))
                      ++ when (mem (v_group_id v) seen)
                              (DuplicateValueGroupId (v_group_id v)))
                  ++ when (blank (v_original v)) MissingOriginal
                  ++ (if String.eqb vt "Categorical"
                      then categorical_errors (value_members v) else [])
                  ++ (if String.eqb vt "Continuous"
                      then continuous_errors (value_members v) else [])
                  ++ pvalue_errors (value_members v))%list
                 (set_add (v_group_id v) seen)) as (E & -> & HE).
    eexists. rewrite <- !app_assoc. split; [reflexivity|].
    intros Hnil.
    apply app_nil_inv in Hnil. destruct Hnil as [Hk Hnil].
    apply app_nil_inv in Hnil. destruct Hnil as [Hd Hnil].
    apply app_nil_inv in Hnil. destruct Hnil as [Ho Hnil].
    apply app_nil_inv in Hnil. destruct Hnil as [Hcat Hnil].
    apply app_nil_inv in Hnil. destruct Hnil as [Hcont Hnil].
    apply app_nil_inv in Hnil. destruct Hnil as [Hp Hnil].
    apply when_nil in Hk, Hd, Ho. apply negb_false_iff, mem_In in Hk.
    apply mem_false in Hd.
    destruct (HE Hnil) as (Hfresh & Hnd & Hseen & Hall).
    assert (Hadd : set_add (v_group_id v) seen
                   = (seen ++ [v_group_id v])%list).
    { unfold set_add. now rewrite (proj2 (mem_false _ _) Hd). }
    rewrite Hadd in *. split; [|split; [|split]].
    + intros v' [<-|Hv']; [exact Hd|].
      intros Hin. apply (Hfresh v' Hv'). apply in_or_app. now left.
    + cbn [map]. constructor; [|exact Hnd].
      intros Hin. apply in_map_iff in Hin. destruct Hin as (v' & Heq & Hv').
      apply (Hfresh v' Hv'). apply in_or_app. right. rewrite Heq. now left.
    + rewrite Hseen, <- app_assoc. reflexivity.
    + constructor; [|exact Hall]. split; [exact Hk|]. split; [exact Ho|].
      split; [|split; [|exact Hp]].
      * intros ->. exact Hcat.
      * intros ->. exact Hcont.
Qed.

Lemma first_value_errors_typed v :
  first_value_errors (json_of_value v) = [] ->
  (v_mean v <> None \/ v_median v <> None)
  /\ (v_mean v <> None ->
      v_sd v <> None \/ (v_95CI_lower v <> None /\ v_95CI_upper v <> None)).
Proof.
  unfold first_value_errors, json_of_value, value_members.
  cbv [get dict_get String.eqb Ascii.eqb Bool.eqb]. intros H.
  apply app_nil_inv in H. destruct H as [H _].
  destruct (v_mean v) as [m|], (v_median v) as [md|]; cbn in H;
    try discriminate.
  - apply when_nil in H. split; [left; discriminate|]. intros _.
    destruct (v_sd v); [left; discriminate|]. right.
    destruct (v_95CI_lower v), (v_95CI_upper v); try discriminate.
    split; discriminate.
  - apply when_nil in H. split; [left; discriminate|]. intros _.
    destruct (v_sd v); [left; discriminate|]. right.
    destruct (v_95CI_lower v), (v_95CI_upper v); try discriminate.
    split; discriminate.
  - split; [right; discriminate|]. intros Hm. now destruct Hm.
Qed.

Lemma set_eq_covers a b :
  set_eq a b = true -> forall x, In x b -> In x a.
Proof.
  unfold set_eq. intros H x Hx. apply andb_true_iff in H.
  destruct H as [_ H]. rewrite forallb_forall in H.
  now apply mem_In, H.
Qed.

Lemma entry_passes_valid blank group_ids row v :
  entry_passes blank group_ids (variable_type row) v ->
  valid_entry blank group_ids row v.
Proof.
  intros (Hin & Ho & Hcat & Hcont & Hp).
  split; [exact Hin|]. split; [exact Ho|]. split; [|split].
  - intros Ht. apply categorical_errors_typed, Hcat, Ht.
  - intros Ht. apply continuous_errors_typed, Hcont, Ht.
  - now apply pvalue_errors_typed.
Qed.

Lemma row_errors_typed blank group_ids row :
  group_ids <> [] ->
  exists E,
    row_errors blank group_ids (row_members row) = Some E
    /\ (E = [] -> valid_row blank group_ids row).
Proof.
  intros Hgroups. unfold row_errors, row_members, valid_row.
  cbv [get dict_get String.eqb Ascii.eqb Bool.eqb].
  cbn [hashable negb not_text equals_str].
  destruct (values row) as [|first rest] eqn:Ev.
  - cbn [map]. eexists. split; [reflexivity|]. intros H.
    rewrite !app_assoc in H. now apply app_nil_inv in H.
  - cbn [map].
    destruct (all_values_null (json_of_value first
                               :: map json_of_value rest)).
    + eexists. split; [reflexivity|]. intros H.
      rewrite !app_assoc in H. now apply app_nil_inv in H.
    + change (json_of_value first :: map json_of_value rest)
        with (map json_of_value (first :: rest)).
      destruct (values_fold_sound blank group_ids (variable_type row)
                  (first :: rest) [] []) as (E & -> & HE).
      eexists. split; [reflexivity|]. intros H.
      apply app_nil_inv in H. destruct H as [Hhead H].
      apply app_nil_inv in H. destruct H as [Hfirst H].
      apply app_nil_inv in H. destruct H as [HE' Hg].
      cbn [app] in HE'. destruct (HE HE') as (_ & Hnd & Hseen & Hall).
      apply app_nil_inv in Hhead. destruct Hhead as [Hvar Hhead].
      apply app_nil_inv in Hhead. destruct Hhead as [Htype Hlevel].
      apply when_nil in Hvar, Htype, Hg.
      apply negb_false_iff, orb_true_iff in Htype.
      assert (Ht : variable_type row = "Continuous"
                   \/ variable_type row = "Categorical").
      { destruct Htype as [Ht|Ht]; apply String.eqb_eq in Ht; auto. }
      assert (Hne : (match group_ids with [] => false | _ => true end) = true)
        by (destruct group_ids; [contradiction|reflexivity]).
      rewrite Hne in Hg. cbn [andb] in Hg.
      apply negb_false_iff in Hg. rewrite Hseen in Hg. cbn [app] in Hg.
      split; [exact Hvar|]. split; [exact Ht|].
      split; [|split; [|split; [|split; [|split; [|split]]]]].
      * intros Hc. destruct (level row) as [l|]; [|reflexivity].
        cbn in Hlevel. rewrite Hc in Hlevel. discriminate.
      * intros l El. rewrite El in Hlevel. cbn in Hlevel.
        apply app_nil_inv in Hlevel. destruct Hlevel as [Hc Hl].
        apply when_nil in Hc, Hl. destruct Ht as [Ht|Ht].
        -- rewrite Ht in Hc. discriminate.
        -- rewrite Ht in Hl. exact Hl.
      * discriminate.
      * intros Hc v0 [= <-]. apply first_value_errors_typed.
        rewrite Hc in Hfirst. exact Hfirst.
      * exact Hnd.
      * intros g Hin. exact (set_eq_covers _ _ Hg g Hin).
      * eapply Forall_impl; [|exact Hall].
        intros v. apply entry_passes_valid.
Qed.

Lemma row_errors_None blank group_ids row :
  row_errors blank group_ids row = None
  <-> hashable (get row "variable_type") = false.
Proof.
  unfold row_errors.
  destruct (hashable (get row "variable_type")); cbn [negb].
  - split; [|discriminate].
    destruct (get row "values") as [| | | | |[|first rest]|]; try discriminate.
    destruct (all_values_null (first :: rest)); [discriminate|].
    destruct (fold_left _ _ _). discriminate.
  - split; reflexivity.
Qed.

Lemma rows_fold_None blank group_ids l :
  forall st, st = None ->
             fold_left (validate_row blank group_ids) l st = None.
Proof.
  induction l as [|[i row] l IH]; intros st ->; [reflexivity|].
  cbn [fold_left validate_row]. now apply IH.
Qed.

(** The loop over the rows only appends messages, unless it raises. *)
Lemma rows_fold_grows blank group_ids l :
  forall errors,
    fold_left (validate_row blank group_ids) l (Some errors) = None
    \/ exists E,
         fold_left (validate_row blank group_ids) l (Some errors)
         = Some (errors ++ E)%list.
Proof.
  induction l as [|[i row] l IH]; intros errors.
  - right. exists []. now rewrite app_nil_r.
  - cbn [fold_left validate_row].
    destruct row as [| | | | | |row];
      try (destruct (IH (errors ++ [RowNotObject i])%list) as [->|[E ->]];
           [now left|right; eexists; rewrite <- app_assoc; reflexivity]).
    destruct (row_errors blank group_ids row) as [es|].
    + destruct (IH (errors ++ map (RowError i) es)%list) as [->|[E ->]];
        [now left|right; eexists; rewrite <- app_assoc; reflexivity].
    + left. now apply rows_fold_None.
Qed.

Lemma rows_fold_raises blank group_ids l :
  forall k errors,
    fold_left (validate_row blank group_ids)
              (List.combine (seq k (List.length l)) l) (Some errors) = None
    <-> exists row, In (JDict row) l
                    /\ hashable (get row "variable_type") = false.
Proof.
  induction l as [|r l IH]; intros k errors.
  - cbn. split; [discriminate|]. now intros (row & [] & _).
  - rewrite enumerate_from_cons. cbn [fold_left validate_row].
    assert (Hrest : forall errors',
              fold_left (validate_row blank group_ids)
                (List.combine (seq (S k) (List.length l)) l) (Some errors')
              = None
              <-> (exists row, In (JDict row) (r :: l)
                               /\ hashable (get row "variable_type") = false)
                  /\ forall row, r = JDict row ->
                                 hashable (get row "variable_type") = false ->
                                 exists row', In (JDict row') l
                                   /\ hashable (get row' "variable_type")
                                      = false).
    { intros errors'. rewrite IH. split.
      - intros (row & Hin & Hh). split; [exists row; split; [now right|easy]|].
        intros _ _ _. now exists row.
      - intros [(row & [->|Hin] & Hh) Hr].
        + exact (Hr row eq_refl Hh).
        + now exists row. }
    destruct r as [| | | | | |row];
      try (rewrite Hrest; split;
           [now intros [H _]
           |intros H; split; [exact H|discriminate]]).
    destruct (row_errors blank group_ids row) as [es|] eqn:Er.
    + rewrite Hrest. split; [now intros [H _]|].
      intros H. split; [exact H|]. intros row' [= <-] Hh.
      apply (row_errors_None blank group_ids) in Hh. congruence.
    + rewrite rows_fold_None by reflexivity. split; [|reflexivity].
      intros _. exists row. split; [now left|].
      now apply (row_errors_None blank group_ids).
Qed.

Lemma rows_fold_sound blank group_ids rows :
  group_ids <> [] ->
  forall k errors,
    exists E,
      fold_left (validate_row blank group_ids)
                (List.combine (seq k (List.length (map json_of_row rows)))
                              (map json_of_row rows))
                (Some errors) = Some (errors ++ E)%list
      /\ (E = [] -> Forall (valid_row blank group_ids) rows).
Proof.
  intros Hgroups. induction rows as [|row rows IH]; intros k errors.
  - exists []. cbn. rewrite app_nil_r. split; [reflexivity|]. constructor.
  - cbn [map]. rewrite enumerate_from_cons.
    cbn [fold_left validate_row json_of_row].
    destruct (row_errors_typed blank group_ids row Hgroups) as (E1 & -> & H1).
    destruct (IH (S k) (errors ++ map (RowError k) E1)%list) as (E & -> & HE).
    eexists. rewrite <- app_assoc. split; [reflexivity|].
    intros Hnil. apply app_nil_inv in Hnil. destruct Hnil as [Hm Hnil].
    apply map_eq_nil in Hm. constructor; auto.
Qed.

(** X21. How [validate_json] ends without checking a table: a payload that
    is not an object is rejected; an object whose [table1_exists] is missing
    or false in Python's sense is accepted whatever else it holds.  And it
    raises a [TypeError], not a [ValidationError], exactly when
    [table1_exists] is true and [rows] is an array that holds an object whose
    [variable_type] is an array or an object. *)
Theorem validate_json_outcomes (blank : string -> bool) :
  (forall v, is_dict v = false ->
             validate_json blank v = ValidationError [PayloadNotObject])
  /\ (forall json_data,
        truth (get json_data "table1_exists") = false ->
        validate_json blank (JDict json_data) = Returns)
  /\ (forall json_data,
        validate_json blank (JDict json_data) = TypeError
        <-> truth (get json_data "table1_exists") = true
            /\ exists rows row,
                 get json_data "rows" = JList rows
                 /\ In (JDict row) rows
                 /\ hashable (get row "variable_type") = false).
Proof.
  split; [|split].
  - intros v Hv. destruct v; try reflexivity. discriminate.
  - intros json_data Ht. unfold validate_json. now rewrite Ht.
  - intros json_data. unfold validate_json.
    destruct (truth (get json_data "table1_exists")); cbn [negb].
    2: { split; [discriminate|]. now intros [? _]. }
    set (start := match get json_data "groups" with
                  | JNull => ([MissingGroups], [])
                  | JList (g :: gs) => ([], g :: gs)
                  | _ => ([GroupsNotNonEmptyArray], [])
                  end).
    destruct start as [errors0 groups_raw].
    destruct (fold_left (validate_group blank) (enumerate groups_raw)
                        (errors0, [])) as [errors group_ids].
    assert (Hend : forall l,
              finish (fold_left (validate_row blank group_ids) (enumerate l)
                (Some errors)) = TypeError
              <-> exists row, In (JDict row) l
                              /\ hashable (get row "variable_type") = false).
    { intros l. unfold enumerate.
      rewrite <- (rows_fold_raises blank group_ids l 0 errors).
      destruct (fold_left _ _ _) as [[|e es]|]; cbn [finish];
        split; congruence. }
    assert (Hnone : forall errors',
              finish (fold_left (validate_row blank group_ids) (enumerate [])
                (Some errors')) <> TypeError).
    { intros errors'. cbn. destruct errors'; discriminate. }
    destruct (get json_data "rows") as [| | | | |[|r rs]|] eqn:Er;
      try solve [split; [intros H; now apply Hnone in H
                        |intros [_ (rows & row & [=] & _)]]].
    + split; [intros H; now apply Hnone in H|].
      intros [_ (rows & row & [= <-] & [] & _)].
    + rewrite Hend. split.
      * intros (row & Hin & Hh). split; [reflexivity|].
        now exists (r :: rs), row.
      * intros [_ (rows & row & [= <-] & Hin & Hh)]. now exists row.
Qed.

(** X22. An extraction that follows the schema and that [validate_json]
    accepts has at least one group and one row; its group ids are distinct,
    its labels not blank and its sample sizes not negative; and every row is
    Continuous or Categorical, with a level only if Categorical, and has
    exactly one entry for every group, each with its original text; a
    Categorical entry has a count that is not negative and no other number; a
    Continuous row has a mean or a median in its first entry, and with a
    mean an sd or both bounds of the confidence interval there; no sd is
    negative, no interval reversed and no p-value outside [0, 1]. *)
Theorem validate_json_sound (blank : string -> bool) (t : Table1) :
  validate_json blank (json_of_table t) = Returns ->
  valid_table blank t.
Proof.
  unfold validate_json, json_of_table.
  cbv [get dict_get String.eqb Ascii.eqb Bool.eqb]. cbn [truth negb].
  intros H.
  assert (Hfail : forall l errors e,
            finish (fold_left (validate_row blank l)
                              (enumerate (map json_of_row (rows t)))
                              (Some (e :: errors))) <> Returns).
  { intros l errors e.
    destruct (rows_fold_grows blank l (enumerate (map json_of_row (rows t)))
                (e :: errors)) as [->|[E ->]]; cbn [finish app];
      discriminate. }
  destruct (groups t) as [|g gs] eqn:Eg.
  { exfalso. cbn in H. destruct (rows t) as [|r rs].
    - discriminate.
    - cbn [map] in H. now apply (Hfail [] [] GroupsNotNonEmptyArray) in H. }
  rewrite <- Eg in *.
  assert (Hraw : map json_of_group (groups t)
                 = json_of_group g :: map json_of_group gs) by now rewrite Eg.
  rewrite Hraw in H. rewrite <- Hraw in H.
  destruct (fold_left (validate_group blank)
                      (enumerate (map json_of_group (groups t))) ([], []))
    as [errors group_ids] eqn:Ef.
  apply groups_fold_sound in Ef. destruct Ef as (E & -> & HE).
  cbn [app] in H.
  destruct (rows t) as [|r rs] eqn:Er.
  { exfalso. cbn in H. destruct E; discriminate. }
  rewrite <- Er in *.
  assert (Hrows : map json_of_row (rows t)
                  = json_of_row r :: map json_of_row rs) by now rewrite Er.
  rewrite Hrows in H. rewrite <- Hrows in H.
  destruct E as [|e E]; [|now apply Hfail in H].
  destruct (HE eq_refl) as (-> & _ & Hnd & Hall). cbn [app] in H.
  assert (Hne : map group_id (groups t) <> []) by now rewrite Eg.
  destruct (rows_fold_sound blank (map group_id (groups t)) (rows t) Hne 0 [])
    as (E' & HE' & Hvalid).
  unfold enumerate in H. rewrite HE' in H. cbn [app] in H.
  destruct E' as [|e' E']; [|discriminate].
  split; [now rewrite Eg|]. split; [exact Hnd|]. split; [exact Hall|].
  split; [now rewrite Er|]. now apply Hvalid.
Qed.

(* ------------------------------------------------------------------------- *)
(** * What a run can raise *)

Lemma process_groups_error df_blocks sample_size gs :
  (forall g, In g gs ->
     mem g df_blocks = true /\ exists n, dict_get g sample_size = Some n) ->
  forall mean_df e,
    process_groups df_blocks sample_size gs mean_df = Err e ->
    is_data_error e.
Proof.
  induction gs as [|g gs IH]; intros Hcols mean_df e H; [discriminate|].
  cbn [process_groups] in H.
  destruct (Hcols g (or_introl eq_refl)) as [Hm [n Hn]].
  rewrite (process_group_cases _ _ _ _ _ Hm Hn) in H.
  destruct (existsb (fun r => sd_missing g r && ci_missing g r) mean_df).
  { injection H as <-. eexists. reflexivity. }
  destruct (existsb (fun r => feq (computed_sem g n r) (Fin 0)) mean_df).
  { injection H as <-. eexists. reflexivity. }
  cbn [bind] in H. apply IH in H; [exact H|].
  intros g' Hg'. apply Hcols. now right.
Qed.

Lemma engine_error d sample_size e :
  (forall g, In g (dict_keys sample_size) -> In g (blocks d)) ->
  process_continuous_variables_mean (Some d) sample_size = Err e ->
  is_data_error e.
Proof.
  intros Hcols H. unfold process_continuous_variables_mean in H.
  destruct (empty d); [discriminate|].
  destruct sample_size as [|kv rest] eqn:Es.
  { injection H as <-. eexists. reflexivity. }
  rewrite <- Es in *.
  destruct (existsb (fun s => (s <=? 0)%Z) (dict_values sample_size)).
  { injection H as <-. eexists. reflexivity. }
  destruct (process_groups (blocks d) sample_size (dict_keys sample_size)
              (retained d)) as [rows'|e'] eqn:Hloop; [discriminate|].
  injection H as <-.
  apply (process_groups_error _ _ _) in Hloop; [exact Hloop|].
  intros g Hg. split; [now apply mem_In, Hcols|].
  now apply dict_get_key.
Qed.

Lemma chi_square_error F zscores sigma0 e :
  chi_square_variance_test F zscores sigma0 = Err e -> is_data_error e.
Proof.
  unfold chi_square_variance_test. destruct zscores as [zs|].
  2: { intros [= <-]. eexists. reflexivity. }
  repeat match goal with
         | |- (if ?c then _ else _) = _ -> _ => destruct c
         end;
    try discriminate; intros [= <-]; eexists; reflexivity.
Qed.

Lemma row_counts_error df_blocks r gs :
  (forall g, In g gs -> mem g df_blocks = true) ->
  forall d e, row_counts df_blocks r gs d = Err e -> is_data_error e.
Proof.
  induction gs as [|g gs IH]; intros Hcols d e H; [discriminate|].
  cbn [row_counts] in H. unfold column in H.
  rewrite (Hcols g (or_introl eq_refl)) in H. cbn [bind] in H.
  destruct (c_count (cell r g)) as [c|].
  - cbn [bind] in H. apply IH in H; [exact H|].
    intros g' Hg'. apply Hcols. now right.
  - injection H as <-. eexists. reflexivity.
Qed.

Lemma contingency_table_binary_error group_count group_total e :
  (forall g, In g (dict_keys group_count) ->
             dict_get g group_total <> None) ->
  contingency_table_binary group_count group_total = Err e ->
  is_data_error e.
Proof.
  intros Htotals H. unfold contingency_table_binary in H.
  destruct (table_rows_spec (dict_keys group_count) group_count group_total)
    as [_ Herr].
  - intros g Hg. split; [|now apply Htotals].
    destruct (dict_get_key g group_count Hg) as [c Hc]. congruence.
  - destruct (Herr e H) as (g & _ & _ & ->). eexists. reflexivity.
Qed.

Section ErrorPaths.

Variable F : Z -> R -> R.
Variable rng_state : Type.
Variable default_rng : option Z -> rng_state.
Variable rng_after : list (list Z) -> rng_state -> rng_state.
Variable fisher_exact :
  list (list Z) -> option rng_state -> result (float * float).
Variable combine_pvalues : list float -> result (float * float).

Lemma fisher_tests_error df_blocks sample_size gs :
  NoDup gs ->
  (forall g, In g gs ->
     mem g df_blocks = true /\ dict_get g sample_size <> None) ->
  forall cat_rows method acc e,
    fisher_tests rng_state rng_after fisher_exact df_blocks sample_size gs
                 method cat_rows acc = Err e ->
    is_data_error e
    \/ exists table method', fisher_exact table method' = Err e.
Proof.
  intros Hnd Hcols.
  induction cat_rows as [|row rest IH]; intros method [pvals out] e H;
    [discriminate|].
  cbn [fisher_tests] in H.
  destruct (row_counts df_blocks row gs []) as [counts|e'] eqn:Hc.
  2: { injection H as <-. left.
       apply (row_counts_error _ _ _) in Hc; [exact Hc|].
       intros g Hg. now apply Hcols. }
  cbn [bind] in H.
  apply row_counts_spec in Hc; [|exact Hnd|reflexivity]. cbn [app] in Hc.
  destruct (contingency_table_binary counts sample_size) as [table|e'] eqn:Ht.
  2: { injection H as <-. left.
       apply contingency_table_binary_error in Ht; [exact Ht|].
       intros g Hg. rewrite Hc in Hg. unfold dict_keys in Hg.
       rewrite map_map, map_id in Hg. now apply Hcols. }
  cbn [bind] in H.
  destruct (fisher_exact table method) as [[stat p]|e'] eqn:Hf.
  2: { injection H as <-. right. now exists table, method. }
  cbn [bind] in H. now apply IH in H.
Qed.

Lemma run_error_causes (json_data : Table1)
    (skip_continuous_var skip_categorical_var : bool)
    (random_seed : option Z) (e : error) :
  (forall g, In g (dict_keys (sample_size_of json_data)) ->
             In g (blocks (to_csv_wide json_data))) ->
  run_test_pipeline F rng_state default_rng rng_after fisher_exact
    combine_pvalues json_data skip_continuous_var skip_categorical_var
    random_seed = Err e ->
  is_data_error e
  \/ (e = UFuncTypeError "isnan" /\ skip_continuous_var = false)
  \/ (exists table method, fisher_exact table method = Err e)
  \/ (exists pvals, combine_pvalues pvals = Err e).
Proof.
  intros Hcols H. unfold run_test_pipeline in H.
  destruct (collect_tests F rng_state default_rng rng_after fisher_exact
              json_data skip_continuous_var skip_categorical_var random_seed)
    as [[pvals out]|e'] eqn:Hc.
  - cbn [bind] in H. unfold combine in H.
    destruct (Z.of_nat (List.length pvals) =? 0)%Z.
    { injection H as <-. left. eexists. reflexivity. }
    destruct (negb (forallb valid_pvalue pvals)).
    { injection H as <-. left. eexists. reflexivity. }
    destruct (combine_pvalues pvals) as [[stat p]|e'] eqn:Hp; [discriminate|].
    injection H as <-. right. right. right. now exists pvals.
  - injection H as <-. unfold collect_tests in Hc.
    destruct (total_of (sample_size_of json_data) =? 0)%Z.
    { injection Hc as <-. left. eexists. reflexivity. }
    destruct (continuous_test F (to_csv_wide json_data)
                (sample_size_of json_data) skip_continuous_var ([], []))
      as [acc|e''] eqn:Hcont.
    + cbn [bind] in Hc. unfold categorical_test in Hc.
      destruct skip_categorical_var; [discriminate|].
      destruct (process_categorical_variables (Some (to_csv_wide json_data))
                  (total_of (sample_size_of json_data)))
        as [cat_df|e''] eqn:Hcat.
      * cbn [bind] in Hc.
        destruct (frame_len cat_df =? 0)%Z; [discriminate|].
        apply fisher_tests_error in Hc.
        -- destruct Hc as [Hc|Hc]; [now left|right; right; now left].
        -- apply sample_size_of_NoDup.
        -- intros g Hg. split; [now apply mem_In, Hcols|].
           destruct (dict_get_key g _ Hg) as [n Hn]. congruence.
      * injection Hc as <-. left.
        unfold process_categorical_variables in Hcat.
        destruct (empty (to_csv_wide json_data)); [discriminate|].
        destruct (total_of (sample_size_of json_data) <=? 0)%Z;
          [|discriminate].
        injection Hcat as <-. eexists. reflexivity.
    + injection Hc as <-. unfold continuous_test in Hcont.
      destruct skip_continuous_var; [discriminate|].
      destruct (process_continuous_variables_mean
                  (Some (to_csv_wide json_data)) (sample_size_of json_data))
        as [cont|e3] eqn:He.
      * cbn [bind] in Hcont.
        destruct ((0 <? frame_len cont)%Z
                  && (0 <? Z.of_nat (List.length (flatten_zscores cont)))%Z);
          [|discriminate].
        destruct (chi_square_variance_test_array F _ (flatten_zscores cont)
                    (Fin 1)) as [[p s]|e4] eqn:Hchi; [discriminate|].
        injection Hcont as <-.
        apply chi_square_array_error in Hchi. destruct Hchi as [->|Hchi].
        -- right. left. now split.
        -- left. now apply chi_square_error in Hchi.
      * injection Hcont as <-. left. now apply engine_error in He.
Qed.

(** X23. When every group of the table has an entry in some row and no
    group id contains "mean", "count" or "zscore", a run that fails fails
    with one of the pipeline's own [ValueError]s, with the [TypeError] of
    [np.isnan] on pooled z-scores of dtype object (only when the continuous
    test is enabled), or with an error raised inside [fisher_exact] or
    [combine_pvalues]: a missing column or a missing key is never the
    cause. *)
Theorem run_test_pipeline_errors (json_data : Table1)
    (skip_continuous_var skip_categorical_var : bool)
    (random_seed : option Z) (e : error) :
  plain_ids json_data = true ->
  (forall g, In g (dict_keys (sample_size_of json_data)) ->
             In g (blocks (to_csv_wide json_data))) ->
  run_test_pipeline F rng_state default_rng rng_after fisher_exact
    combine_pvalues json_data skip_continuous_var skip_categorical_var
    random_seed = Err e ->
  is_data_error e
  \/ (e = UFuncTypeError "isnan" /\ skip_continuous_var = false)
  \/ (exists table method, fisher_exact table method = Err e)
  \/ (exists pvals, combine_pvalues pvals = Err e).
Proof.
  intros _.
  exact (run_error_causes json_data skip_continuous_var skip_categorical_var
           random_seed e).
Qed.

End ErrorPaths.

(* ------------------------------------------------------------------------- *)
(** * A validated extraction in the pipeline *)

Lemma sample_size_fold gs :
  forall d,
    NoDup (map group_id gs) ->
    (forall g, In g gs -> dict_get (group_id g) d = None) ->
    fold_left (fun d g => dict_set (group_id g) (sample_size g) d) gs d
    = (d ++ map (fun g => (group_id g, sample_size g)) gs)%list.
Proof.
  induction gs as [|g gs IH]; intros d Hnd Hfresh.
  - cbn. now rewrite app_nil_r.
  - cbn [fold_left map]. cbn [map] in Hnd.
    inversion Hnd as [|? ? Hg Hnd']; subst.
    rewrite (dict_set_new _ _ _ (Hfresh g (or_introl eq_refl))).
    rewrite IH; [now rewrite <- app_assoc|exact Hnd'|].
    intros g' Hg'. rewrite dict_get_app.
    rewrite (Hfresh g' (or_intror Hg')). cbn [dict_get].
    destruct (String.eqb (group_id g') (group_id g)) eqn:E; [|reflexivity].
    apply String.eqb_eq in E. exfalso. apply Hg. rewrite <- E.
    now apply in_map.
Qed.

Lemma sample_size_of_distinct t :
  NoDup (map group_id (groups t)) ->
  sample_size_of t = map (fun g => (group_id g, sample_size g)) (groups t).
Proof.
  intros Hnd. unfold sample_size_of.
  now rewrite (sample_size_fold _ [] Hnd) by reflexivity.
Qed.

Lemma find_some_last {A} (p : A -> bool) l x :
  In x l -> p x = true -> exists y, find p (rev l) = Some y /\ In y l.
Proof.
  intros Hin Hp. destruct (find p (rev l)) as [y|] eqn:E.
  - exists y. split; [reflexivity|]. apply find_some in E.
    now apply in_rev.
  - exfalso. apply in_rev in Hin.
    pose proof (find_none _ _ E x Hin) as Hf. congruence.
Qed.

Lemma valid_table_blocks blank t g :
  valid_table blank t ->
  In g (blocks (to_csv_wide t)) <-> In g (map group_id (groups t)).
Proof.
  intros (_ & _ & _ & Hrows & Hvalid). rewrite to_csv_wide_blocks_In.
  rewrite Forall_forall in Hvalid. split.
  - intros (row & v & Hrow & Hv & <-).
    destruct (Hvalid row Hrow) as (_ & _ & _ & _ & _ & _ & _ & _ & Hall).
    rewrite Forall_forall in Hall. now destruct (Hall v Hv).
  - intros Hg. destruct (rows t) as [|row rs] eqn:Er; [contradiction|].
    destruct (Hvalid row (or_introl eq_refl))
      as (_ & _ & _ & _ & _ & _ & _ & Hcover & _).
    apply Hcover, in_map_iff in Hg. destruct Hg as (v & Hv & Hin).
    exists row, v. split; [now left|]. now split.
Qed.

Lemma valid_table_counts blank t r :
  valid_table blank t ->
  In r (df_rows (to_csv_wide t)) ->
  is_categorical r = true ->
  counts_complete (blocks (to_csv_wide t)) r = true.
Proof.
  intros Hvalid Hr Hcat. unfold counts_complete. apply forallb_forall.
  intros g Hg. apply (valid_table_blocks blank t g Hvalid) in Hg.
  destruct Hvalid as (_ & _ & _ & _ & Hvalid).
  rewrite Forall_forall in Hvalid.
  cbn [to_csv_wide df_rows] in Hr. apply wide_records_In in Hr.
  destruct Hr as (k & row & Hrow & ->).
  destruct (Hvalid row Hrow) as (_ & _ & _ & _ & _ & _ & _ & Hcover & Hall).
  rewrite Forall_forall in Hall.
  apply Hcover, in_map_iff in Hg. destruct Hg as (v & Hv & Hin).
  destruct (find_some_last (fun v => String.eqb (v_group_id v) g)
              (values row) v Hin) as (v' & Hfind & Hin').
  { rewrite Hv. apply String.eqb_refl. }
  unfold cell, wide_record. cbn [cells]. rewrite record_lookup, Hfind.
  destruct (Hall v' Hin') as (_ & _ & Hc & _).
  unfold is_categorical, wide_record in Hcat. cbn [col_Variable_type] in Hcat.
  apply String.eqb_eq in Hcat. destruct (Hc Hcat) as [(c & Ec & _) _].
  cbn [entry_cells c_count]. now rewrite Ec.
Qed.

Section ValidatedRun.

Variable blank : string -> bool.
Variable F : Z -> R -> R.
Variable rng_state : Type.
Variable default_rng : option Z -> rng_state.
Variable rng_after : list (list Z) -> rng_state -> rng_state.
Variable fisher_exact :
  list (list Z) -> option rng_state -> result (float * float).
Variable combine_pvalues : list float -> result (float * float).

(** X24. For an extraction that follows the schema, that [validate_json]
    accepts and in which no group id contains "mean", "count" or "zscore":
    the groups of the pipeline are the groups of the table, in order, with
    sample sizes that are not negative; the frame of [to_csv_wide] has the
    columns of exactly these groups; no Categorical row is left out of the
    Fisher tests for a missing count; and a run that fails fails with one of
    the pipeline's own [ValueError]s, with the [TypeError] of [np.isnan] on
    pooled z-scores of dtype object, or inside [fisher_exact] or
    [combine_pvalues], never for a missing column or key. *)
Theorem validate_json_then_run (t : Table1) :
  validate_json blank (json_of_table t) = Returns ->
  plain_ids t = true ->
  sample_size_of t = map (fun g => (group_id g, sample_size g)) (groups t)
  /\ Forall (fun n => (0 <= n)%Z) (dict_values (sample_size_of t))
  /\ (forall g, In g (blocks (to_csv_wide t))
                <-> In g (dict_keys (sample_size_of t)))
  /\ categorical_rows (to_csv_wide t)
     = filter is_categorical (df_rows (to_csv_wide t))
  /\ forall skip_continuous_var skip_categorical_var random_seed e,
       run_test_pipeline F rng_state default_rng rng_after fisher_exact
         combine_pvalues t skip_continuous_var skip_categorical_var
         random_seed = Err e ->
       is_data_error e
       \/ (e = UFuncTypeError "isnan" /\ skip_continuous_var = false)
       \/ (exists table method, fisher_exact table method = Err e)
       \/ (exists pvals, combine_pvalues pvals = Err e).
Proof.
  intros Hok _. apply validate_json_sound in Hok.
  pose proof Hok as (_ & Hnd & Hgroups & _ & _).
  pose proof (sample_size_of_distinct t Hnd) as Hss.
  assert (Hkeys : dict_keys (sample_size_of t) = map group_id (groups t)).
  { rewrite Hss. unfold dict_keys. rewrite map_map. reflexivity. }
  split; [exact Hss|]. split; [|split; [|split]].
  - rewrite Hss. unfold dict_values. rewrite map_map. cbn [snd].
    apply Forall_map. eapply Forall_impl; [|exact Hgroups].
    now intros g [_ Hn].
  - intros g. rewrite Hkeys. now apply (valid_table_blocks blank).
  - unfold categorical_rows. apply filter_ext_in. intros r Hr.
    destruct (is_categorical r) eqn:Hc; [|reflexivity].
    now rewrite (valid_table_counts blank t r Hok Hr Hc).
  - intros skip_continuous_var skip_categorical_var random_seed e.
    apply run_error_causes. intros g Hg.
    rewrite Hkeys in Hg. now apply (valid_table_blocks blank).
Qed.

End ValidatedRun.

Lemma validate_json_sound_witness : valid_table ascii_blank smoker_table.
Proof.
  apply (validate_json_sound ascii_blank smoker_table).
  vm_compute. reflexivity.
Defined.

Lemma run_test_pipeline_errors_witness :
  is_data_error (ValueError (SuccessExceedsTotal "treatment" 60 50))
  \/ (ValueError (SuccessExceedsTotal "treatment" 60 50)
      = UFuncTypeError "isnan" /\ false = false)
  \/ (exists table method,
        fixed_fisher_exact table method
        = Err (ValueError (SuccessExceedsTotal "treatment" 60 50)))
  \/ (exists pvals,
        fixed_combine_pvalues pvals
        = Err (ValueError (SuccessExceedsTotal "treatment" 60 50))).
Proof.
  apply (run_test_pipeline_errors chi2_cdf_two_df unit unit_rng unit_rng_after
           fixed_fisher_exact fixed_combine_pvalues impossible_table false
           false None).
  - reflexivity.
  - intros g [<-|[<-|[]]]; simpl; auto.
  - reflexivity.
Defined.

Lemma validate_json_then_run_witness :
  categorical_rows (to_csv_wide smoker_table)
  = filter is_categorical (df_rows (to_csv_wide smoker_table)).
Proof.
  destruct (validate_json_then_run ascii_blank chi2_cdf_two_df unit unit_rng
              unit_rng_after fixed_fisher_exact fixed_combine_pvalues
              smoker_table) as (_ & _ & _ & Hrows & _).
  - vm_compute. reflexivity.
  - reflexivity.
  - exact Hrows.
Defined.


Section SampleSizes.

Variable F : Z -> R -> R.
Variable rng_state : Type.
Variable default_rng : option Z -> rng_state.
Variable rng_after : list (list Z) -> rng_state -> rng_state.
Variable fisher_exact :
  list (list Z) -> option rng_state -> result (float * float).
Variable combine_pvalues : list float -> result (float * float).

(** X25. With the continuous test enabled, a run over a table with at least
    one row raises a [ValueError] as soon as one group has a sample size that
    is not positive, whatever the rows are: that the total is zero, or else
    that all sample sizes must be positive.  The check comes before the rows
    are looked at, so a table of Categorical rows only fails as well. *)
Theorem run_test_pipeline_sample_size_not_positive (json_data : Table1)
    (skip_categorical_var : bool) (random_seed : option Z)
    (g : string) (n : Z) :
  rows json_data <> [] ->
  In (g, n) (sample_size_of json_data) ->
  (n <= 0)%Z ->
  run_test_pipeline F rng_state default_rng rng_after fisher_exact
    combine_pvalues json_data false skip_categorical_var random_seed
  = raise (if (total_of (sample_size_of json_data) =? 0)%Z
           then TotalSampleSizeZero else SampleSizesNotPositive).
Proof.
  intros Hrows Hin Hn. unfold run_test_pipeline, collect_tests.
  destruct (total_of (sample_size_of json_data) =? 0)%Z; [reflexivity|].
  unfold continuous_test, process_continuous_variables_mean.
  assert (He : empty (to_csv_wide json_data) = false).
  { unfold empty, to_csv_wide. cbn [df_rows].
    destruct (rows json_data); [contradiction|reflexivity]. }
  rewrite He.
  assert (Hex : existsb (fun s => (s <=? 0)%Z)
                        (dict_values (sample_size_of json_data)) = true).
  { apply existsb_exists. exists n. split; [|now apply Z.leb_le].
    unfold dict_values. apply in_map_iff. now exists (g, n). }
  rewrite Hex. destruct (sample_size_of json_data); [destruct Hin|].
  reflexivity.
Qed.

End SampleSizes.

(** The table passes the validation, and the run fails all the same. *)
Lemma run_test_pipeline_sample_size_not_positive_witness :
  validate_json ascii_blank (json_of_table empty_arm_table) = Returns
  /\ run_test_pipeline chi2_cdf_two_df unit unit_rng unit_rng_after
       fixed_fisher_exact fixed_combine_pvalues empty_arm_table false false
       None
     = raise SampleSizesNotPositive.
Proof.
  split; [vm_compute; reflexivity|].
  apply (run_test_pipeline_sample_size_not_positive chi2_cdf_two_df unit
           unit_rng unit_rng_after fixed_fisher_exact fixed_combine_pvalues
           empty_arm_table false None "control" 0%Z).
  - discriminate.
  - right. left. reflexivity.
  - lia.
Defined.


(* ------------------------------------------------------------------------- *)
(** * The pages of the table text *)

Lemma range_In lo hi k : In k (TableText.range lo hi) <-> (lo <= k < hi)%Z.
Proof.
  unfold TableText.range. rewrite in_map_iff. split.
  - intros (j & <- & Hj). apply in_seq in Hj. lia.
  - intros Hk. exists (Z.to_nat (k - lo)). split; [lia|].
    apply in_seq. lia.
Qed.

Lemma existsb_Zeqb x s : existsb (Z.eqb x) s = true <-> In x s.
Proof.
  rewrite existsb_exists. split.
  - intros (y & Hy & E). apply Z.eqb_eq in E. now subst.
  - intros H. exists x. split; [exact H|apply Z.eqb_refl].
Qed.

Lemma add_In x s y : In y (TableText.add x s) <-> y = x \/ In y s.
Proof.
  unfold TableText.add. destruct (existsb (Z.eqb x) s) eqn:E.
  - apply existsb_Zeqb in E. split; [now right|]. now intros [->|H].
  - rewrite in_app_iff. cbn [In]. intuition.
Qed.

Lemma add_NoDup x s : NoDup s -> NoDup (TableText.add x s).
Proof.
  intros Hnd. unfold TableText.add.
  destruct (existsb (Z.eqb x) s) eqn:E; [exact Hnd|].
  assert (Hx : ~ In x s).
  { intros H. apply existsb_Zeqb in H. congruence. }
  apply NoDup_app; [exact Hnd|repeat constructor; intros []|].
  intros y Hy [<-|[]]. contradiction.
Qed.

Lemma insert_In x l y : In y (TableText.insert x l) <-> y = x \/ In y l.
Proof.
  induction l as [|z l IH]; cbn [TableText.insert].
  - cbn. intuition.
  - destruct (x <=? z)%Z; cbn [In]; [intuition|]. rewrite IH. intuition.
Qed.

Lemma sorted_In l y : In y (TableText.sorted l) <-> In y l.
Proof.
  induction l as [|x l IH]; cbn [TableText.sorted fold_right]; [reflexivity|].
  fold (TableText.sorted l). rewrite insert_In, IH. cbn [In]. intuition.
Qed.

Lemma insert_sorted x l :
  StronglySorted Z.lt l -> ~ In x l ->
  StronglySorted Z.lt (TableText.insert x l).
Proof.
  induction l as [|z l IH]; intros Hs Hx; cbn [TableText.insert].
  - repeat constructor.
  - inversion Hs as [|? ? Hs' Hall]; subst.
    destruct (x <=? z)%Z eqn:E.
    + apply Z.leb_le in E. assert (x < z)%Z.
      { destruct (Z.eq_dec x z) as [->|]; [|lia].
        exfalso. apply Hx. now left. }
      constructor; [exact Hs|]. constructor; [assumption|].
      eapply Forall_impl; [|exact Hall]. cbn. intros; lia.
    + apply Z.leb_gt in E. constructor.
      * apply IH; [exact Hs'|]. intros H. apply Hx. now right.
      * apply Forall_forall. intros y Hy. apply insert_In in Hy.
        destruct Hy as [->|Hy]; [exact E|].
        rewrite Forall_forall in Hall. now apply Hall.
Qed.

Lemma sorted_increasing l :
  NoDup l -> StronglySorted Z.lt (TableText.sorted l).
Proof.
  induction 1 as [|x l Hx _ IH]; cbn [TableText.sorted fold_right];
    [constructor|].
  fold (TableText.sorted l). apply insert_sorted; [exact IH|].
  now rewrite sorted_In.
Qed.

Lemma pages_enumerated {A} (l : list A) k j (x : A) :
  In (j, x) (List.combine (seq k (List.length l)) l)
  <-> (k <= j)%nat /\ nth_error l (j - k) = Some x.
Proof.
  revert k. induction l as [|a l IH]; intros k; cbn [List.length seq
                                                     List.combine In].
  - split; [intros []|]. intros [_ H]. now destruct (j - k)%nat.
  - rewrite IH. split.
    + intros [[= <- <-]|[Hk Hn]].
      * split; [lia|]. now rewrite Nat.sub_diag.
      * split; [lia|]. replace (j - k)%nat with (S (j - S k)) by lia.
        exact Hn.
    + intros [Hk Hn]. destruct (Nat.eq_dec j k) as [->|Hne].
      * left. rewrite Nat.sub_diag in Hn. cbn in Hn. congruence.
      * right. split; [lia|].
        replace (j - k)%nat with (S (j - S k)) in Hn by lia. exact Hn.
Qed.

Section PageSelection.

Variable search : string -> string -> bool.

Lemma table_pages_In pages_text p :
  In p (TableText.table_pages search pages_text)
  <-> exists text,
        (0 <= p)%Z
        /\ nth_error pages_text (Z.to_nat p) = Some text
        /\ existsb (fun pattern => search pattern text)
                   TableText.TABLE_PATTERNS = true.
Proof.
  unfold TableText.table_pages. rewrite in_map_iff. split.
  - intros ([j text] & <- & Hin). apply filter_In in Hin.
    destruct Hin as [Hin Hm]. apply pages_enumerated in Hin.
    destruct Hin as [_ Hn]. rewrite Nat.sub_0_r in Hn.
    exists text. cbn [fst snd] in *. rewrite Nat2Z.id. split; [lia|].
    now split.
  - intros (text & Hp & Hn & Hm). exists (Z.to_nat p, text).
    cbn [fst]. split; [lia|]. apply filter_In. split; [|exact Hm].
    apply pages_enumerated. rewrite Nat.sub_0_r. split; [lia|exact Hn].
Qed.

Lemma offsets_In n p offsets :
  forall selected i,
    In i (fold_left
            (fun selected offset =>
               let idx := (p + offset)%Z in
               if (0 <=? idx)%Z && (idx <? n)%Z
               then TableText.add idx selected
               else selected) offsets selected)
    <-> In i selected
        \/ exists offset, In offset offsets /\ i = (p + offset)%Z
                          /\ (0 <= i < n)%Z.
Proof.
  induction offsets as [|o offsets IH]; intros selected i; cbn [fold_left].
  - split; [now left|]. now intros [H|(o & [] & _)].
  - rewrite IH. cbn zeta.
    destruct ((0 <=? p + o)%Z && (p + o <? n)%Z) eqn:E.
    + apply andb_true_iff in E. destruct E as [E1 E2].
      apply Z.leb_le in E1. apply Z.ltb_lt in E2. rewrite add_In. split.
      * intros [[->|H]|(o' & Ho' & Hi)]; [right|now left|right].
        -- exists o. split; [now left|]. split; [reflexivity|lia].
        -- exists o'. split; [now right|exact Hi].
      * intros [H|(o' & [<-|Ho'] & Hi)]; [left; now right| |].
        -- left. left. now destruct Hi.
        -- right. now exists o'.
    + split.
      * intros [H|(o' & Ho' & Hi)]; [now left|right].
        exists o'. split; [now right|exact Hi].
      * intros [H|(o' & [<-|Ho'] & -> & Hi)]; [now left| |].
        -- exfalso. apply andb_false_iff in E.
           destruct E as [E|E]; [apply Z.leb_gt in E|apply Z.ltb_ge in E];
             lia.
        -- right. now exists o'.
Qed.

Lemma offsets_NoDup n p offsets :
  forall selected,
    NoDup selected ->
    NoDup (fold_left
             (fun selected offset =>
                let idx := (p + offset)%Z in
                if (0 <=? idx)%Z && (idx <? n)%Z
                then TableText.add idx selected
                else selected) offsets selected).
Proof.
  induction offsets as [|o offsets IH]; intros selected Hnd; cbn [fold_left];
    [exact Hnd|].
  apply IH. cbn zeta. destruct ((0 <=? p + o)%Z && (p + o <? n)%Z);
    [now apply add_NoDup|exact Hnd].
Qed.

Lemma selected_fold_In n offsets tps :
  forall selected i,
    In i (fold_left
            (fun selected p =>
               fold_left
                 (fun selected offset =>
                    let idx := (p + offset)%Z in
                    if (0 <=? idx)%Z && (idx <? n)%Z
                    then TableText.add idx selected
                    else selected) offsets selected) tps selected)
    <-> In i selected
        \/ exists p offset, In p tps /\ In offset offsets
                            /\ i = (p + offset)%Z /\ (0 <= i < n)%Z.
Proof.
  induction tps as [|p tps IH]; intros selected i; cbn [fold_left].
  - split; [now left|]. now intros [H|(p & o & [] & _)].
  - rewrite IH, offsets_In. split.
    + intros [[H|(o & Ho & Hi)]|(p' & o & Hp' & Ho & Hi)].
      * now left.
      * right. exists p, o. split; [now left|]. now split.
      * right. exists p', o. split; [now right|]. now split.
    + intros [H|(p' & o & [<-|Hp'] & Ho & Hi)].
      * left. now left.
      * left. right. now exists o.
      * right. now exists p', o.
Qed.

Lemma selected_fold_NoDup n offsets tps :
  forall selected,
    NoDup selected ->
    NoDup (fold_left
             (fun selected p =>
                fold_left
                  (fun selected offset =>
                     let idx := (p + offset)%Z in
                     if (0 <=? idx)%Z && (idx <? n)%Z
                     then TableText.add idx selected
                     else selected) offsets selected) tps selected).
Proof.
  induction tps as [|p tps IH]; intros selected Hnd; cbn [fold_left];
    [exact Hnd|].
  apply IH. now apply offsets_NoDup.
Qed.

Lemma items_in_range {A} (l : list A) indices :
  (forall i, In i indices -> (0 <= i < Z.of_nat (List.length l))%Z) ->
  exists xs,
    TableText.items l indices = Some xs
    /\ Forall2 (fun i x => nth_error l (Z.to_nat i) = Some x) indices xs.
Proof.
  induction indices as [|i indices IH]; intros Hr.
  - exists []. split; [reflexivity|constructor].
  - destruct IH as (xs & Hxs & Hall).
    { intros j Hj. apply Hr. now right. }
    pose proof (Hr i (or_introl eq_refl)) as Hi.
    destruct (nth_error l (Z.to_nat i)) as [x|] eqn:Hn.
    2: { apply nth_error_None in Hn. lia. }
    exists (x :: xs). cbn [TableText.items]. unfold TableText.item.
    destruct (i <? 0)%Z eqn:E; [apply Z.ltb_lt in E; lia|].
    rewrite Hn, Hxs. split; [reflexivity|]. now constructor.
Qed.

(** X26. [extract_table_text], from the texts of the pages on, never fails
    with an index out of range.  When no page matches a table pattern it
    returns the text of all the pages; otherwise the text of the selected
    pages in increasing order, each once, and a page is selected exactly when
    it is page 0 or lies within [expand_pages] of a page that matches. *)
Theorem extract_table_text_pages (pages_text : list string)
    (expand_pages : Z) :
  let sep := String (Ascii.ascii_of_nat 10)
                    (String (Ascii.ascii_of_nat 10) EmptyString) in
  (TableText.table_pages search pages_text = [] ->
   TableText.extract_table_text search pages_text expand_pages
   = Some (TableText.join sep pages_text))
  /\ (TableText.table_pages search pages_text <> [] ->
      exists selected texts,
        TableText.extract_table_text search pages_text expand_pages
        = Some (TableText.join sep texts)
        /\ Forall2 (fun i text => nth_error pages_text (Z.to_nat i) = Some text)
                   selected texts
        /\ StronglySorted Z.lt selected
        /\ forall i,
             In i selected
             <-> (0 <= i < Z.of_nat (List.length pages_text))%Z
                 /\ (i = 0%Z
                     \/ exists p,
                          In p (TableText.table_pages search pages_text)
                          /\ (p - expand_pages <= i <= p + expand_pages)%Z)).
Proof.
  cbn zeta. unfold TableText.extract_table_text. split.
  - intros ->. reflexivity.
  - intros Hne.
    destruct (TableText.table_pages search pages_text) as [|p ps] eqn:Et;
      [contradiction|]. rewrite <- Et in *.
    assert (Hpages : (0 < Z.of_nat (List.length pages_text))%Z).
    { assert (Hp : In p (TableText.table_pages search pages_text))
        by (rewrite Et; now left).
      apply table_pages_In in Hp. destruct Hp as (text & Hp & Hn & _).
      assert (Hsome : nth_error pages_text (Z.to_nat p) <> None) by congruence.
      apply nth_error_Some in Hsome. lia. }
    assert (Hsel : forall i,
              In i (TableText.sorted
                      (TableText.selected_pages pages_text expand_pages
                         (TableText.table_pages search pages_text)))
              <-> (0 <= i < Z.of_nat (List.length pages_text))%Z
                  /\ (i = 0%Z
                      \/ exists p,
                           In p (TableText.table_pages search pages_text)
                           /\ (p - expand_pages <= i <= p + expand_pages)%Z)).
    { intros i. rewrite sorted_In. unfold TableText.selected_pages.
      rewrite selected_fold_In. cbn [In]. split.
      - intros [[<-|[]]|(q & o & Hq & Ho & -> & Hr)].
        + split; [lia|now left].
        + apply range_In in Ho. split; [exact Hr|]. right. exists q.
          split; [exact Hq|lia].
      - intros [Hr [->|(q & Hq & Hi)]]; [left; now left|].
        right. exists q, (i - q)%Z. split; [exact Hq|].
        split; [apply range_In; lia|]. split; [lia|exact Hr]. }
    destruct (items_in_range pages_text
                (TableText.sorted
                   (TableText.selected_pages pages_text expand_pages
                      (TableText.table_pages search pages_text))))
      as (texts & Hitems & Hall).
    { intros i Hi. now apply Hsel in Hi. }
    rewrite Hitems. eexists _, texts. split; [reflexivity|].
    split; [exact Hall|]. split; [|exact Hsel].
    apply sorted_increasing. unfold TableText.selected_pages.
    apply selected_fold_NoDup. repeat constructor. intros [].
Qed.

End PageSelection.


(* ------------------------------------------------------------------------- *)
(** * A batch of analyses *)

Lemma filter_length_Forall2 {A B} (f : A -> bool) (g : B -> bool) l l' :
  Forall2 (fun a b => g b = f a) l l' ->
  List.length (filter g l') = List.length (filter f l).
Proof.
  induction 1 as [|a b l l' Hab _ IH]; [reflexivity|].
  cbn [filter]. rewrite Hab. destruct (f a); cbn [List.length]; now rewrite IH.
Qed.

Section Batch.

Variable F : Z -> R -> R.
Variable rng_state : Type.
Variable default_rng : option Z -> rng_state.
Variable rng_after : list (list Z) -> rng_state -> rng_state.
Variable fisher_exact :
  list (list Z) -> option rng_state -> result (float * float).
Variable combine_pvalues : list float -> result (float * float).
Variable str : error -> string.
Variable plot_file : string -> string.
Variable skip_cont skip_cat report_plots_enabled : bool.

Lemma analyze_item_recorded results item :
  exists r,
    analyze_item F rng_state default_rng rng_after fisher_exact combine_pvalues
      str plot_file skip_cont skip_cat report_plots_enabled results item
    = Ok (results ++ [r])%list
    /\ recorded F rng_state default_rng rng_after fisher_exact combine_pvalues
        str plot_file skip_cont skip_cat report_plots_enabled item r.
Proof.
  destruct item as [[[paper_id source] title] data].
  unfold analyze_item, recorded.
  destruct (run_test_pipeline F rng_state default_rng rng_after fisher_exact
              combine_pvalues data skip_cont skip_cat None)
    as [output|e] eqn:Hrun.
  - destruct (add_run_output F rng_state default_rng rng_after fisher_exact
                combine_pvalues data skip_cont skip_cat None output results
                paper_id source title
                (if report_plots_enabled then Some (plot_file paper_id)
                 else None) Hrun)
      as (r & Hadd & Herr & Hplot & (p & stat & Hget & Hp) & _).
    assert (Hne : Report.nonempty (Some output) = true).
    { destruct output; [discriminate|reflexivity]. }
    rewrite Hne. cbn [Report.truthy negb andb]. rewrite Hadd.
    exists r. split; [reflexivity|].
    destruct (add_result_appends _ _ _ _ _ _ _ _ Hadd)
      as (r' & Heq & Hid & Hsrc & Htitle & _).
    apply app_inj_tail in Heq. destruct Heq as [_ <-].
    split; [exact Hid|]. split; [exact Hsrc|]. split; [exact Htitle|].
    split; [exact Herr|]. split; [|exact Hplot]. now rewrite Hp, Hget.
  - cbn [Report.nonempty andb]. cbn.
    eexists. split; [reflexivity|]. cbn. repeat split.
Qed.

(** X27. The loop of [cmd_analyze] over the items, with a fresh report
    collector, records exactly one result per item, in order, and an item
    whose pipeline raises does not stop it: that item is recorded with the
    message of the exception and no test result, an item whose pipeline
    returns with the combined p-value of its bundle and no error.  In the
    summary, the papers are the items, and the successful analyses are the
    items whose pipeline returned. *)
Theorem cmd_analyze_loop_results
    (items : list (string * string * option string * Table1)) :
  exists results,
    cmd_analyze_loop F rng_state default_rng rng_after fisher_exact
      combine_pvalues str plot_file skip_cont skip_cat report_plots_enabled
      [] items = Ok results
    /\ Forall2 (recorded F rng_state default_rng rng_after fisher_exact combine_pvalues
                str plot_file skip_cont skip_cat report_plots_enabled)
               items results
    /\ Report.total_papers (Report.get_summary_stats results)
       = Z.of_nat (List.length items)
    /\ Report.successful_analyses (Report.get_summary_stats results)
       = Z.of_nat
           (List.length
              (filter (fun item =>
                         returned
                           (run_test_pipeline F rng_state default_rng
                              rng_after fisher_exact combine_pvalues
                              (snd item) skip_cont skip_cat None))
                      items)).
Proof.
  assert (Hloop : forall items results0,
            exists results,
              cmd_analyze_loop F rng_state default_rng rng_after fisher_exact
                combine_pvalues str plot_file skip_cont skip_cat
                report_plots_enabled results0 items
              = Ok (results0 ++ results)%list
              /\ Forall2 (recorded F rng_state default_rng rng_after fisher_exact combine_pvalues
                          str plot_file skip_cont skip_cat report_plots_enabled)
                         items results).
  { clear items. induction items as [|item items IH]; intros results0.
    - exists []. rewrite app_nil_r. split; [reflexivity|constructor].
    - cbn [cmd_analyze_loop].
      destruct (analyze_item_recorded results0 item) as (r & -> & Hr).
      cbn [bind]. destruct (IH (results0 ++ [r])%list) as (rs & -> & Hrs).
      exists (r :: rs). rewrite <- app_assoc. split; [reflexivity|].
      now constructor. }
  destruct (Hloop items []) as (results & Hok & Hall).
  exists results. split; [exact Hok|]. split; [exact Hall|].
  unfold Report.get_summary_stats.
  cbn [Report.total_papers Report.successful_analyses]. split.
  - now rewrite (Forall2_length Hall).
  - f_equal. apply filter_length_Forall2.
    eapply Forall2_weaken; [|exact Hall].
    intros [[[paper_id source] title] data] r _ Hr.
    unfold recorded in Hr. destruct Hr as (_ & _ & _ & H).
    cbn [snd]. unfold Report.succeeded.
    destruct (run_test_pipeline F rng_state default_rng rng_after fisher_exact
                combine_pvalues data skip_cont skip_cat None);
      destruct H as [-> _]; reflexivity.
Qed.

End Batch.

(* ------------------------------------------------------------------------- *)
(** * Columns of dtype object in a run *)

(** One continuous row, the first group reported by its confidence interval
    only: the engine imputes the sd and returns. *)
Lemma ci_only_engine_returns :
  exists out,
    process_continuous_variables_mean
      (Some (to_csv_wide (age_table None (Some 57) (Some 63))))
      (sample_size_of (age_table None (Some 57) (Some 63)))
    = Ok (Some out).
Proof.
  apply engine_returns.
  - reflexivity.
  - discriminate.
  - repeat constructor.
  - apply sample_size_of_NoDup.
  - intros g [<-|[<-|[]]]; simpl; auto.
  - intros r g n [<-|[]] Hn. simpl in Hn.
    destruct (String.eqb g "treatment") eqn:Et.
    + apply String.eqb_eq in Et. injection Hn as <-. subst g.
      unfold unusable.
      rewrite (nonzero_sd_nonzero_sem _ _ _
                 ((63 - 57) / (2 * 1.96) * sqrt (IZR 50))).
      * reflexivity.
      * lia.
      * unfold effective_sd. simpl. now rewrite sd_from_ci_formula by lia.
      * destruct (sqrt_sample_size 50) as [_ Hs]; [lia|].
        assert (0 < (63 - 57) / (2 * 1.96)) by lra. nra.
    + destruct (String.eqb g "control") eqn:Ec; [|discriminate].
      apply String.eqb_eq in Ec. injection Hn as <-. subst g.
      unfold unusable. rewrite (nonzero_sd_nonzero_sem _ _ _ 9);
        [reflexivity|lia|reflexivity|lra].
Qed.

Section ObjectColumns.

Variable F : Z -> R -> R.
Variable rng_state : Type.
Variable default_rng : option Z -> rng_state.
Variable rng_after : list (list Z) -> rng_state -> rng_state.
Variable fisher_exact :
  list (list Z) -> option rng_state -> result (float * float).
Variable combine_pvalues : list float -> result (float * float).

(** X29. For a table in which no group id contains "mean", "count" or
    "zscore": when the sd column or the mean column of some group is a
    column of dtype object, which is the case when no row holds a number in
    it (a group reported by its confidence interval in every row has such
    an sd column), and the engine returns at least two z-scores, a run with
    the continuous test enabled raises the [TypeError] of [np.isnan]: the
    chi-squared variance test cannot check the pooled array. *)
Theorem run_test_pipeline_object_column (json_data : Table1)
    (skip_categorical_var : bool) (random_seed : option Z)
    (out : DataFrame) (g : string) :
  plain_ids json_data = true ->
  total_of (sample_size_of json_data) <> 0%Z ->
  process_continuous_variables_mean (Some (to_csv_wide json_data))
    (sample_size_of json_data) = Ok (Some out) ->
  (2 <= List.length (flatten_zscores (Some out)))%nat ->
  In g (dict_keys (sample_size_of json_data)) ->
  is_object (to_csv_wide json_data) (column_label g "sd") = true
  \/ is_object (to_csv_wide json_data) (column_label g "mean") = true ->
  run_test_pipeline F rng_state default_rng rng_after fisher_exact
    combine_pvalues json_data false skip_categorical_var random_seed
  = Err (UFuncTypeError "isnan").
Proof.
  intros _ Htotal Hok Hlen Hg Hobj.
  unfold run_test_pipeline, collect_tests.
  apply Z.eqb_neq in Htotal. rewrite Htotal.
  unfold continuous_test. rewrite Hok. cbn [bind].
  assert (Hrows : df_rows out <> []).
  { intros E. unfold flatten_zscores in Hlen. rewrite E in Hlen.
    simpl in Hlen. lia. }
  assert (Hl : (0 <? frame_len (Some out))%Z = true).
  { apply Z.ltb_lt. cbn [frame_len]. unfold len.
    destruct (df_rows out); [contradiction|]. cbn [List.length]. lia. }
  assert (Hn : (0 <? Z.of_nat (List.length (flatten_zscores (Some out))))%Z
               = true) by (apply Z.ltb_lt; lia).
  assert (H2 : (2 <=? Z.of_nat (List.length (flatten_zscores (Some out))))%Z
               = true) by (apply Z.leb_le; lia).
  rewrite Hl, Hn. cbn [andb]. unfold chi_square_variance_test_array.
  rewrite (object_zscore_pooled _ _ _ g Hok Hrows Hg), H2; [reflexivity|].
  unfold object_zscore, object_sem.
  destruct Hobj as [-> | ->]; [apply orb_true_r | reflexivity].
Qed.

End ObjectColumns.

(** The single-row table of the boundary case, sd missing and interval
    57..63: the engine imputes the sd, and the run stops at [np.isnan]. *)
Lemma run_test_pipeline_object_column_witness :
  run_test_pipeline chi2_cdf_two_df unit unit_rng unit_rng_after
    fixed_fisher_exact fixed_combine_pvalues
    (age_table None (Some 57) (Some 63)) false false None
  = Err (UFuncTypeError "isnan").
Proof.
  destruct ci_only_engine_returns as [out Hok].
  apply (run_test_pipeline_object_column chi2_cdf_two_df unit unit_rng
           unit_rng_after fixed_fisher_exact fixed_combine_pvalues
           (age_table None (Some 57) (Some 63)) false None out "treatment").
  - reflexivity.
  - discriminate.
  - exact Hok.
  - rewrite (flatten_zscores_rows _ _ _ (sample_size_of_NoDup _)
               (to_csv_wide_fresh _) Hok).
    rewrite (length_flat_map_const _ _ 2); [simpl; lia|].
    intros r. apply length_map.
  - simpl. auto.
  - left. reflexivity.
Defined.

(* ------------------------------------------------------------------------- *)
(** * The columns a pattern selects *)

(** A word without a space cannot start in a group id and end in the
    [" (field)"] that follows it. *)
Lemma prefix_before_space word x rest :
  contains " " word = false ->
  String.prefix word (x ++ " " ++ rest) = String.prefix word x.
Proof.
  revert x. induction word as [|a word IH]; intros x Hw.
  - now destruct x.
  - cbn [contains] in Hw. apply orb_false_iff in Hw. destruct Hw as [Ha Hw].
    destruct x as [|b x]; cbn [append String.prefix] in *.
    + destruct (Ascii.ascii_dec a _) as [->|]; [|reflexivity].
      destruct (Ascii.ascii_dec _ _); [|congruence].
      now destruct word.
    + destruct (Ascii.ascii_dec a b); [|reflexivity]. now apply IH.
Qed.

Lemma contains_before_space word g rest :
  contains " " word = false ->
  contains word (g ++ " " ++ rest)
  = contains word g || contains word (" " ++ rest).
Proof.
  intros Hw. induction g as [|c g IH].
  - destruct word; reflexivity.
  - change (contains word (String c g ++ " " ++ rest))
      with (String.prefix word (String c g ++ " " ++ rest)
            || contains word (g ++ " " ++ rest)).
    rewrite (prefix_before_space word (String c g) rest Hw), IH.
    cbn [contains]. now rewrite orb_assoc.
Qed.

Lemma contains_column_label word g field :
  contains " " word = false ->
  contains word (column_label g field)
  = contains word g || contains word (" (" ++ field ++ ")").
Proof.
  intros Hw. unfold column_label.
  exact (contains_before_space word g ("(" ++ field ++ ")") Hw).
Qed.

Lemma plain_blocks word d g :
  plain word d = true -> In g (blocks d) -> contains word g = false.
Proof.
  unfold plain, column_groups. rewrite forallb_forall. intros H Hg.
  apply negb_true_iff, H, in_or_app. now left.
Qed.

(** In a frame without a group id that contains the word, the selected
    columns depend on the field only. *)
Lemma selected_plain word d :
  contains " " word = false ->
  plain word d = true ->
  selected word d
  = flat_map (fun g =>
                map (pair g)
                    (filter (fun field =>
                               contains word (" (" ++ field ++ ")"))
                            block_fields))
             (blocks d).
Proof.
  intros Hw Hplain. unfold selected.
  assert (H : forall gs, (forall g, In g gs -> In g (blocks d)) ->
            flat_map (fun g =>
                        map (pair g)
                            (filter (fun field =>
                                       contains word (column_label g field))
                                    block_fields)) gs
            = flat_map (fun g =>
                          map (pair g)
                              (filter (fun field =>
                                         contains word (" (" ++ field ++ ")"))
                                      block_fields)) gs).
  { induction gs as [|g gs IH]; intros Hin; [reflexivity|].
    cbn [flat_map]. rewrite IH by (intros g' Hg'; apply Hin; now right).
    f_equal. f_equal. apply filter_ext. intros field.
    rewrite (contains_column_label word g field Hw).
    now rewrite (plain_blocks word d g Hplain (Hin g (or_introl eq_refl))). }
  apply H. auto.
Qed.

(** Without such a group id, ["(count)"] selects the count column of every
    block and ["(mean)"] the mean column of every block. *)
Lemma selected_count d :
  plain "count" d = true ->
  selected "count" d = map (fun g => (g, "count")) (blocks d).
Proof.
  intros H. rewrite (selected_plain "count" d eq_refl H).
  induction (blocks d) as [|g gs IH]; [reflexivity|].
  cbn [flat_map map]. now rewrite IH.
Qed.

Lemma selected_mean d :
  plain "mean" d = true ->
  selected "mean" d = map (fun g => (g, "mean")) (blocks d).
Proof.
  intros H. rewrite (selected_plain "mean" d eq_refl H).
  induction (blocks d) as [|g gs IH]; [reflexivity|].
  cbn [flat_map map]. now rewrite IH.
Qed.

(** A group id that contains the word "count".  The row is categorical and
    has a count for every group, but the columns whose label contains
    "count" are then all the columns of that group, and the row holds no
    mean: [cat_df[count_cols].notna().all(axis=1)] is false for it. *)
Example low_count_selection :
  let d := to_csv_wide low_count_table in
  let r := wide_record 0 low_count_row in
  df_rows d = [r]
  /\ complete_categorical (blocks d) r
  /\ plain "count" d = false
  /\ selected "count" d
     = (map (pair "low count") block_fields ++ [("control", "count")])%list
  /\ isnan (c_mean (cell r "low count")) = true.
Proof.
  intros d r. split; [reflexivity|]. split; [|repeat split].
  split; [reflexivity|].
  intros g [<-|[<-|[]]]; eexists; reflexivity.
Qed.

(** With the usual group ids the same row is selected by its counts. *)
Example smoker_selection :
  selected "count" (to_csv_wide smoker_table)
  = [("treatment", "count"); ("control", "count")].
Proof. reflexivity. Qed.
